(** * Reconciliation core of the Yandex Cloud compute modules

    A shallow embedding of [plugins/modules/compute_disk.py] and
    [plugins/modules/compute_instance.py]: the locator [_find], the
    operation waiter [_wait], the RPC wrappers and the state machine of
    [main], written in a small state-and-exception monad over an abstract
    remote world, together with the Python values they compute with. *)

From Stdlib Require Import String Ascii List ZArith Bool Lia DecimalString.
From Stdlib Require Import Sorting.Sorted Sorting.Permutation.
From Stdlib Require Import Structures.OrderedTypeEx.
Import ListNotations.
Open Scope string_scope.

(** ** Python values *)

Module Py.

(** [str(n)] for an [int]. *)
Definition str_int (n : Z) : string := NilZero.string_of_int (Z.to_int n).

(** [str(x)] for a parameter of type [int] that may be [None]. *)
Definition str_opt_int (o : option Z) : string :=
  match o with
  | Some n => str_int n
  | None => "None"
  end.

(** A [dict] with [str] keys and values, in insertion order. *)
Definition pydict := list (string * string).

Fixpoint get (k : string) (d : pydict) : option string :=
  match d with
  | [] => None
  | (k', v) :: r => if String.eqb k k' then Some v else get k r
  end.

(** [d[k] = v]: an existing key keeps its place. *)
Fixpoint setitem (k v : string) (d : pydict) : pydict :=
  match d with
  | [] => [(k, v)]
  | (k', v') :: r =>
      if String.eqb k k' then (k, v) :: r else (k', v') :: setitem k v r
  end.

(** [d.items()]. *)
Definition items (d : pydict) : list (string * string) := d.

(** [dict(pairs)]. *)
Definition dict (pairs : list (string * string)) : pydict :=
  fold_left (fun d kv => setitem (fst kv) (snd kv) d) pairs [].

(** [a < b] on 2-tuples of [str]: lexicographic, code point order. *)
Definition tuple_ltb (a b : string * string) : bool :=
  match String.compare (fst a) (fst b) with
  | Lt => true
  | Eq => String.ltb (snd a) (snd b)
  | Gt => false
  end.

(** [a <= b]: [b] is not below [a]. *)
Definition tuple_le (a b : string * string) : Prop := tuple_ltb b a = false.

Fixpoint insert (x : string * string) (l : list (string * string)) :=
  match l with
  | [] => [x]
  | y :: r => if tuple_ltb y x then y :: insert x r else x :: y :: r
  end.

(** [sorted(pairs)]: a stable sort. *)
Definition sorted (pairs : list (string * string)) :=
  fold_right insert [] pairs.

(** [a == b] on dicts: same length, and every key of [a] is in [b] with an
    equal value; insertion order plays no part. *)
Definition dict_eqb (a b : pydict) : bool :=
  Nat.eqb (length a) (length b)
  && forallb (fun kv => match get (fst kv) b with
                        | Some v => String.eqb (snd kv) v
                        | None => false
                        end) a.

(** What the modules import from the Python library and do not define:
    [repr] on [str] (the [%r] conversion), [json.dumps] of the three
    mutable fields followed by [splitlines], and [difflib.ndiff]. *)
Class Lib := {
  repr : string -> string;
  (** [dumps({'size': s, 'description': d, 'labels': l}, indent=2,
      sort_keys=True).splitlines(keepends=True)] *)
  dumps_lines : string -> string -> pydict -> list string;
  ndiff : list string -> list string -> list string;
}.

(** A line of [ndiff] output that reports a change: it starts with
    [- ], [+ ] or [? ]; an unchanged line starts with two spaces. *)
Definition change_line (l : string) : bool :=
  String.prefix "- " l || String.prefix "+ " l || String.prefix "? " l.

(** What is known of [json.dumps] and [difflib.ndiff]: serialisation of
    label dicts (distinct keys) that are key-sorted loses nothing, equal
    inputs give no change line, different inputs give at least one. *)
Record lib_contract (L : Lib) : Prop := {
  dumps_lines_inj : forall s d l s' d' l',
    NoDup (map fst l) -> NoDup (map fst l') ->
    l = sorted l -> l' = sorted l' ->
    dumps_lines s d l = dumps_lines s' d' l' -> s = s' /\ d = d' /\ l = l';
  ndiff_equal : forall a, existsb change_line (ndiff a a) = false;
  ndiff_differ : forall a b, a <> b -> existsb change_line (ndiff a b) = true;
}.

(** Exceptions (subclasses of [Exception]) the modules see. *)
Inductive exn :=
| RpcError (text : string)        (** raised by a stub; [text] is its [str] *)
| OperationError (text : string)  (** [module_utils.common.OperationError] *)
| KeyError (key : string).

(** [to_native(e)] for an exception: its [str]. *)
Definition str_exn {L : Lib} (e : exn) : string :=
  match e with
  | RpcError t => t
  | OperationError t => t
  | KeyError k => repr k
  end.

End Py.

(** ** Outcomes and the monad of a module run *)

(** How a piece of module code ends. [exit_json] and [fail_json] of
    [AnsibleModule] end the process by raising [SystemExit], which is not an
    [Exception]: no [except Exception] clause of the modules catches it.
    [Pending] is a poll loop that has not ended within the fuel given. *)
Inductive outcome (R A : Type) :=
| Returns (a : A)
| Raises (e : Py.exn)
| ExitJson (changed : bool) (msg : string) (resource : option R) (diff : option string)
| FailJson (msg : string)
| Pending.

Arguments Returns {R A} a.
Arguments Raises {R A} e.
Arguments ExitJson {R A} changed msg resource diff.
Arguments FailJson {R A} msg.
Arguments Pending {R A}.

Section Monad.
(** [W]: the remote world; [E]: the calls recorded; [R]: the resource
    reported by [exit_json]. *)
Context {W E R : Type}.

Definition session := (W * list E)%type.
Definition M (A : Type) := session -> outcome R A * session.

Definition ret {A} (a : A) : M A := fun s => (Returns a, s).

Definition bind {A B} (m : M A) (k : A -> M B) : M B :=
  fun s =>
    match m s with
    | (Returns a, s') => k a s'
    | (Raises e, s') => (Raises e, s')
    | (ExitJson c m r d, s') => (ExitJson c m r d, s')
    | (FailJson m, s') => (FailJson m, s')
    | (Pending, s') => (Pending, s')
    end.

Definition raise {A} (e : Py.exn) : M A := fun s => (Raises e, s).
Definition exit_json {A} (changed : bool) (msg : string)
           (resource : option R) (diff : option string) : M A :=
  fun s => (ExitJson changed msg resource diff, s).
Definition fail_json {A} (msg : string) : M A := fun s => (FailJson msg, s).
Definition pending {A} : M A := fun s => (Pending, s).

(** [try: body / except Exception as e: handler e]. *)
Definition try_except {A} (body : M A) (handler : Py.exn -> M A) : M A :=
  fun s =>
    match body s with
    | (Raises e, s') => handler e s'
    | r => r
    end.

(** One call [ev] on a stub: the world answers with a message or raises. *)
Definition rpc {A} (ev : E) (stub : W -> (Py.exn + A) * W) : M A :=
  fun s =>
    let '(answer, w') := stub (fst s) in
    (match answer with
     | inl e => Raises e
     | inr a => Returns a
     end, (w', (snd s ++ [ev])%list)).

(** A step that only leaves a mark in the trace ([sleep]). *)
Definition mark (ev : E) : M unit := fun s => (Returns tt, (fst s, (snd s ++ [ev])%list)).
End Monad.

Declare Scope py_scope.
Delimit Scope py_scope with py.
Notation "x <- m ;; k" := (bind m (fun x => k))
  (at level 61, m at next level, right associativity) : py_scope.
Notation "m ;; k" := (bind m (fun _ => k))
  (at level 61, right associativity) : py_scope.
Open Scope py_scope.

(** ** Long-running operations (yandex.cloud.operation) *)

(** [error] of an operation: a [google.rpc.Status]. *)
Record Status := { code : Z; message : string }.

(** What [message_to_dict] gives for an [Operation]: [done] is looked up
    with ['done' in operation]; [error] is one side of a oneof and is a key
    only when set; [metadata] is a key only when set, and carries the id of
    the resource the operation works on. *)
Record Operation := {
  op_id : string;
  op_done : option bool;
  op_error : option Status;
  op_metadata : option string;
}.

Record OperationServiceStub (W : Type) := {
  operation_Get : string -> W -> (Py.exn + Operation) * W;
}.
Arguments operation_Get {W} _ _ _.

Section Polling.
Context {W : Type}.
Variable operation_service : OperationServiceStub W.

(** The world after [k] polls of [operation_id] that each answer with an
    operation not yet done; [None] when one of them raises or is done. *)
Fixpoint polled (k : nat) (operation_id : string) (w : W) : option W :=
  match k with
  | O => Some w
  | S k' =>
      match operation_Get operation_service operation_id w with
      | (inr operation, w') =>
          match op_done operation with
          | Some true => None
          | _ => polled k' operation_id w'
          end
      | (inl _, _) => None
      end
  end.

(** The status sequence of [operation_id] from world [w] reaches the record
    [terminal], with [done] true, at poll [k + 1], leaving world [w']. *)
Definition reaches (k : nat) (operation_id : string) (w : W)
           (terminal : Operation) (w' : W) : Prop :=
  exists w1,
    polled k operation_id w = Some w1
    /\ operation_Get operation_service operation_id w1 = (inr terminal, w')
    /\ op_done terminal = Some true.
End Polling.

(** ** plugins/modules/compute_disk.py *)

Module compute_disk.

Inductive State := present | absent.

(** [module.params], after [AnsibleModule] has checked the argument spec. *)
Record params := {
  state : State;
  folder_id : string;
  name : string;
  description : string;
  labels : Py.pydict;
  type_id : option string;
  zone_id : option string;
  size : option Z;
  image_id : option string;
  snapshot_id : option string;
  block_size : Z;
}.

(** A disk as [message_to_dict] renders it: [size], an int64, is a [str]. *)
Record Disk := {
  disk_id : string;
  disk_name : string;
  disk_description : string;
  disk_labels : Py.pydict;
  disk_size : string;
}.

Record ListDisksRequest := {
  list_folder_id : string;
  list_filter : string;
  list_page_size : Z;
}.

Record CreateDiskRequest := {
  create_folder_id : string;
  create_name : string;
  create_description : string;
  create_labels : Py.pydict;
  create_type_id : option string;
  create_zone_id : option string;
  create_size : option Z;
  create_image_id : option string;
  create_snapshot_id : option string;
  create_block_size : Z;
}.

Record UpdateDiskRequest := {
  update_disk_id : string;
  update_mask : list string;
  update_size : option Z;
  update_description : string;
  update_labels : Py.pydict;
}.

(** The calls a run makes, in the order it makes them. *)
Inductive call :=
| DiskList (request : ListDisksRequest)
| DiskGet (disk_id : string)
| DiskCreate (request : CreateDiskRequest)
| DiskUpdate (request : UpdateDiskRequest)
| DiskDelete (disk_id : string)
| OperationGet (operation_id : string)
| Sleep (seconds : Z).

(** Calls that change nothing remotely: List, Get, and the polls of an
    operation. The others are Create, Update and Delete. *)
Definition reads (c : call) : bool :=
  match c with
  | DiskList _ | DiskGet _ | OperationGet _ | Sleep _ => true
  | DiskCreate _ | DiskUpdate _ | DiskDelete _ => false
  end.

Record DiskServiceStub (W : Type) := {
  List : ListDisksRequest -> W -> (Py.exn + list Disk) * W;
  Get : string -> W -> (Py.exn + Disk) * W;
  Create : CreateDiskRequest -> W -> (Py.exn + Operation) * W;
  Update : UpdateDiskRequest -> W -> (Py.exn + Operation) * W;
  Delete : string -> W -> (Py.exn + Operation) * W;
}.
Arguments List {W} _ _ _.
Arguments Get {W} _ _ _.
Arguments Create {W} _ _ _.
Arguments Update {W} _ _ _.
Arguments Delete {W} _ _ _.

Section Run.
Context {L : Py.Lib} {W : Type}.
Variable module : params.
Variable disk_service : DiskServiceStub W.
Variable operation_service : OperationServiceStub W.

(** Code of this module: calls are [call]s, the resource reported is a disk. *)
Definition Run (A : Type) := @M W call Disk A.

(** The request [_find] builds. *)
Definition find_request : ListDisksRequest :=
  {| list_folder_id := folder_id module;
     list_filter := "name = " ++ Py.repr (name module);
     list_page_size := 1 |}.

(** [_find]: the empty dict is [None]; a disk dict is never empty. *)
Definition _find : Run (option Disk) :=
  try_except
    (response <- rpc (DiskList find_request) (List disk_service find_request) ;;
     match response with
     | [disk] => ret (Some disk)
     | _ => ret None
     end)
    (fun e => fail_json ("unknown error find disk " ++ Py.repr (name module)
                         ++ ". Error was: " ++ Py.str_exn e)).

Definition _get (disk_id : string) : Run Disk :=
  try_except
    (rpc (DiskGet disk_id) (Get disk_service disk_id))
    (fun e => fail_json ("unknown error get disk " ++ Py.repr (name module)
                         ++ ". Error was: " ++ Py.str_exn e)).

Definition create_request : CreateDiskRequest :=
  {| create_folder_id := folder_id module;
     create_name := name module;
     create_description := description module;
     create_labels := labels module;
     create_type_id := type_id module;
     create_zone_id := zone_id module;
     create_size := size module;
     create_image_id := image_id module;
     create_snapshot_id := snapshot_id module;
     create_block_size := block_size module |}.

Definition _create : Run Operation :=
  try_except
    (rpc (DiskCreate create_request) (Create disk_service create_request))
    (fun e => fail_json ("unknown error create disk " ++ Py.repr (name module)
                         ++ ". Error was: " ++ Py.str_exn e)).

Definition update_request (disk_id : string) : UpdateDiskRequest :=
  {| update_disk_id := disk_id;
     update_mask := ["size"; "description"; "labels"];
     update_size := size module;
     update_description := description module;
     update_labels := labels module |}.

Definition _update (disk_id : string) : Run Operation :=
  try_except
    (rpc (DiskUpdate (update_request disk_id))
         (Update disk_service (update_request disk_id)))
    (fun e => fail_json ("unknown error update disk " ++ Py.repr (name module)
                         ++ ". Error was: " ++ Py.str_exn e)).

Definition _delete (disk_id : string) : Run Operation :=
  try_except
    (rpc (DiskDelete disk_id) (Delete disk_service disk_id))
    (fun e => fail_json ("unknown error delete disk " ++ Py.repr (name module)
                         ++ ". Error was: " ++ Py.str_exn e)).

(** What [n] turns of the wait loop leave in the trace. *)
Definition polls (n : nat) (operation_id : string) : list call :=
  concat (repeat [Sleep 1; OperationGet operation_id] n).

(** The text of the [OperationError] raised for a terminal error. *)
Definition operation_error_text (error : Status) : string :=
  "unknown operation error code " ++ Py.repr (Py.str_int (code error))
  ++ ". Error was: " ++ message error.

(** The [while True] loop of [_wait]; each turn uses one unit of fuel. *)
Fixpoint wait_loop (fuel : nat) (operation_id : string) : Run unit :=
  match fuel with
  | O => pending
  | S fuel' =>
      mark (Sleep 1) ;;
      operation <- rpc (OperationGet operation_id)
                       (operation_Get operation_service operation_id) ;;
      match op_done operation with
      | Some true =>
          match op_error operation with
          | Some error => raise (Py.OperationError (operation_error_text error))
          | None => ret tt
          end
      | _ => wait_loop fuel' operation_id
      end
  end.

Definition _wait (fuel : nat) (operation_id : string) : Run unit :=
  try_except
    (wait_loop fuel operation_id)
    (fun e => fail_json ("unknown error operation disk " ++ Py.repr (name module)
                         ++ ". Error was: " ++ Py.str_exn e)).

(** The [elif] condition of the [present] case: an update is needed. *)
Definition needs_update (disk : Disk) : bool :=
  negb (String.eqb (disk_size disk) (Py.str_opt_int (size module)))
  || negb (String.eqb (disk_description disk) (description module))
  || negb (Py.dict_eqb (Py.dict (Py.sorted (Py.items (disk_labels disk))))
                       (Py.dict (Py.sorted (Py.items (labels module))))).

(** The lines [ndiff] yields in the update branch. *)
Definition diff_lines (disk : Disk) : list string :=
  Py.ndiff
    (Py.dumps_lines (disk_size disk) (disk_description disk)
                    (Py.dict (Py.sorted (Py.items (disk_labels disk)))))
    (Py.dumps_lines (Py.str_opt_int (size module)) (description module)
                    (Py.dict (Py.sorted (Py.items (labels module))))).

Definition main (fuel : nat) : Run unit :=
  disk <- _find ;;
  match state module with
  | present =>
      match disk with
      | None =>
          operation <- _create ;;
          _wait fuel (op_id operation) ;;
          match op_metadata operation with
          | Some disk_id =>
              created <- _get disk_id ;;
              exit_json true ("disk " ++ Py.repr (name module) ++ " created")
                        (Some created) None
          | None => raise (Py.KeyError "metadata")
          end
      | Some disk =>
          if needs_update disk then
            operation <- _update (disk_id disk) ;;
            _wait fuel (op_id operation) ;;
            let diff := diff_lines disk in
            updated <- _get (disk_id disk) ;;
            exit_json true ("disk " ++ Py.repr (name module) ++ " updated")
                      (Some updated) (Some (String.concat "" diff))
          else
            exit_json false ("disk " ++ Py.repr (name module) ++ " exists and ready")
                      (Some disk) None
      end
  | absent =>
      match disk with
      | None =>
          exit_json false ("disk " ++ Py.repr (name module) ++ " not exists")
                    None None
      | Some disk =>
          operation <- _delete (disk_id disk) ;;
          _wait fuel (op_id operation) ;;
          exit_json true ("disk " ++ Py.repr (name module) ++ " deleted")
                    None None
      end
  end.

End Run.
End compute_disk.

(** ** plugins/modules/compute_instance.py *)

Module compute_instance.

Inductive State := present | restarted | stopped | absent.

(** [module.params]; of the instance description only the scalar fields are
    kept, the nested specs (resources, disks, network interfaces, policies)
    are copied into the create request in the same way and take no part in
    the control flow. *)
Record params := {
  state : State;
  folder_id : string;
  name : string;
  description : option string;
  labels : option Py.pydict;
  zone_id : option string;
  platform_id : string;
  hostname : option string;
  service_account_id : option string;
}.

(** An instance as [message_to_dict] renders it; [status] is the enum name. *)
Record Instance := {
  instance_id : string;
  instance_name : string;
  instance_status : string;
}.

(** [page_size] is not passed by [_find]: the field stays unset. *)
Record ListInstancesRequest := {
  list_folder_id : string;
  list_filter : string;
  list_page_size : option Z;
  list_order_by : string;
}.

Record CreateInstanceRequest := {
  create_folder_id : string;
  create_name : string;
  create_description : option string;
  create_labels : option Py.pydict;
  create_zone_id : option string;
  create_platform_id : string;
  create_hostname : option string;
  create_service_account_id : option string;
}.

Inductive call :=
| InstanceList (request : ListInstancesRequest)
| InstanceGet (instance_id : string) (view : string)
| InstanceCreate (request : CreateInstanceRequest)
| InstanceStart (instance_id : string)
| InstanceRestart (instance_id : string)
| InstanceStop (instance_id : string)
| InstanceDelete (instance_id : string)
| OperationGet (operation_id : string)
| Sleep (seconds : Z).

(** Calls that change nothing remotely: List, Get, and the polls of an
    operation. The others are Create, Start, Restart, Stop and Delete. *)
Definition reads (c : call) : bool :=
  match c with
  | InstanceList _ | InstanceGet _ _ | OperationGet _ | Sleep _ => true
  | InstanceCreate _ | InstanceStart _ | InstanceRestart _
  | InstanceStop _ | InstanceDelete _ => false
  end.

Record InstanceServiceStub (W : Type) := {
  List : ListInstancesRequest -> W -> (Py.exn + list Instance) * W;
  Get : string -> W -> (Py.exn + Instance) * W;
  Create : CreateInstanceRequest -> W -> (Py.exn + Operation) * W;
  Start : string -> W -> (Py.exn + Operation) * W;
  Restart : string -> W -> (Py.exn + Operation) * W;
  Stop : string -> W -> (Py.exn + Operation) * W;
  Delete : string -> W -> (Py.exn + Operation) * W;
}.
Arguments List {W} _ _ _.
Arguments Get {W} _ _ _.
Arguments Create {W} _ _ _.
Arguments Start {W} _ _ _.
Arguments Restart {W} _ _ _.
Arguments Stop {W} _ _ _.
Arguments Delete {W} _ _ _.

Section Run.
Context {L : Py.Lib} {W : Type}.
Variable module : params.
Variable instance_service : InstanceServiceStub W.
Variable operation_service : OperationServiceStub W.

(** Code of this module: calls are [call]s, the resource reported is an
    instance. *)
Definition Run (A : Type) := @M W call Instance A.

Definition find_filter : string := "name = " ++ Py.repr (name module).

Definition find_request : ListInstancesRequest :=
  {| list_folder_id := folder_id module;
     list_filter := find_filter;
     list_page_size := None;
     list_order_by := "name asc" |}.

Definition _find : Run (option Instance) :=
  try_except
    (response <- rpc (InstanceList find_request) (List instance_service find_request) ;;
     match response with
     | [instance] => ret (Some instance)
     | _ => ret None
     end)
    (fun e => fail_json ("unknown error find instance " ++ Py.repr (folder_id module)
                         ++ " by filter " ++ Py.repr find_filter
                         ++ ". Error was: " ++ Py.str_exn e)).

Definition _get (instance_id : string) : Run Instance :=
  try_except
    (rpc (InstanceGet instance_id "FULL") (Get instance_service instance_id))
    (fun e => fail_json ("unknown error getting instance by id " ++ Py.repr instance_id
                         ++ ". Error was: " ++ Py.str_exn e)).

Definition create_request : CreateInstanceRequest :=
  {| create_folder_id := folder_id module;
     create_name := name module;
     create_description := description module;
     create_labels := labels module;
     create_zone_id := zone_id module;
     create_platform_id := platform_id module;
     create_hostname := hostname module;
     create_service_account_id := service_account_id module |}.

Definition _create : Run Operation :=
  try_except
    (rpc (InstanceCreate create_request) (Create instance_service create_request))
    (fun e => fail_json ("unknown error create instance " ++ Py.repr (name module)
                         ++ ". Error was: " ++ Py.str_exn e)).

Definition _start (instance_id : string) : Run Operation :=
  try_except
    (rpc (InstanceStart instance_id) (Start instance_service instance_id))
    (fun e => fail_json ("unknown error starting instance by id " ++ Py.repr instance_id
                         ++ ". Error was: " ++ Py.str_exn e)).

Definition _restart (instance_id : string) : Run Operation :=
  try_except
    (rpc (InstanceRestart instance_id) (Restart instance_service instance_id))
    (fun e => fail_json ("unknown error restarting instance by id " ++ Py.repr instance_id
                         ++ ". Error was: " ++ Py.str_exn e)).

Definition _stop (instance_id : string) : Run Operation :=
  try_except
    (rpc (InstanceStop instance_id) (Stop instance_service instance_id))
    (fun e => fail_json ("unknown error stopping instance by id " ++ Py.repr instance_id
                         ++ ". Error was: " ++ Py.str_exn e)).

Definition _delete (instance_id : string) : Run Operation :=
  try_except
    (rpc (InstanceDelete instance_id) (Delete instance_service instance_id))
    (fun e => fail_json ("unknown error deleting instance by id " ++ Py.repr instance_id
                         ++ ". Error was: " ++ Py.str_exn e)).

(** What [n] turns of the wait loop leave in the trace. *)
Definition polls (n : nat) (operation_id : string) : list call :=
  concat (repeat [Sleep 1; OperationGet operation_id] n).

Definition operation_error_text (error : Status) : string :=
  "unknown operation error code " ++ Py.repr (Py.str_int (code error))
  ++ ". Error was: " ++ message error.

Fixpoint wait_loop (fuel : nat) (operation_id : string) : Run unit :=
  match fuel with
  | O => pending
  | S fuel' =>
      mark (Sleep 1) ;;
      operation <- rpc (OperationGet operation_id)
                       (operation_Get operation_service operation_id) ;;
      match op_done operation with
      | Some true =>
          match op_error operation with
          | Some error => raise (Py.OperationError (operation_error_text error))
          | None => ret tt
          end
      | _ => wait_loop fuel' operation_id
      end
  end.

(** The message says [disk] here too, as in the source. *)
Definition _wait (fuel : nat) (operation_id : string) : Run unit :=
  try_except
    (wait_loop fuel operation_id)
    (fun e => fail_json ("unknown error operation disk " ++ Py.repr (name module)
                         ++ ". Error was: " ++ Py.str_exn e)).

(** [instance['id']] where [instance] may be the empty dict. *)
Definition item_id (instance : option Instance) : Run string :=
  match instance with
  | Some i => ret (instance_id i)
  | None => raise (Py.KeyError "id")
  end.

Definition main (fuel : nat) : Run unit :=
  instance <- _find ;;
  match state module with
  | present =>
      match instance with
      | None =>
          operation <- _create ;;
          _wait fuel (op_id operation) ;;
          match op_metadata operation with
          | Some instance_id =>
              created <- _get instance_id ;;
              exit_json true
                        ("instance " ++ Py.repr (name module) ++ " created and running")
                        (Some created) None
          | None => raise (Py.KeyError "metadata")
          end
      | Some i =>
          if String.eqb (instance_status i) "STOPPED" then
            operation <- _start (instance_id i) ;;
            _wait fuel (op_id operation) ;;
            started <- _get (instance_id i) ;;
            exit_json true
                      ("instance " ++ Py.repr (name module) ++ " exists and running")
                      (Some started) None
          else
            exit_json false
                      ("instance " ++ Py.repr (name module) ++ " exists and running")
                      (Some i) None
      end
  | restarted =>
      match instance with
      | None =>
          fail_json ("not found instance with name " ++ Py.repr (name module))
      | Some i =>
          if String.eqb (instance_status i) "STOPPED" then
            operation <- _start (instance_id i) ;;
            _wait fuel (op_id operation)
          else
            operation <- _restart (instance_id i) ;;
            _wait fuel (op_id operation)
      end ;;
      id <- item_id instance ;;
      fetched <- _get id ;;
      exit_json true ("instance " ++ Py.repr (name module) ++ " restarted")
                (Some fetched) None
  | stopped =>
      match instance with
      | None =>
          fail_json ("not found instance with name " ++ Py.repr (name module))
      | Some i =>
          if String.eqb (instance_status i) "STOPPED" then
            fetched <- _get (instance_id i) ;;
            exit_json false ("instance " ++ Py.repr (name module) ++ " stopped")
                      (Some fetched) None
          else
            operation <- _stop (instance_id i) ;;
            _wait fuel (op_id operation)
      end ;;
      id <- item_id instance ;;
      fetched <- _get id ;;
      exit_json true ("instance " ++ Py.repr (name module) ++ " stopped")
                (Some fetched) None
  | absent =>
      match instance with
      | None =>
          exit_json false ("not found instance with name " ++ Py.repr (name module))
                    None None
      | Some i =>
          operation <- _delete (instance_id i) ;;
          _wait fuel (op_id operation) ;;
          exit_json true ("instance " ++ Py.repr (name module) ++ " deleted")
                    None None
      end
  end.

End Run.
End compute_instance.

(** An operation that completes without error within the fuel: its status
    sequence from world [w] reaches a record with [done] true and no error
    at poll [k + 1], leaving world [w']. *)
Definition succeeds {W : Type} (operation_service : OperationServiceStub W)
           (k fuel : nat) (operation : Operation) (w w' : W) : Prop :=
  (k < fuel)%nat
  /\ exists terminal,
      reaches operation_service k (op_id operation) w terminal w'
      /\ op_error terminal = None.

(** ** Traces *)

Section Traces.
Context {W E R : Type}.

Definition result_of {A} (r : outcome R A * @session W E) : outcome R A := fst r.
Definition trace_of {A} (r : outcome R A * @session W E) : list E := snd (snd r).

(** [m] keeps the trace it is given and adds only calls that satisfy [P]. *)
Definition emits {A} (P : E -> Prop) (m : @M W E R A) : Prop :=
  forall s, exists rest, trace_of (m s) = (snd s ++ rest)%list /\ Forall P rest.
End Traces.

(** ** Sample inputs *)

Module Sample.

Fixpoint lines_eqb (a b : list string) : bool :=
  match a, b with
  | [], [] => true
  | x :: a', y :: b' => String.eqb x y && lines_eqb a' b'
  | _, _ => false
  end.

(** A stand-in for the Python library: quotes around a name, one line per
    field, and a diff that marks every line when the two sides differ. *)
Definition lib : Py.Lib :=
  {| Py.repr := fun s => "'" ++ s ++ "'";
     Py.dumps_lines := fun s d l =>
       (s :: d :: flat_map (fun kv => [fst kv; snd kv]) l)%list;
     Py.ndiff := fun a b =>
       if lines_eqb a b then map (append "  ") a
       else (map (append "- ") a ++ map (append "+ ") b)%list |}.

(** The world is the number of operation polls answered so far: an
    operation is pending for [pending] polls, then done with [error]. *)
Definition operations (pending : nat) (error : option Status)
  : OperationServiceStub nat :=
  {| operation_Get := fun id w =>
       (inr {| op_id := id;
               op_done := Some (pending <=? w)%nat;
               op_error := if (pending <=? w)%nat then error else None;
               op_metadata := None |}, S w) |}.

Definition started (id : string) (resource_id : string) : Operation :=
  {| op_id := id; op_done := Some false; op_error := None;
     op_metadata := Some resource_id |}.

Definition disk_params (st : compute_disk.State) : compute_disk.params :=
  {| compute_disk.state := st;
     compute_disk.folder_id := "b1g0";
     compute_disk.name := "data-1";
     compute_disk.description := "";
     compute_disk.labels := [("env", "prod"); ("app", "db")];
     compute_disk.type_id := Some "network-ssd";
     compute_disk.zone_id := Some "ru-central1-a";
     compute_disk.size := Some 20000000000%Z;
     compute_disk.image_id := None;
     compute_disk.snapshot_id := None;
     compute_disk.block_size := 4096 |}.

Definition data1 : compute_disk.Disk :=
  {| compute_disk.disk_id := "epd1";
     compute_disk.disk_name := "data-1";
     compute_disk.disk_description := "";
     compute_disk.disk_labels := [("app", "db"); ("env", "prod")];
     compute_disk.disk_size := "20000000000" |}.

Definition data1_small : compute_disk.Disk :=
  {| compute_disk.disk_id := "epd1";
     compute_disk.disk_name := "data-1";
     compute_disk.disk_description := "";
     compute_disk.disk_labels := [("app", "db"); ("env", "prod")];
     compute_disk.disk_size := "10000000000" |}.

(** A disk service that lists [found] and lets every other call succeed. *)
Definition disks (found : list compute_disk.Disk) : compute_disk.DiskServiceStub nat :=
  {| compute_disk.List := fun _ w => (inr found, w);
     compute_disk.Get := fun _ w => (inr data1, w);
     compute_disk.Create := fun _ w => (inr (started "op-create" "epd1"), w);
     compute_disk.Update := fun _ w => (inr (started "op-update" "epd1"), w);
     compute_disk.Delete := fun _ w => (inr (started "op-delete" "epd1"), w) |}.

Definition instance_params (st : compute_instance.State) : compute_instance.params :=
  {| compute_instance.state := st;
     compute_instance.folder_id := "b1g0";
     compute_instance.name := "vm-1";
     compute_instance.description := None;
     compute_instance.labels := None;
     compute_instance.zone_id := Some "ru-central1-a";
     compute_instance.platform_id := "standard-v3";
     compute_instance.hostname := None;
     compute_instance.service_account_id := None |}.

Definition vm (status : string) : compute_instance.Instance :=
  {| compute_instance.instance_id := "fhm1";
     compute_instance.instance_name := "vm-1";
     compute_instance.instance_status := status |}.

(** An instance service that lists [found], answers [Get] with an instance
    in [status] and lets every other call succeed. *)
Definition instances (found : list compute_instance.Instance) (status : string)
  : compute_instance.InstanceServiceStub nat :=
  {| compute_instance.List := fun _ w => (inr found, w);
     compute_instance.Get := fun _ w => (inr (vm status), w);
     compute_instance.Create := fun _ w => (inr (started "op-create" "fhm1"), w);
     compute_instance.Start := fun _ w => (inr (started "op-start" "fhm1"), w);
     compute_instance.Restart := fun _ w => (inr (started "op-restart" "fhm1"), w);
     compute_instance.Stop := fun _ w => (inr (started "op-stop" "fhm1"), w);
     compute_instance.Delete := fun _ w => (inr (started "op-delete" "fhm1"), w) |}.

End Sample.

(** ** plugins/lookup: what the two lookups share *)

Module lookup.

(** The exceptions of a lookup run: [AnsibleError], which the plugin raises
    itself, and the others, raised by a stub or by [message_to_dict]. *)
Inductive exn :=
| AnsibleError (msg : string)
| Other (e : Py.exn).

(** [to_native(e)]. *)
Definition to_native {L : Py.Lib} (e : exn) : string :=
  match e with
  | AnsibleError msg => msg
  | Other e' => Py.str_exn e'
  end.

(** [str.strip()], taken from Python as it is. *)
Class Str := { strip : string -> string }.

Inductive outcome (A : Type) :=
| Returns (a : A)
| Raises (e : exn).
Arguments Returns {A} a.
Arguments Raises {A} e.

Section Monad.
(** [W]: the remote world; [E]: the calls recorded. *)
Context {W E : Type}.

Definition session := (W * list E)%type.
Definition M (A : Type) := session -> outcome A * session.

Definition ret {A} (a : A) : M A := fun s => (Returns a, s).

Definition bind {A B} (m : M A) (k : A -> M B) : M B :=
  fun s =>
    match m s with
    | (Returns a, s') => k a s'
    | (Raises e, s') => (Raises e, s')
    end.

Definition raise {A} (e : exn) : M A := fun s => (Raises e, s).

(** [try: body / except ... as e: handler e]; the handler tells the
    classes of exception apart. *)
Definition try_except {A} (body : M A) (handler : exn -> M A) : M A :=
  fun s =>
    match body s with
    | (Raises e, s') => handler e s'
    | r => r
    end.

(** One call [ev] on a stub. *)
Definition rpc {A} (ev : E) (stub : W -> (Py.exn + A) * W) : M A :=
  fun s =>
    let '(answer, w') := stub (fst s) in
    (match answer with
     | inl e => Raises (Other e)
     | inr a => Returns a
     end, (w', (snd s ++ [ev])%list)).

(** A step that only leaves a mark in the trace ([display.vvvv]). *)
Definition mark (ev : E) : M unit := fun s => (Returns tt, (fst s, (snd s ++ [ev])%list)).

(** A pure step that may raise. *)
Definition lift {A} (r : Py.exn + A) : M A :=
  match r with
  | inl e => raise (Other e)
  | inr a => ret a
  end.
End Monad.

End lookup.

Declare Scope lookup_scope.
Delimit Scope lookup_scope with lookup.
Notation "x <- m ;; k" := (lookup.bind m (fun x => k))
  (at level 61, m at next level, right associativity) : lookup_scope.
Notation "m ;; k" := (lookup.bind m (fun _ => k))
  (at level 61, right associativity) : lookup_scope.

(** ** plugins/lookup/compute_images.py *)

Module compute_images.

(** An image as [message_to_dict] renders it. *)
Record Image := {
  image_id : string;
  image_family : string;
  image_name : string;
}.

Inductive call :=
| Vvvv (text : string)
| ImageGetLatestByFamily (folder_id family : string).

(** [Message] is the protobuf message the stub answers with. *)
Record ImageServiceStub (W Message : Type) := {
  GetLatestByFamily : string -> string -> W -> (Py.exn + Message) * W;
}.
Arguments GetLatestByFamily {W Message} _ _ _ _.

Section Run.
Context {L : Py.Lib} {S : lookup.Str} {W Message : Type}.
Variable service : ImageServiceStub W Message.
Variable message_to_dict : Message -> Py.exn + Image.
(** [self.get_option('folder_id')] *)
Variable folder_id : string.

(** The body of [for term in terms], with [results] as it stands. *)
Fixpoint each (terms : list string) (results : list Image)
  : @lookup.M W call (list Image) :=
  match terms with
  | [] => lookup.ret results
  | term :: rest =>
      ((if Nat.eqb (String.length (lookup.strip term)) 0
        then lookup.raise
               (lookup.AnsibleError "Image family is required and can't be empty")
        else lookup.ret tt) ;;
       lookup.mark (Vvvv ("lookup latest image by family " ++ Py.repr term)) ;;
       results' <-
         lookup.try_except
           (image <-
              lookup.try_except
                (lookup.rpc (ImageGetLatestByFamily folder_id term)
                            (GetLatestByFamily service folder_id term))
                (fun e =>
                   lookup.raise
                     (lookup.AnsibleError
                        ("unknown error getting image latest by family "
                         ++ Py.repr term ++ " in folder " ++ Py.repr folder_id
                         ++ ". Error was: " ++ lookup.to_native e))) ;;
            dict <- lookup.lift (message_to_dict image) ;;
            lookup.ret (results ++ [dict])%list)
           (fun e =>
              match e with
              | lookup.AnsibleError _ => lookup.raise e
              | lookup.Other _ =>
                  lookup.raise
                    (lookup.AnsibleError
                       ("unknown error formatting image dict: " ++ lookup.to_native e))
              end) ;;
       each rest results')%lookup
  end.

Definition run (terms : list string) : @lookup.M W call (list Image) :=
  each terms [].

(** What one term leaves in the trace when its call is made. *)
Definition calls (terms : list string) : list call :=
  flat_map (fun term =>
              [Vvvv ("lookup latest image by family " ++ Py.repr term);
               ImageGetLatestByFamily folder_id term]) terms.

(** The images the service and [message_to_dict] give for [terms], one call
    per term from world [w] on; [None] as soon as a call raises or a
    message cannot be rendered. *)
Fixpoint served (terms : list string) (w : W) : option (list Image * W) :=
  match terms with
  | [] => Some ([], w)
  | term :: rest =>
      match GetLatestByFamily service folder_id term w with
      | (inr image, w') =>
          match message_to_dict image with
          | inr dict =>
              match served rest w' with
              | Some (dicts, w'') => Some (dict :: dicts, w'')
              | None => None
              end
          | inl _ => None
          end
      | (inl _, _) => None
      end
  end.

End Run.
End compute_images.

(** ** plugins/lookup/vpc_subnets.py *)

Module vpc_subnets.

(** A subnet as [message_to_dict] renders it. *)
Record Subnet := {
  subnet_id : string;
  subnet_name : string;
  subnet_folder_id : string;
}.

Inductive call :=
| Vvvv (text : string)
| SubnetList (folder_id : string).

Record SubnetServiceStub (W Response : Type) := {
  List : string -> W -> (Py.exn + Response) * W;
}.
Arguments List {W Response} _ _ _.

Section Run.
Context {L : Py.Lib} {W Response : Type}.
Variable service : SubnetServiceStub W Response.
(** [message_to_dict(response)['subnets']] *)
Variable subnets_of : Response -> Py.exn + list Subnet.

Fixpoint each (terms : list string) (results : list Subnet)
  : @lookup.M W call (list Subnet) :=
  match terms with
  | [] => lookup.ret results
  | term :: rest =>
      ((if String.eqb term ""
        then lookup.raise (lookup.AnsibleError "Folder ID is required and can't be empty")
        else lookup.ret tt) ;;
       lookup.mark (Vvvv ("lookup subnet in folder id " ++ Py.repr term)) ;;
       results' <-
         lookup.try_except
           (response <-
              lookup.try_except
                (lookup.rpc (SubnetList term) (List service term))
                (fun e =>
                   lookup.raise
                     (lookup.AnsibleError
                        ("unknown error listing subnets in folder " ++ Py.repr term
                         ++ ". Error was: " ++ lookup.to_native e))) ;;
            subnets <- lookup.lift (subnets_of response) ;;
            lookup.ret (results ++ subnets)%list)
           (fun e =>
              match e with
              | lookup.AnsibleError _ => lookup.raise e
              | lookup.Other _ =>
                  lookup.raise
                    (lookup.AnsibleError
                       ("unknown error formatting subnet dict: " ++ lookup.to_native e))
              end) ;;
       each rest results')%lookup
  end.

Definition run (terms : list string) : @lookup.M W call (list Subnet) :=
  each terms [].

Definition calls (terms : list string) : list call :=
  flat_map (fun term =>
              [Vvvv ("lookup subnet in folder id " ++ Py.repr term); SubnetList term])
           terms.

(** The subnets listed for [terms], folder by folder, one call per folder
    from world [w] on; [None] as soon as a call raises or an answer cannot
    be rendered. *)
Fixpoint served (terms : list string) (w : W) : option (list (list Subnet) * W) :=
  match terms with
  | [] => Some ([], w)
  | term :: rest =>
      match List service term w with
      | (inr response, w') =>
          match subnets_of response with
          | inr subnets =>
              match served rest w' with
              | Some (more, w'') => Some (subnets :: more, w'')
              | None => None
              end
          | inl _ => None
          end
      | (inl _, _) => None
      end
  end.

End Run.
End vpc_subnets.

(** ** Calls that change something *)

(** What [_find] makes of a list answer: the entry when there is exactly
    one, the empty dict otherwise. *)
Definition only {A : Type} (listed : list A) : option A :=
  match listed with
  | [x] => Some x
  | _ => None
  end.

Definition disk_mutations (tr : list compute_disk.call) : nat :=
  length (filter (fun c => negb (compute_disk.reads c)) tr).

Definition instance_mutations (tr : list compute_instance.call) : nat :=
  length (filter (fun c => negb (compute_instance.reads c)) tr).

Section Reports.
Context {W E R : Type}.
Variable reads : E -> bool.

(** [m] adds only reading calls to the trace and, when it ends the run
    through [exit_json], reports [changed = c]. *)
Definition reports {A} (c : bool) (m : @M W E R A) : Prop :=
  forall s, exists rest,
    trace_of (m s) = (snd s ++ rest)%list
    /\ Forall (fun ev => reads ev = true) rest
    /\ forall c' msg r d, result_of (m s) = ExitJson c' msg r d -> c' = c.
End Reports.

(** The calls a disk run may make for a target and a located disk: Create
    only for [present] with nothing located, Update only for [present] on
    the located disk when it differs, Delete only for [absent] on the
    located disk; reading calls always. *)
Definition disk_permitted {L : Py.Lib} (module : compute_disk.params)
           (located : option compute_disk.Disk) (c : compute_disk.call) : Prop :=
  match c with
  | compute_disk.DiskCreate request =>
      compute_disk.state module = compute_disk.present
      /\ located = None
      /\ request = compute_disk.create_request module
  | compute_disk.DiskUpdate request =>
      compute_disk.state module = compute_disk.present
      /\ exists disk,
          located = Some disk
          /\ compute_disk.needs_update module disk = true
          /\ request = compute_disk.update_request module (compute_disk.disk_id disk)
  | compute_disk.DiskDelete id =>
      compute_disk.state module = compute_disk.absent
      /\ exists disk, located = Some disk /\ id = compute_disk.disk_id disk
  | _ => True
  end.

(** The same for an instance: Create for [present] with nothing located;
    Start for [present] or [restarted] on a STOPPED instance; Restart for
    [restarted] and Stop for [stopped] on an instance that is not STOPPED;
    Delete for [absent]. *)
Definition instance_permitted (module : compute_instance.params)
           (located : option compute_instance.Instance)
           (c : compute_instance.call) : Prop :=
  match c with
  | compute_instance.InstanceCreate request =>
      compute_instance.state module = compute_instance.present
      /\ located = None
      /\ request = compute_instance.create_request module
  | compute_instance.InstanceStart id =>
      (compute_instance.state module = compute_instance.present
       \/ compute_instance.state module = compute_instance.restarted)
      /\ exists i,
          located = Some i /\ id = compute_instance.instance_id i
          /\ compute_instance.instance_status i = "STOPPED"
  | compute_instance.InstanceRestart id =>
      compute_instance.state module = compute_instance.restarted
      /\ exists i,
          located = Some i /\ id = compute_instance.instance_id i
          /\ compute_instance.instance_status i <> "STOPPED"
  | compute_instance.InstanceStop id =>
      compute_instance.state module = compute_instance.stopped
      /\ exists i,
          located = Some i /\ id = compute_instance.instance_id i
          /\ compute_instance.instance_status i <> "STOPPED"
  | compute_instance.InstanceDelete id =>
      compute_instance.state module = compute_instance.absent
      /\ exists i, located = Some i /\ id = compute_instance.instance_id i
  | _ => True
  end.

(** The mutating call a disk run decides on once [listed] is the list
    answer, with the stub that serves it and the words its failure message
    starts with. *)
Inductive disk_step {L : Py.Lib} {W : Type} (module : compute_disk.params)
          (disk_service : compute_disk.DiskServiceStub W)
          (listed : list compute_disk.Disk)
  : compute_disk.call -> (W -> (Py.exn + Operation) * W) -> string -> Prop :=
| disk_step_create :
    compute_disk.state module = compute_disk.present ->
    only listed = None ->
    disk_step module disk_service listed
      (compute_disk.DiskCreate (compute_disk.create_request module))
      (compute_disk.Create disk_service (compute_disk.create_request module))
      ("unknown error create disk " ++ Py.repr (compute_disk.name module))
| disk_step_update disk :
    compute_disk.state module = compute_disk.present ->
    only listed = Some disk ->
    compute_disk.needs_update module disk = true ->
    disk_step module disk_service listed
      (compute_disk.DiskUpdate
         (compute_disk.update_request module (compute_disk.disk_id disk)))
      (compute_disk.Update disk_service
         (compute_disk.update_request module (compute_disk.disk_id disk)))
      ("unknown error update disk " ++ Py.repr (compute_disk.name module))
| disk_step_delete disk :
    compute_disk.state module = compute_disk.absent ->
    only listed = Some disk ->
    disk_step module disk_service listed
      (compute_disk.DiskDelete (compute_disk.disk_id disk))
      (compute_disk.Delete disk_service (compute_disk.disk_id disk))
      ("unknown error delete disk " ++ Py.repr (compute_disk.name module)).

(** The same for an instance run. *)
Inductive instance_step {L : Py.Lib} {W : Type} (module : compute_instance.params)
          (instance_service : compute_instance.InstanceServiceStub W)
          (listed : list compute_instance.Instance)
  : compute_instance.call -> (W -> (Py.exn + Operation) * W) -> string -> Prop :=
| instance_step_create :
    compute_instance.state module = compute_instance.present ->
    only listed = None ->
    instance_step module instance_service listed
      (compute_instance.InstanceCreate (compute_instance.create_request module))
      (compute_instance.Create instance_service (compute_instance.create_request module))
      ("unknown error create instance " ++ Py.repr (compute_instance.name module))
| instance_step_start i :
    compute_instance.state module = compute_instance.present
    \/ compute_instance.state module = compute_instance.restarted ->
    only listed = Some i ->
    compute_instance.instance_status i = "STOPPED" ->
    instance_step module instance_service listed
      (compute_instance.InstanceStart (compute_instance.instance_id i))
      (compute_instance.Start instance_service (compute_instance.instance_id i))
      ("unknown error starting instance by id "
       ++ Py.repr (compute_instance.instance_id i))
| instance_step_restart i :
    compute_instance.state module = compute_instance.restarted ->
    only listed = Some i ->
    compute_instance.instance_status i <> "STOPPED" ->
    instance_step module instance_service listed
      (compute_instance.InstanceRestart (compute_instance.instance_id i))
      (compute_instance.Restart instance_service (compute_instance.instance_id i))
      ("unknown error restarting instance by id "
       ++ Py.repr (compute_instance.instance_id i))
| instance_step_stop i :
    compute_instance.state module = compute_instance.stopped ->
    only listed = Some i ->
    compute_instance.instance_status i <> "STOPPED" ->
    instance_step module instance_service listed
      (compute_instance.InstanceStop (compute_instance.instance_id i))
      (compute_instance.Stop instance_service (compute_instance.instance_id i))
      ("unknown error stopping instance by id "
       ++ Py.repr (compute_instance.instance_id i))
| instance_step_delete i :
    compute_instance.state module = compute_instance.absent ->
    only listed = Some i ->
    instance_step module instance_service listed
      (compute_instance.InstanceDelete (compute_instance.instance_id i))
      (compute_instance.Delete instance_service (compute_instance.instance_id i))
      ("unknown error deleting instance by id "
       ++ Py.repr (compute_instance.instance_id i)).

(** ** More sample inputs: remote sides that fail *)

Module Cases.

(** A disk service with fixed answers: [listed] to List, [got] to Get and
    [stepped] to Create, Update and Delete. *)
Definition disks_with (listed : Py.exn + list compute_disk.Disk)
           (got : Py.exn + compute_disk.Disk) (stepped : Py.exn + Operation)
  : compute_disk.DiskServiceStub nat :=
  {| compute_disk.List := fun _ w => (listed, w);
     compute_disk.Get := fun _ w => (got, w);
     compute_disk.Create := fun _ w => (stepped, w);
     compute_disk.Update := fun _ w => (stepped, w);
     compute_disk.Delete := fun _ w => (stepped, w) |}.

(** An instance service with fixed answers, in the same way. *)
Definition instances_with (listed : Py.exn + list compute_instance.Instance)
           (got : Py.exn + compute_instance.Instance) (stepped : Py.exn + Operation)
  : compute_instance.InstanceServiceStub nat :=
  {| compute_instance.List := fun _ w => (listed, w);
     compute_instance.Get := fun _ w => (got, w);
     compute_instance.Create := fun _ w => (stepped, w);
     compute_instance.Start := fun _ w => (stepped, w);
     compute_instance.Restart := fun _ w => (stepped, w);
     compute_instance.Stop := fun _ w => (stepped, w);
     compute_instance.Delete := fun _ w => (stepped, w) |}.

(** An operation service that answers [pending] polls with an operation
    not done, and raises at the next one. *)
Definition operations_raising (pending : nat) (e : Py.exn) : OperationServiceStub nat :=
  {| operation_Get := fun id w =>
       (if (pending <=? w)%nat then inl e
        else inr {| op_id := id; op_done := Some false; op_error := None;
                    op_metadata := None |}, S w) |}.

(** An operation service whose operations are never done; the records even
    carry an error, which is not looked at before [done] is true. *)
Definition operations_stuck : OperationServiceStub nat :=
  {| operation_Get := fun id w =>
       (inr {| op_id := id; op_done := None;
               op_error := Some {| code := 13; message := "internal" |};
               op_metadata := None |}, S w) |}.

Definition unavailable : Py.exn := Py.RpcError "StatusCode.UNAVAILABLE".

(** An operation handle without metadata. *)
Definition bare (id : string) : Operation :=
  {| op_id := id; op_done := Some false; op_error := None; op_metadata := None |}.

End Cases.

(** ** Sample inputs for the lookups *)

Module LookupCases.

Fixpoint lstrip (s : string) : string :=
  match s with
  | String " " rest => lstrip rest
  | _ => s
  end.

Fixpoint rstrip (s : string) : string :=
  match s with
  | EmptyString => EmptyString
  | String c rest =>
      match c, rstrip rest with
      | " "%char, EmptyString => EmptyString
      | _, rest' => String c rest'
      end
  end.

(** A stand-in for [str.strip]: it removes the spaces at both ends. *)
Definition spaces : lookup.Str := {| lookup.strip := fun s => lstrip (rstrip s) |}.

Definition debian : compute_images.Image :=
  {| compute_images.image_id := "fd8debian";
     compute_images.image_family := "debian-11";
     compute_images.image_name := "debian-11-v20240101" |}.

Definition ubuntu : compute_images.Image :=
  {| compute_images.image_id := "fd8ubuntu";
     compute_images.image_family := "ubuntu-2204-lts";
     compute_images.image_name := "ubuntu-22-04-lts-v20240101" |}.

(** An image service that knows two families; the world counts the calls. *)
Definition images : compute_images.ImageServiceStub nat compute_images.Image :=
  {| compute_images.GetLatestByFamily := fun _ family w =>
       (if String.eqb family "debian-11" then inr debian
        else if String.eqb family "ubuntu-2204-lts" then inr ubuntu
             else inl (Py.RpcError "StatusCode.NOT_FOUND"), S w) |}.

Definition rendered (image : compute_images.Image) : Py.exn + compute_images.Image :=
  inr image.

Definition default_a : vpc_subnets.Subnet :=
  {| vpc_subnets.subnet_id := "e9b1";
     vpc_subnets.subnet_name := "default-ru-central1-a";
     vpc_subnets.subnet_folder_id := "b1g0" |}.

Definition default_b : vpc_subnets.Subnet :=
  {| vpc_subnets.subnet_id := "e2l2";
     vpc_subnets.subnet_name := "default-ru-central1-b";
     vpc_subnets.subnet_folder_id := "b1g0" |}.

(** A subnet service with two subnets in folder [b1g0] and none elsewhere. *)
Definition subnets : vpc_subnets.SubnetServiceStub nat (list vpc_subnets.Subnet) :=
  {| vpc_subnets.List := fun folder w =>
       (inr (if String.eqb folder "b1g0" then [default_a; default_b] else []), S w) |}.

Definition listed (response : list vpc_subnets.Subnet)
  : Py.exn + list vpc_subnets.Subnet := inr response.

End LookupCases.

(** * Properties *)

(** ** The wait loop *)

Lemma polls_S_app {call : Type} (turn : list call) (n : nat) (tr : list call) :
  ((tr ++ turn) ++ concat (repeat turn n) = tr ++ concat (repeat turn (S n)))%list.
Proof. simpl. now rewrite app_assoc. Qed.

Section DiskWait.
Context {L : Py.Lib} {W : Type}.
Variable operation_service : OperationServiceStub W.

Lemma disk_wait_loop_step fuel id w tr :
  compute_disk.wait_loop operation_service (S fuel) id (w, tr) =
  match operation_Get operation_service id w with
  | (inl e, w') =>
      (Raises e, (w', tr ++ [compute_disk.Sleep 1; compute_disk.OperationGet id]))
  | (inr operation, w') =>
      match op_done operation with
      | Some true =>
          (match op_error operation with
           | Some error =>
               Raises (Py.OperationError (compute_disk.operation_error_text error))
           | None => Returns tt
           end, (w', tr ++ [compute_disk.Sleep 1; compute_disk.OperationGet id]))
      | _ =>
          compute_disk.wait_loop operation_service fuel id
            (w', tr ++ [compute_disk.Sleep 1; compute_disk.OperationGet id])
      end
  end%list.
Proof.
  simpl. unfold bind, mark, rpc. simpl.
  destruct (operation_Get operation_service id w) as [[e|o] w2]; simpl;
    rewrite <- app_assoc; simpl; try reflexivity.
  destruct (op_done o) as [[|]|]; try reflexivity.
  destruct (op_error o); reflexivity.
Qed.

Lemma disk_wait_loop_reaches k : forall fuel id w tr terminal w',
  reaches operation_service k id w terminal w' -> (k < fuel)%nat ->
  compute_disk.wait_loop operation_service fuel id (w, tr) =
  (match op_error terminal with
   | Some error =>
       Raises (Py.OperationError (compute_disk.operation_error_text error))
   | None => Returns tt
   end, (w', tr ++ compute_disk.polls (S k) id)%list).
Proof.
  induction k as [|k IH]; intros fuel id w tr terminal w' (w1 & Hp & Hg & Hd) Hlt;
    (destruct fuel as [|fuel]; [lia|]); rewrite disk_wait_loop_step; simpl in Hp.
  - injection Hp as <-. rewrite Hg, Hd. unfold compute_disk.polls. simpl.
    reflexivity.
  - destruct (operation_Get operation_service id w) as [[e|o] w2]; [discriminate|].
    unfold compute_disk.polls in *.
    destruct (op_done o) as [[|]|]; try discriminate;
      (rewrite (IH fuel id w2 _ terminal w'); [|exists w1; auto|lia]);
      now rewrite polls_S_app.
Qed.
End DiskWait.

(** ** Running the monad *)

Section MonadFacts.
Context {W E R : Type}.

Lemma bind_returns {A B} (m : @M W E R A) (k : A -> @M W E R B) s a s' :
  m s = (Returns a, s') -> bind m k s = k a s'.
Proof. unfold bind. now intros ->. Qed.

Lemma try_rpc_answer {A} (ev : E) (stub : W -> (Py.exn + A) * W)
      (handler : Py.exn -> @M W E R A) w tr a w' :
  stub w = (inr a, w') ->
  try_except (rpc ev stub) handler (w, tr) = (Returns a, (w', tr ++ [ev])%list).
Proof. unfold try_except, rpc. simpl. now intros ->. Qed.

End MonadFacts.

(** ** The disk module, call by call *)

Section DiskCalls.
Context {L : Py.Lib} {W : Type}.
Variable module : compute_disk.params.
Variable disk_service : compute_disk.DiskServiceStub W.
Variable operation_service : OperationServiceStub W.

Lemma disk_find_answer w tr disks w' :
  compute_disk.List disk_service (compute_disk.find_request module) w = (inr disks, w') ->
  compute_disk._find module disk_service (w, tr) =
  (Returns match disks with [disk] => Some disk | _ => None end,
   (w', tr ++ [compute_disk.DiskList (compute_disk.find_request module)])%list).
Proof.
  intros H. unfold compute_disk._find, try_except, bind, rpc. simpl. rewrite H.
  destruct disks as [|d [|d' r]]; reflexivity.
Qed.

Lemma disk_wait_done k fuel id w tr terminal w' :
  reaches operation_service k id w terminal w' -> op_error terminal = None ->
  (k < fuel)%nat ->
  compute_disk._wait module operation_service fuel id (w, tr) =
  (Returns tt, (w', tr ++ compute_disk.polls (S k) id)%list).
Proof.
  intros Hr He Hlt. unfold compute_disk._wait, try_except.
  now rewrite (disk_wait_loop_reaches operation_service k fuel id w tr terminal w'), He.
Qed.

Lemma disk_wait_error k fuel id w tr terminal w' error :
  reaches operation_service k id w terminal w' -> op_error terminal = Some error ->
  (k < fuel)%nat ->
  compute_disk._wait module operation_service fuel id (w, tr) =
  (FailJson ("unknown error operation disk " ++ Py.repr (compute_disk.name module)
             ++ ". Error was: " ++ compute_disk.operation_error_text error),
   (w', tr ++ compute_disk.polls (S k) id)%list).
Proof.
  intros Hr He Hlt. unfold compute_disk._wait, try_except.
  now rewrite (disk_wait_loop_reaches operation_service k fuel id w tr terminal w'), He.
Qed.
End DiskCalls.

(** ** The instance module, call by call *)

Section InstanceWait.
Context {L : Py.Lib} {W : Type}.
Variable operation_service : OperationServiceStub W.

Lemma instance_wait_loop_step fuel id w tr :
  compute_instance.wait_loop operation_service (S fuel) id (w, tr) =
  match operation_Get operation_service id w with
  | (inl e, w') =>
      (Raises e, (w', tr ++ [compute_instance.Sleep 1; compute_instance.OperationGet id]))
  | (inr operation, w') =>
      match op_done operation with
      | Some true =>
          (match op_error operation with
           | Some error =>
               Raises (Py.OperationError (compute_instance.operation_error_text error))
           | None => Returns tt
           end, (w', tr ++ [compute_instance.Sleep 1; compute_instance.OperationGet id]))
      | _ =>
          compute_instance.wait_loop operation_service fuel id
            (w', tr ++ [compute_instance.Sleep 1; compute_instance.OperationGet id])
      end
  end%list.
Proof.
  simpl. unfold bind, mark, rpc. simpl.
  destruct (operation_Get operation_service id w) as [[e|o] w2]; simpl;
    rewrite <- app_assoc; simpl; try reflexivity.
  destruct (op_done o) as [[|]|]; try reflexivity.
  destruct (op_error o); reflexivity.
Qed.

Lemma instance_wait_loop_reaches k : forall fuel id w tr terminal w',
  reaches operation_service k id w terminal w' -> (k < fuel)%nat ->
  compute_instance.wait_loop operation_service fuel id (w, tr) =
  (match op_error terminal with
   | Some error =>
       Raises (Py.OperationError (compute_instance.operation_error_text error))
   | None => Returns tt
   end, (w', tr ++ compute_instance.polls (S k) id)%list).
Proof.
  induction k as [|k IH]; intros fuel id w tr terminal w' (w1 & Hp & Hg & Hd) Hlt;
    (destruct fuel as [|fuel]; [lia|]); rewrite instance_wait_loop_step; simpl in Hp.
  - injection Hp as <-. rewrite Hg, Hd. unfold compute_instance.polls. simpl.
    reflexivity.
  - destruct (operation_Get operation_service id w) as [[e|o] w2]; [discriminate|].
    unfold compute_instance.polls in *.
    destruct (op_done o) as [[|]|]; try discriminate;
      (rewrite (IH fuel id w2 _ terminal w'); [|exists w1; auto|lia]);
      now rewrite polls_S_app.
Qed.
End InstanceWait.

Section InstanceCalls.
Context {L : Py.Lib} {W : Type}.
Variable module : compute_instance.params.
Variable instance_service : compute_instance.InstanceServiceStub W.
Variable operation_service : OperationServiceStub W.

Lemma instance_find_answer w tr instances w' :
  compute_instance.List instance_service (compute_instance.find_request module) w
  = (inr instances, w') ->
  compute_instance._find module instance_service (w, tr) =
  (Returns match instances with [instance] => Some instance | _ => None end,
   (w', tr ++ [compute_instance.InstanceList (compute_instance.find_request module)])%list).
Proof.
  intros H. unfold compute_instance._find, try_except, bind, rpc. simpl. rewrite H.
  destruct instances as [|i [|i' r]]; reflexivity.
Qed.

Lemma instance_wait_done k fuel id w tr terminal w' :
  reaches operation_service k id w terminal w' -> op_error terminal = None ->
  (k < fuel)%nat ->
  compute_instance._wait module operation_service fuel id (w, tr) =
  (Returns tt, (w', tr ++ compute_instance.polls (S k) id)%list).
Proof.
  intros Hr He Hlt. unfold compute_instance._wait, try_except.
  now rewrite (instance_wait_loop_reaches operation_service k fuel id w tr terminal w'), He.
Qed.

Lemma instance_wait_error k fuel id w tr terminal w' error :
  reaches operation_service k id w terminal w' -> op_error terminal = Some error ->
  (k < fuel)%nat ->
  compute_instance._wait module operation_service fuel id (w, tr) =
  (FailJson ("unknown error operation disk " ++ Py.repr (compute_instance.name module)
             ++ ". Error was: " ++ compute_instance.operation_error_text error),
   (w', tr ++ compute_instance.polls (S k) id)%list).
Proof.
  intros Hr He Hlt. unfold compute_instance._wait, try_except.
  now rewrite (instance_wait_loop_reaches operation_service k fuel id w tr terminal w'), He.
Qed.
End InstanceCalls.

(** ** Idempotence of the target [present] *)

Section Present.
Context {L : Py.Lib} {W : Type}.
Variable operation_service : OperationServiceStub W.
Variable fuel : nat.

Lemma disk_present_ready (module : compute_disk.params)
      (disk_service : compute_disk.DiskServiceStub W) w tr disk w1 :
  compute_disk.state module = compute_disk.present ->
  compute_disk.List disk_service (compute_disk.find_request module) w = (inr [disk], w1) ->
  compute_disk.needs_update module disk = false ->
  compute_disk.main module disk_service operation_service fuel (w, tr) =
  (ExitJson false ("disk " ++ Py.repr (compute_disk.name module) ++ " exists and ready")
            (Some disk) None,
   (w1, tr ++ [compute_disk.DiskList (compute_disk.find_request module)])%list).
Proof.
  intros Hs Hl Hn. unfold compute_disk.main.
  rewrite (bind_returns _ _ _ _ _ (disk_find_answer module disk_service w tr _ w1 Hl)).
  now rewrite Hs, Hn.
Qed.

Lemma needs_update_false (module : compute_disk.params) disk :
  compute_disk.disk_size disk = Py.str_opt_int (compute_disk.size module) ->
  compute_disk.disk_description disk = compute_disk.description module ->
  Py.dict_eqb (Py.dict (Py.sorted (Py.items (compute_disk.disk_labels disk))))
              (Py.dict (Py.sorted (Py.items (compute_disk.labels module)))) = true ->
  compute_disk.needs_update module disk = false.
Proof.
  intros Hs Hd Hl. unfold compute_disk.needs_update.
  now rewrite Hs, Hd, Hl, !String.eqb_refl.
Qed.

Lemma instance_present_running (module : compute_instance.params)
      (instance_service : compute_instance.InstanceServiceStub W) w tr instance w1 :
  compute_instance.state module = compute_instance.present ->
  compute_instance.List instance_service (compute_instance.find_request module) w
  = (inr [instance], w1) ->
  compute_instance.instance_status instance <> "STOPPED" ->
  compute_instance.main module instance_service operation_service fuel (w, tr) =
  (ExitJson false
            ("instance " ++ Py.repr (compute_instance.name module) ++ " exists and running")
            (Some instance) None,
   (w1, tr ++ [compute_instance.InstanceList (compute_instance.find_request module)])%list).
Proof.
  intros Hs Hl Hn. unfold compute_instance.main.
  rewrite (bind_returns _ _ _ _ _ (instance_find_answer module instance_service w tr _ w1 Hl)).
  rewrite Hs. apply String.eqb_neq in Hn. now rewrite Hn.
Qed.
End Present.

(** C1. With target [present], a located disk whose size and description
    are string-equal to the desired ones and whose key-sorted labels are
    equal, and a located instance whose status is not STOPPED, make the run
    exit with [changed=false] and the located resource after the single
    List call: no create, update or start is issued. A second run from the
    session the first one leaves, the resource matching again, does the
    same, so the trace of both runs is the two List calls. *)
Theorem present_is_idempotent {L : Py.Lib} {W : Type}
        (operation_service : OperationServiceStub W) (fuel : nat) :
  (forall (module : compute_disk.params) (disk_service : compute_disk.DiskServiceStub W)
          w tr disk w1 disk' w2,
      let request := compute_disk.find_request module in
      let matches d :=
        compute_disk.disk_size d = Py.str_opt_int (compute_disk.size module)
        /\ compute_disk.disk_description d = compute_disk.description module
        /\ Py.dict_eqb (Py.dict (Py.sorted (Py.items (compute_disk.disk_labels d))))
                       (Py.dict (Py.sorted (Py.items (compute_disk.labels module))))
           = true in
      let run := compute_disk.main module disk_service operation_service fuel in
      let ready d :=
        ExitJson false ("disk " ++ Py.repr (compute_disk.name module) ++ " exists and ready")
                 (Some d) None in
      compute_disk.state module = compute_disk.present ->
      compute_disk.List disk_service request w = (inr [disk], w1) -> matches disk ->
      run (w, tr) = (ready disk, (w1, tr ++ [compute_disk.DiskList request])%list)
      /\ (compute_disk.List disk_service request w1 = (inr [disk'], w2) -> matches disk' ->
          run (snd (run (w, tr)))
          = (ready disk',
             (w2, tr ++ [compute_disk.DiskList request; compute_disk.DiskList request])%list)))
  /\
  (forall (module : compute_instance.params)
          (instance_service : compute_instance.InstanceServiceStub W)
          w tr instance w1 instance' w2,
      let request := compute_instance.find_request module in
      let run := compute_instance.main module instance_service operation_service fuel in
      let running i :=
        ExitJson false
                 ("instance " ++ Py.repr (compute_instance.name module)
                  ++ " exists and running") (Some i) None in
      compute_instance.state module = compute_instance.present ->
      compute_instance.List instance_service request w = (inr [instance], w1) ->
      compute_instance.instance_status instance <> "STOPPED" ->
      run (w, tr) = (running instance, (w1, tr ++ [compute_instance.InstanceList request])%list)
      /\ (compute_instance.List instance_service request w1 = (inr [instance'], w2) ->
          compute_instance.instance_status instance' <> "STOPPED" ->
          run (snd (run (w, tr)))
          = (running instance',
             (w2, tr ++ [compute_instance.InstanceList request;
                         compute_instance.InstanceList request])%list))).
Proof.
  split.
  - intros module disk_service w tr disk w1 disk' w2 request matches run ready Hs Hl
           (Hz & Hd & Hb).
    assert (H1 : run (w, tr)
                 = (ready disk, (w1, tr ++ [compute_disk.DiskList request])%list)).
    { apply disk_present_ready; auto using needs_update_false. }
    split; [exact H1|]. intros Hl' (Hz' & Hd' & Hb'). rewrite H1. simpl.
    unfold run. rewrite (disk_present_ready _ _ _ _ _ _ disk' w2 Hs Hl').
    + now rewrite <- app_assoc.
    + auto using needs_update_false.
  - intros module instance_service w tr instance w1 instance' w2 request run running
           Hs Hl Hn.
    assert (H1 : run (w, tr)
                 = (running instance,
                    (w1, tr ++ [compute_instance.InstanceList request])%list)).
    { now apply instance_present_running. }
    split; [exact H1|]. intros Hl' Hn'. rewrite H1. simpl.
    unfold run. rewrite (instance_present_running _ _ _ _ _ _ instance' w2 Hs Hl' Hn').
    now rewrite <- app_assoc.
Qed.

(** A run of each kind on the sample inputs. *)
Lemma present_is_idempotent_witness :
  result_of (compute_disk.main (L := Sample.lib) (Sample.disk_params compute_disk.present)
               (Sample.disks [Sample.data1]) (Sample.operations 0 None) 3 (0%nat, []))
  = ExitJson false "disk 'data-1' exists and ready" (Some Sample.data1) None
  /\ result_of (compute_instance.main (L := Sample.lib)
                  (Sample.instance_params compute_instance.present)
                  (Sample.instances [Sample.vm "RUNNING"] "RUNNING")
                  (Sample.operations 0 None) 3 (0%nat, []))
     = ExitJson false "instance 'vm-1' exists and running" (Some (Sample.vm "RUNNING")) None.
Proof.
  split.
  - pose proof (proj1 (present_is_idempotent (L := Sample.lib) (Sample.operations 0 None) 3)
                  (Sample.disk_params compute_disk.present) (Sample.disks [Sample.data1])
                  0%nat [] Sample.data1 0%nat Sample.data1 0%nat) as H.
    simpl in H. destruct H as [H _]; [reflexivity | reflexivity | |].
    + repeat split; reflexivity.
    + unfold result_of. rewrite H. reflexivity.
  - pose proof (proj2 (present_is_idempotent (L := Sample.lib) (Sample.operations 0 None) 3)
                  (Sample.instance_params compute_instance.present)
                  (Sample.instances [Sample.vm "RUNNING"] "RUNNING")
                  0%nat [] (Sample.vm "RUNNING") 0%nat (Sample.vm "RUNNING") 0%nat) as H.
    simpl in H. destruct H as [H _]; [reflexivity | reflexivity | discriminate |].
    unfold result_of. rewrite H. reflexivity.
Defined.

(** ** What a piece of code adds to the trace *)

Section Emits.
Context {W E R : Type}.
Variable P : E -> Prop.

Lemma emits_nothing {A} (o : outcome R A) : emits P (fun s : @session W E => (o, s)).
Proof. intros s. exists []. unfold trace_of. simpl. now rewrite app_nil_r. Qed.

Lemma emits_ret {A} (a : A) : emits P (@ret W E R A a).
Proof. apply emits_nothing. Qed.

Lemma emits_raise {A} e : emits P (@raise W E R A e).
Proof. apply emits_nothing. Qed.

Lemma emits_exit_json {A} c m r d : emits P (@exit_json W E R A c m r d).
Proof. apply emits_nothing. Qed.

Lemma emits_fail_json {A} m : emits P (@fail_json W E R A m).
Proof. apply emits_nothing. Qed.

Lemma emits_pending {A} : emits P (@pending W E R A).
Proof. apply emits_nothing. Qed.

Lemma emits_rpc {A} ev (stub : W -> (Py.exn + A) * W) :
  P ev -> emits P (@rpc W E R A ev stub).
Proof.
  intros Hev s. exists [ev]. unfold trace_of, rpc.
  destruct (stub (fst s)) as [answer w']. simpl. auto.
Qed.

Lemma emits_mark ev : P ev -> emits P (@mark W E R ev).
Proof. intros Hev s. exists [ev]. unfold trace_of, mark. simpl. auto. Qed.

Lemma emits_bind {A B} (m : @M W E R A) (k : A -> @M W E R B) :
  emits P m -> (forall a, emits P (k a)) -> emits P (bind m k).
Proof.
  intros Hm Hk s. destruct (Hm s) as (r1 & E1 & F1). unfold trace_of, bind in *.
  destruct (m s) as [[a|e|c msg r d|msg|] s1]; simpl in E1;
    try (exists r1; simpl; now auto).
  destruct (Hk a s1) as (r2 & E2 & F2). unfold trace_of in E2.
  exists (r1 ++ r2)%list. rewrite E2, E1, app_assoc. split; auto using Forall_app.
  apply Forall_app; auto.
Qed.

Lemma emits_try_except {A} (body : @M W E R A) handler :
  emits P body -> (forall e, emits P (handler e)) -> emits P (try_except body handler).
Proof.
  intros Hm Hk s. destruct (Hm s) as (r1 & E1 & F1). unfold trace_of, try_except in *.
  destruct (body s) as [[a|e|c msg r d|msg|] s1]; simpl in E1;
    try (exists r1; simpl; now auto).
  destruct (Hk e s1) as (r2 & E2 & F2). unfold trace_of in E2.
  exists (r1 ++ r2)%list. rewrite E2, E1, app_assoc. split; auto.
  apply Forall_app; auto.
Qed.

Lemma emits_weaken {A} (Q : E -> Prop) (m : @M W E R A) :
  (forall ev, Q ev -> P ev) -> emits Q m -> emits P m.
Proof.
  intros HQ Hm s. destruct (Hm s) as (r & E1 & F1). exists r. split; auto.
  eapply Forall_impl; eauto.
Qed.
End Emits.

Create HintDb emits.
#[local] Hint Resolve emits_ret emits_raise emits_exit_json emits_fail_json
  emits_pending emits_rpc emits_mark emits_bind emits_try_except : emits.

Section BindFacts.
Context {W E R : Type}.

Lemma bind_assoc {A B C} (m : @M W E R A) (k : A -> @M W E R B)
      (h : B -> @M W E R C) s :
  bind (bind m k) h s = bind m (fun a => bind (k a) h) s.
Proof. unfold bind. destruct (m s) as [[a|e|c msg r d|msg|] s1]; reflexivity. Qed.

(** Once the first step is known, what follows decides the rest of the
    trace. *)
Lemma bind_emits_after {A B} (Q : E -> Prop) (m : @M W E R A)
      (k : A -> @M W E R B) s o s1 :
  m s = (o, s1) -> (forall a, emits Q (k a)) ->
  exists rest, trace_of (bind m k s) = (snd s1 ++ rest)%list /\ Forall Q rest.
Proof.
  intros Hm Hk. unfold bind. rewrite Hm.
  destruct o as [a|e|c msg r d|msg|]; try (exists []; unfold trace_of; simpl;
                                            now rewrite app_nil_r).
  apply Hk.
Qed.

(** The first step of an RPC wrapper, whatever the stub answers. *)
Lemma try_rpc_first {A} ev (stub : W -> (Py.exn + A) * W) text w (tr : list E) :
  exists o w',
    try_except (R := R) (rpc ev stub) (fun e => fail_json (text e)) (w, tr)
    = (o, (w', tr ++ [ev])%list).
Proof.
  unfold try_except, rpc, fail_json. simpl.
  destruct (stub w) as [[e|a] w']; eauto.
Qed.
End BindFacts.

(** ** Lifecycle transitions of an instance *)

Section InstanceTrace.
Context {L : Py.Lib} {W : Type}.
Variable module : compute_instance.params.
Variable instance_service : compute_instance.InstanceServiceStub W.
Variable operation_service : OperationServiceStub W.

Let reading (c : compute_instance.call) : Prop := compute_instance.reads c = true.

Lemma instance_wait_reads fuel id :
  emits reading (compute_instance._wait module operation_service fuel id).
Proof.
  apply emits_try_except; [|intros; apply emits_fail_json].
  induction fuel as [|fuel IH]; simpl; [apply emits_pending|].
  apply emits_bind; [now apply emits_mark|]. intros _.
  apply emits_bind; [now apply emits_rpc|]. intros operation.
  destruct (op_done operation) as [[|]|]; auto.
  destruct (op_error operation); auto with emits.
Qed.

Lemma instance_get_reads id :
  emits reading (compute_instance._get instance_service id).
Proof.
  apply emits_try_except; [now apply emits_rpc|intros; apply emits_fail_json].
Qed.

End InstanceTrace.

(** C2. When the located instance is STOPPED: with target [restarted] the
    call issued after List is Start on its id, and whatever follows only
    polls the operation and reads the instance, so no Restart is issued;
    with target [stopped] the run makes List and one Get, and no Stop. *)
Theorem stopped_instance_transitions {L : Py.Lib} {W : Type}
        (module : compute_instance.params)
        (instance_service : compute_instance.InstanceServiceStub W)
        (operation_service : OperationServiceStub W) (fuel : nat)
        w tr instance w1 :
  let request := compute_instance.find_request module in
  let id := compute_instance.instance_id instance in
  let run := compute_instance.main module instance_service operation_service fuel (w, tr) in
  compute_instance.List instance_service request w = (inr [instance], w1) ->
  compute_instance.instance_status instance = "STOPPED" ->
  (compute_instance.state module = compute_instance.restarted ->
   exists rest,
     trace_of run
     = (tr ++ [compute_instance.InstanceList request; compute_instance.InstanceStart id]
           ++ rest)%list
     /\ Forall (fun c => compute_instance.reads c = true) rest
     /\ forall x, ~ In (compute_instance.InstanceRestart x) rest)
  /\ (compute_instance.state module = compute_instance.stopped ->
      trace_of run
      = (tr ++ [compute_instance.InstanceList request;
                compute_instance.InstanceGet id "FULL"])%list).
Proof.
  intros request id run Hl Hst. subst run. unfold compute_instance.main.
  rewrite (bind_returns _ _ _ _ _ (instance_find_answer module instance_service w tr _ w1 Hl)).
  split; intros Hs; rewrite Hs, Hst; simpl.
  - rewrite bind_assoc.
    destruct (try_rpc_first (R := compute_instance.Instance)
                (compute_instance.InstanceStart id)
                (compute_instance.Start instance_service id)
                (fun e => "unknown error starting instance by id " ++ Py.repr id
                          ++ ". Error was: " ++ Py.str_exn e)
                w1 (tr ++ [compute_instance.InstanceList request])%list)
      as (o & w2 & Hfirst).
    match goal with
    | |- context [bind ?m ?k ?s] =>
        destruct (bind_emits_after (fun c => compute_instance.reads c = true)
                    m k s _ _ Hfirst) as (rest & Ht & Hr)
    end.
    + intros operation. apply emits_bind; [apply instance_wait_reads|]. intros _.
      apply emits_bind; [apply emits_ret|]. intros x.
      apply emits_bind; [apply instance_get_reads|]. intros fetched.
      apply emits_exit_json.
    + exists rest. rewrite Ht. simpl. rewrite <- !app_assoc. simpl.
      split; [reflexivity|]. split; [exact Hr|].
      intros x Hin. rewrite Forall_forall in Hr. apply Hr in Hin. discriminate Hin.
  - unfold trace_of, bind, compute_instance._get, try_except, rpc. simpl.
    subst id.
    destruct (compute_instance.Get instance_service _ w1) as [[e|fetched] w2];
      simpl; now rewrite <- app_assoc.
Qed.

(** A stopped sample instance under both targets. *)
Lemma stopped_instance_transitions_witness :
  trace_of (compute_instance.main (L := Sample.lib)
              (Sample.instance_params compute_instance.restarted)
              (Sample.instances [Sample.vm "STOPPED"] "RUNNING")
              (Sample.operations 1 None) 5 (0%nat, []))
  = [compute_instance.InstanceList
       (compute_instance.find_request (L := Sample.lib)
          (Sample.instance_params compute_instance.restarted));
     compute_instance.InstanceStart "fhm1";
     compute_instance.Sleep 1; compute_instance.OperationGet "op-start";
     compute_instance.Sleep 1; compute_instance.OperationGet "op-start";
     compute_instance.InstanceGet "fhm1" "FULL"]
  /\ trace_of (compute_instance.main (L := Sample.lib)
                 (Sample.instance_params compute_instance.stopped)
                 (Sample.instances [Sample.vm "STOPPED"] "STOPPED")
                 (Sample.operations 1 None) 5 (0%nat, []))
     = [compute_instance.InstanceList
          (compute_instance.find_request (L := Sample.lib)
             (Sample.instance_params compute_instance.stopped));
        compute_instance.InstanceGet "fhm1" "FULL"].
Proof.
  split.
  - destruct (proj1 (stopped_instance_transitions (L := Sample.lib)
                       (Sample.instance_params compute_instance.restarted)
                       (Sample.instances [Sample.vm "STOPPED"] "RUNNING")
                       (Sample.operations 1 None) 5 0%nat [] (Sample.vm "STOPPED") 0%nat
                       eq_refl eq_refl) eq_refl) as (rest & Ht & _).
    reflexivity.
  - exact (proj2 (stopped_instance_transitions (L := Sample.lib)
                    (Sample.instance_params compute_instance.stopped)
                    (Sample.instances [Sample.vm "STOPPED"] "STOPPED")
                    (Sample.operations 1 None) 5 0%nat [] (Sample.vm "STOPPED") 0%nat
                    eq_refl eq_refl) eq_refl).
Defined.

(** ** Terminal semantics of the wait *)

(** C3, as the code has it. When the status sequence of an operation reaches
    a record with [done] true within the fuel given: if the record carries
    an error, the loop raises [OperationError] with the code and message of
    the payload, and [_wait] itself catches it and ends the run through
    [fail_json], the message embedding that text; if it carries none,
    [_wait] returns normally. Both modules agree. *)
Theorem wait_terminal_semantics {L : Py.Lib} {W : Type}
        (operation_service : OperationServiceStub W)
        k fuel id w terminal w' :
  reaches operation_service k id w terminal w' -> (k < fuel)%nat ->
  (forall error, op_error terminal = Some error ->
     let text := "unknown operation error code " ++ Py.repr (Py.str_int (code error))
                 ++ ". Error was: " ++ message error in
     (forall tr,
        compute_disk.wait_loop operation_service fuel id (w, tr)
        = (Raises (Py.OperationError text), (w', tr ++ compute_disk.polls (S k) id)%list))
     /\ (forall module tr,
           compute_disk._wait module operation_service fuel id (w, tr)
           = (FailJson ("unknown error operation disk "
                        ++ Py.repr (compute_disk.name module)
                        ++ ". Error was: " ++ text),
              (w', tr ++ compute_disk.polls (S k) id)%list))
     /\ (forall tr,
           compute_instance.wait_loop operation_service fuel id (w, tr)
           = (Raises (Py.OperationError text),
              (w', tr ++ compute_instance.polls (S k) id)%list))
     /\ (forall module tr,
           compute_instance._wait module operation_service fuel id (w, tr)
           = (FailJson ("unknown error operation disk "
                        ++ Py.repr (compute_instance.name module)
                        ++ ". Error was: " ++ text),
              (w', tr ++ compute_instance.polls (S k) id)%list)))
  /\ (op_error terminal = None ->
      (forall module tr,
         compute_disk._wait module operation_service fuel id (w, tr)
         = (Returns tt, (w', tr ++ compute_disk.polls (S k) id)%list))
      /\ (forall module tr,
            compute_instance._wait module operation_service fuel id (w, tr)
            = (Returns tt, (w', tr ++ compute_instance.polls (S k) id)%list))).
Proof.
  intros Hr Hlt. split.
  - intros error He text. repeat split; intros.
    + now rewrite (disk_wait_loop_reaches _ k fuel id w tr terminal w'), He.
    + now apply disk_wait_error with (terminal := terminal).
    + now rewrite (instance_wait_loop_reaches _ k fuel id w tr terminal w'), He.
    + now apply instance_wait_error with (terminal := terminal).
  - intros He. split; intros.
    + now apply disk_wait_done with (terminal := terminal).
    + now apply instance_wait_done with (terminal := terminal).
Qed.

Lemma sample_operation_reaches id error :
  reaches (Sample.operations 1 error) 1 id 0%nat
          {| op_id := id; op_done := Some true; op_error := error;
             op_metadata := None |} 2%nat.
Proof. exists 1%nat. repeat split. Qed.

(** An operation that fails with code 3 at its second poll. *)
Lemma wait_terminal_semantics_witness :
  compute_disk._wait (L := Sample.lib) (Sample.disk_params compute_disk.present)
    (Sample.operations 1 (Some {| code := 3; message := "quota exceeded" |}))
    5 "op-1" (0%nat, [])
  = (FailJson ("unknown error operation disk 'data-1'. Error was: "
               ++ "unknown operation error code '3'. Error was: quota exceeded"),
     (2%nat, [compute_disk.Sleep 1; compute_disk.OperationGet "op-1";
              compute_disk.Sleep 1; compute_disk.OperationGet "op-1"]))
  /\ compute_instance._wait (L := Sample.lib)
       (Sample.instance_params compute_instance.stopped)
       (Sample.operations 1 None) 5 "op-1" (0%nat, [])
     = (Returns tt,
        (2%nat, [compute_instance.Sleep 1; compute_instance.OperationGet "op-1";
                 compute_instance.Sleep 1; compute_instance.OperationGet "op-1"])).
Proof.
  split.
  - apply (proj1 (wait_terminal_semantics (L := Sample.lib) _ 1 5 "op-1" 0%nat _ 2%nat
                    (sample_operation_reaches _ _) ltac:(lia))
                 {| code := 3; message := "quota exceeded" |} eq_refl).
  - apply (proj2 (wait_terminal_semantics (L := Sample.lib) _ 1 5 "op-1" 0%nat _ 2%nat
                    (sample_operation_reaches _ None) ltac:(lia)) eq_refl).
Defined.

(** C3, as the claim states it, fails: the status sequence reaches a record
    with [done] true and an error payload, yet [_wait] does not raise
    [OperationError]; the run ends through [fail_json]. *)
Lemma wait_does_not_raise :
  let error := {| code := 3; message := "quota exceeded" |} in
  let operation_service := Sample.operations 1 (Some error) in
  let result :=
    result_of (compute_disk._wait (L := Sample.lib)
                 (Sample.disk_params compute_disk.present)
                 operation_service 5 "op-1" (0%nat, [])) in
  (exists terminal w',
      reaches operation_service 1 "op-1" 0%nat terminal w'
      /\ op_error terminal = Some error)
  /\ result = FailJson ("unknown error operation disk 'data-1'. Error was: "
                        ++ "unknown operation error code '3'. Error was: quota exceeded")
  /\ forall text, result <> Raises (Py.OperationError text).
Proof.
  cbv zeta. split; [|split].
  - eexists _, _. split; [apply sample_operation_reaches|reflexivity].
  - reflexivity.
  - intros text. discriminate.
Qed.

(** ** The locator *)

(** C4, as the code has it. Whatever the folder and the name, [_find] gives
    the empty dict when the list answer has no entry, the entry when it has
    exactly one, and the empty dict again when it has two or more: neither
    an error nor one of the entries. *)
Theorem find_zero_or_one {L : Py.Lib} {W : Type} :
  (forall (module : compute_disk.params) (disk_service : compute_disk.DiskServiceStub W)
          w tr disks w1,
      compute_disk.List disk_service (compute_disk.find_request module) w
      = (inr disks, w1) ->
      let result := result_of (compute_disk._find module disk_service (w, tr)) in
      (disks = [] -> result = Returns None)
      /\ (forall disk, disks = [disk] -> result = Returns (Some disk))
      /\ (2 <= length disks -> result = Returns None)%nat)
  /\
  (forall (module : compute_instance.params)
          (instance_service : compute_instance.InstanceServiceStub W)
          w tr instances w1,
      compute_instance.List instance_service (compute_instance.find_request module) w
      = (inr instances, w1) ->
      let result := result_of (compute_instance._find module instance_service (w, tr)) in
      (instances = [] -> result = Returns None)
      /\ (forall instance, instances = [instance] -> result = Returns (Some instance))
      /\ (2 <= length instances -> result = Returns None)%nat).
Proof.
  split.
  - intros module disk_service w tr disks w1 Hl result. subst result.
    rewrite (disk_find_answer module disk_service w tr disks w1 Hl).
    unfold result_of. simpl. repeat split.
    + now intros ->.
    + now intros disk ->.
    + destruct disks as [|d [|d' r]]; simpl; intros; auto; lia.
  - intros module instance_service w tr instances w1 Hl result. subst result.
    rewrite (instance_find_answer module instance_service w tr instances w1 Hl).
    unfold result_of. simpl. repeat split.
    + now intros ->.
    + now intros instance ->.
    + destruct instances as [|i [|i' r]]; simpl; intros; auto; lia.
Qed.

(** One disk listed, and two instances listed. *)
Lemma find_zero_or_one_witness :
  result_of (compute_disk._find (L := Sample.lib) (Sample.disk_params compute_disk.present)
               (Sample.disks [Sample.data1]) (0%nat, []))
  = Returns (Some Sample.data1)
  /\ result_of (compute_instance._find (L := Sample.lib)
                  (Sample.instance_params compute_instance.present)
                  (Sample.instances [Sample.vm "RUNNING"; Sample.vm "STOPPED"] "RUNNING")
                  (0%nat, []))
     = Returns None.
Proof.
  split.
  - apply (proj1 (find_zero_or_one (L := Sample.lib))
                 (Sample.disk_params compute_disk.present) (Sample.disks [Sample.data1])
                 0%nat [] [Sample.data1] 0%nat eq_refl).
    reflexivity.
  - apply (proj2 (find_zero_or_one (L := Sample.lib))
                 (Sample.instance_params compute_instance.present)
                 (Sample.instances [Sample.vm "RUNNING"; Sample.vm "STOPPED"] "RUNNING")
                 0%nat [] [Sample.vm "RUNNING"; Sample.vm "STOPPED"] 0%nat eq_refl).
    simpl. lia.
Defined.

(** C4, as the claim states it, fails: with two instances listed the result
    is neither an error nor one of the two. *)
Lemma find_two_is_neither_error_nor_pick :
  let listed := [Sample.vm "RUNNING"; Sample.vm "STOPPED"] in
  let result :=
    result_of (compute_instance._find (L := Sample.lib)
                 (Sample.instance_params compute_instance.present)
                 (Sample.instances listed "RUNNING") (0%nat, [])) in
  result = Returns None
  /\ (forall msg, result <> FailJson msg)
  /\ (forall e, result <> Raises e)
  /\ (forall instance, In instance listed -> result <> Returns (Some instance)).
Proof.
  cbv zeta. repeat split; try reflexivity; intros; discriminate.
Qed.

(** ** Targets [restarted] and [stopped] *)

(** C7. With target [restarted] or [stopped], when the locator finds no
    instance (the list answer does not have exactly one entry), the run
    fails with the message "not found instance with name" followed by the
    name, right after the List call: it never exits through [exit_json]. *)
Theorem absent_is_fatal_for_restart_and_stop {L : Py.Lib} {W : Type}
        (module : compute_instance.params)
        (instance_service : compute_instance.InstanceServiceStub W)
        (operation_service : OperationServiceStub W) (fuel : nat)
        w tr instances w1 :
  let request := compute_instance.find_request module in
  compute_instance.state module = compute_instance.restarted
  \/ compute_instance.state module = compute_instance.stopped ->
  compute_instance.List instance_service request w = (inr instances, w1) ->
  length instances <> 1%nat ->
  compute_instance.main module instance_service operation_service fuel (w, tr)
  = (FailJson ("not found instance with name " ++ Py.repr (compute_instance.name module)),
     (w1, tr ++ [compute_instance.InstanceList request])%list).
Proof.
  intros request Hs Hl Hn. unfold compute_instance.main.
  rewrite (bind_returns _ _ _ _ _ (instance_find_answer module instance_service w tr _ w1 Hl)).
  assert (Hnone : match instances with [i] => Some i | _ => None end = None).
  { destruct instances as [|i [|i' r]]; simpl in Hn; auto; lia. }
  rewrite Hnone. destruct Hs as [-> | ->]; reflexivity.
Qed.

(** No instance is listed, under both targets. *)
Lemma absent_is_fatal_for_restart_and_stop_witness :
  result_of (compute_instance.main (L := Sample.lib)
               (Sample.instance_params compute_instance.restarted)
               (Sample.instances [] "RUNNING") (Sample.operations 0 None) 3 (0%nat, []))
  = FailJson "not found instance with name 'vm-1'"
  /\ result_of (compute_instance.main (L := Sample.lib)
                  (Sample.instance_params compute_instance.stopped)
                  (Sample.instances [] "RUNNING") (Sample.operations 0 None) 3 (0%nat, []))
     = FailJson "not found instance with name 'vm-1'".
Proof.
  split; unfold result_of.
  - rewrite (absent_is_fatal_for_restart_and_stop (L := Sample.lib)
               (Sample.instance_params compute_instance.restarted)
               (Sample.instances [] "RUNNING") (Sample.operations 0 None) 3
               0%nat [] [] 0%nat (or_introl eq_refl) eq_refl); [reflexivity|].
    simpl. lia.
  - rewrite (absent_is_fatal_for_restart_and_stop (L := Sample.lib)
               (Sample.instance_params compute_instance.stopped)
               (Sample.instances [] "RUNNING") (Sample.operations 0 None) 3
               0%nat [] [] 0%nat (or_intror eq_refl) eq_refl); [reflexivity|].
    simpl. lia.
Defined.

(** C5, as the code has it. With target [stopped] and a located instance
    already STOPPED, the run reads the instance once more and ends there:
    with the [changed=false] report when the Get answers, with [fail_json]
    when it raises. [exit_json] ends the run, so the later unconditional
    [changed=true] report is not produced on this branch. *)
Theorem already_stopped_reports_once {L : Py.Lib} {W : Type}
        (module : compute_instance.params)
        (instance_service : compute_instance.InstanceServiceStub W)
        (operation_service : OperationServiceStub W) (fuel : nat)
        w tr instance w1 answer w2 :
  let request := compute_instance.find_request module in
  let id := compute_instance.instance_id instance in
  compute_instance.state module = compute_instance.stopped ->
  compute_instance.List instance_service request w = (inr [instance], w1) ->
  compute_instance.instance_status instance = "STOPPED" ->
  compute_instance.Get instance_service id w1 = (answer, w2) ->
  compute_instance.main module instance_service operation_service fuel (w, tr)
  = (match answer with
     | inr fetched =>
         ExitJson false
                  ("instance " ++ Py.repr (compute_instance.name module) ++ " stopped")
                  (Some fetched) None
     | inl e =>
         FailJson ("unknown error getting instance by id " ++ Py.repr id
                   ++ ". Error was: " ++ Py.str_exn e)
     end,
     (w2, tr ++ [compute_instance.InstanceList request;
                 compute_instance.InstanceGet id "FULL"])%list).
Proof.
  intros request id Hs Hl Hst Hg. unfold compute_instance.main.
  rewrite (bind_returns _ _ _ _ _ (instance_find_answer module instance_service w tr _ w1 Hl)).
  rewrite Hs, Hst. simpl.
  unfold bind, compute_instance._get, try_except, rpc, fail_json, exit_json. simpl.
  subst id. rewrite Hg. rewrite <- app_assoc. destruct answer; reflexivity.
Qed.

(** The sample instance, stopped, under target [stopped]. *)
Lemma already_stopped_reports_once_witness :
  compute_instance.main (L := Sample.lib)
    (Sample.instance_params compute_instance.stopped)
    (Sample.instances [Sample.vm "STOPPED"] "STOPPED") (Sample.operations 0 None) 3
    (0%nat, [])
  = (ExitJson false "instance 'vm-1' stopped" (Some (Sample.vm "STOPPED")) None,
     (0%nat,
      [compute_instance.InstanceList
         (compute_instance.find_request (L := Sample.lib)
            (Sample.instance_params compute_instance.stopped));
       compute_instance.InstanceGet "fhm1" "FULL"])).
Proof.
  exact (already_stopped_reports_once (L := Sample.lib)
           (Sample.instance_params compute_instance.stopped)
           (Sample.instances [Sample.vm "STOPPED"] "STOPPED") (Sample.operations 0 None) 3
           0%nat [] (Sample.vm "STOPPED") 0%nat (inr (Sample.vm "STOPPED")) 0%nat
           eq_refl eq_refl eq_refl eq_refl).
Defined.

(** C5, as the claim states it, fails: on the sample instance, already
    stopped, the run ends with the [changed=false] report, and with no
    [changed=true] report whatever its message and content. *)
Lemma already_stopped_is_not_reported_changed :
  let result :=
    result_of (compute_instance.main (L := Sample.lib)
                 (Sample.instance_params compute_instance.stopped)
                 (Sample.instances [Sample.vm "STOPPED"] "STOPPED")
                 (Sample.operations 0 None) 3 (0%nat, [])) in
  result = ExitJson false "instance 'vm-1' stopped" (Some (Sample.vm "STOPPED")) None
  /\ forall msg resource diff, result <> ExitJson true msg resource diff.
Proof.
  cbv zeta. split; [reflexivity|]. intros msg resource diff. discriminate.
Qed.

(** ** Traces of whole runs *)

Section WaitTrace.
Context {L : Py.Lib} {W : Type}.
Variable operation_service : OperationServiceStub W.

Lemma disk_wait_emits (Q : compute_disk.call -> Prop) module fuel id :
  (forall c, compute_disk.reads c = true -> Q c) ->
  emits Q (compute_disk._wait module operation_service fuel id).
Proof.
  intros HQ. apply emits_try_except; [|intros; apply emits_fail_json].
  induction fuel as [|fuel IH]; simpl; [apply emits_pending|].
  apply emits_bind; [now apply emits_mark, HQ|]. intros _.
  apply emits_bind; [now apply emits_rpc, HQ|]. intros operation.
  destruct (op_done operation) as [[|]|]; auto.
  destruct (op_error operation); auto with emits.
Qed.

Lemma instance_wait_emits (Q : compute_instance.call -> Prop) module fuel id :
  (forall c, compute_instance.reads c = true -> Q c) ->
  emits Q (compute_instance._wait module operation_service fuel id).
Proof.
  intros HQ. eapply emits_weaken; [exact HQ|apply instance_wait_reads].
Qed.
End WaitTrace.

(** Trace facts where every call is allowed. *)
Ltac emits_any :=
  repeat first
    [ apply disk_wait_emits; intros; exact I
    | apply instance_wait_emits; intros; exact I
    | apply emits_ret | apply emits_raise | apply emits_exit_json
    | apply emits_fail_json | apply emits_pending
    | apply emits_rpc; exact I | apply emits_mark; exact I
    | apply emits_bind | apply emits_try_except
    | match goal with
      | |- forall _, _ => intro
      | |- emits _ (match ?x with _ => _ end) => destruct x
      end ].

Section RunTrace.
Context {L : Py.Lib} {W : Type}.
Variable operation_service : OperationServiceStub W.
Variable fuel : nat.

Lemma disk_find_first module (disk_service : compute_disk.DiskServiceStub W) w tr :
  exists o w',
    compute_disk._find module disk_service (w, tr)
    = (o, (w', tr ++ [compute_disk.DiskList (compute_disk.find_request module)])%list).
Proof.
  unfold compute_disk._find, try_except, bind, rpc, fail_json. simpl.
  destruct (compute_disk.List disk_service _ w) as [[e|disks] w']; simpl;
    [do 2 eexists; reflexivity|].
  destruct disks as [|d [|d' r]]; do 2 eexists; reflexivity.
Qed.

Lemma instance_find_first module
      (instance_service : compute_instance.InstanceServiceStub W) w tr :
  exists o w',
    compute_instance._find module instance_service (w, tr)
    = (o, (w', tr ++ [compute_instance.InstanceList
                        (compute_instance.find_request module)])%list).
Proof.
  unfold compute_instance._find, try_except, bind, rpc, fail_json. simpl.
  destruct (compute_instance.List instance_service _ w) as [[e|instances] w']; simpl;
    [do 2 eexists; reflexivity|].
  destruct instances as [|i [|i' r]]; do 2 eexists; reflexivity.
Qed.

Lemma disk_main_first module (disk_service : compute_disk.DiskServiceStub W) w tr :
  exists rest,
    trace_of (compute_disk.main module disk_service operation_service fuel (w, tr))
    = (tr ++ compute_disk.DiskList (compute_disk.find_request module) :: rest)%list.
Proof.
  destruct (disk_find_first module disk_service w tr) as (o & w' & Hf).
  unfold compute_disk.main.
  match goal with
  | |- context [bind ?m ?k ?s] =>
      destruct (bind_emits_after (fun _ => True) m k s _ _ Hf) as (rest & Ht & _)
  end.
  - intros disk. unfold compute_disk._create, compute_disk._update,
      compute_disk._delete, compute_disk._get. emits_any.
  - exists rest. rewrite Ht. simpl. now rewrite <- app_assoc.
Qed.

Lemma instance_main_first module
      (instance_service : compute_instance.InstanceServiceStub W) w tr :
  exists rest,
    trace_of (compute_instance.main module instance_service operation_service fuel (w, tr))
    = (tr ++ compute_instance.InstanceList (compute_instance.find_request module)
          :: rest)%list.
Proof.
  destruct (instance_find_first module instance_service w tr) as (o & w' & Hf).
  unfold compute_instance.main.
  match goal with
  | |- context [bind ?m ?k ?s] =>
      destruct (bind_emits_after (fun _ => True) m k s _ _ Hf) as (rest & Ht & _)
  end.
  - intros instance. unfold compute_instance._create, compute_instance._start,
      compute_instance._restart, compute_instance._stop, compute_instance._delete,
      compute_instance._get, compute_instance.item_id. emits_any.
  - exists rest. rewrite Ht. simpl. now rewrite <- app_assoc.
Qed.
End RunTrace.

(** ** The list request and duplicate names *)

(** C9, as the code has it. The first call of every run is the List call of
    the locator, in the folder given and with the filter [name = ] followed
    by the [repr] of the name. For a disk the request carries page size 1;
    for an instance it carries no page size and the order [name asc]. *)
Theorem locator_request_shape {L : Py.Lib} {W : Type}
        (operation_service : OperationServiceStub W) (fuel : nat) :
  (forall (module : compute_disk.params) (disk_service : compute_disk.DiskServiceStub W)
          w tr,
      exists rest,
        trace_of (compute_disk.main module disk_service operation_service fuel (w, tr))
        = (tr ++ compute_disk.DiskList
                   {| compute_disk.list_folder_id := compute_disk.folder_id module;
                      compute_disk.list_filter :=
                        "name = " ++ Py.repr (compute_disk.name module);
                      compute_disk.list_page_size := 1 |} :: rest)%list)
  /\
  (forall (module : compute_instance.params)
          (instance_service : compute_instance.InstanceServiceStub W) w tr,
      exists rest,
        trace_of (compute_instance.main module instance_service operation_service fuel
                    (w, tr))
        = (tr ++ compute_instance.InstanceList
                   {| compute_instance.list_folder_id := compute_instance.folder_id module;
                      compute_instance.list_filter :=
                        "name = " ++ Py.repr (compute_instance.name module);
                      compute_instance.list_page_size := None;
                      compute_instance.list_order_by := "name asc" |} :: rest)%list).
Proof.
  split; intros.
  - apply disk_main_first.
  - apply instance_main_first.
Qed.

(** C9, as the claim states it, fails for instances: the List request of the
    sample run is the first call made, and it carries no page size. *)
Lemma instance_list_has_no_page_size :
  exists request rest,
    trace_of (compute_instance.main (L := Sample.lib)
                (Sample.instance_params compute_instance.present)
                (Sample.instances [Sample.vm "RUNNING"] "RUNNING")
                (Sample.operations 0 None) 3 (0%nat, []))
    = compute_instance.InstanceList request :: rest
    /\ compute_instance.list_filter request = "name = 'vm-1'"
    /\ compute_instance.list_page_size request = None
    /\ compute_instance.list_page_size request <> Some 1%Z.
Proof.
  eexists _, _. split; [reflexivity|]. repeat split. discriminate.
Qed.

(** C10. When the list answer has two or more entries, [_find] of both
    modules gives the empty dict, as it does for no entry: no error is
    raised and no entry is picked. Under target [present] the call that
    follows the List call is then Create. *)
Theorem duplicates_are_treated_as_absent {L : Py.Lib} {W : Type}
        (operation_service : OperationServiceStub W) (fuel : nat) :
  (forall (module : compute_disk.params) (disk_service : compute_disk.DiskServiceStub W)
          w tr disks w1,
      let request := compute_disk.find_request module in
      compute_disk.List disk_service request w = (inr disks, w1) ->
      (2 <= length disks)%nat ->
      compute_disk._find module disk_service (w, tr)
      = (Returns None, (w1, tr ++ [compute_disk.DiskList request])%list)
      /\ (compute_disk.state module = compute_disk.present ->
          exists rest,
            trace_of (compute_disk.main module disk_service operation_service fuel (w, tr))
            = (tr ++ [compute_disk.DiskList request;
                      compute_disk.DiskCreate (compute_disk.create_request module)]
                  ++ rest)%list))
  /\
  (forall (module : compute_instance.params)
          (instance_service : compute_instance.InstanceServiceStub W)
          w tr instances w1,
      let request := compute_instance.find_request module in
      compute_instance.List instance_service request w = (inr instances, w1) ->
      (2 <= length instances)%nat ->
      compute_instance._find module instance_service (w, tr)
      = (Returns None, (w1, tr ++ [compute_instance.InstanceList request])%list)
      /\ (compute_instance.state module = compute_instance.present ->
          exists rest,
            trace_of (compute_instance.main module instance_service operation_service fuel
                        (w, tr))
            = (tr ++ [compute_instance.InstanceList request;
                      compute_instance.InstanceCreate
                        (compute_instance.create_request module)]
                  ++ rest)%list)).
Proof.
  split.
  - intros module disk_service w tr disks w1 request Hl Hn.
    assert (Hf : compute_disk._find module disk_service (w, tr)
                 = (Returns None, (w1, tr ++ [compute_disk.DiskList request])%list)).
    { rewrite (disk_find_answer module disk_service w tr disks w1 Hl).
      destruct disks as [|d [|d' r]]; simpl in Hn; try lia; reflexivity. }
    split; [exact Hf|]. intros Hs. unfold compute_disk.main.
    rewrite (bind_returns _ _ _ _ _ Hf), Hs.
    destruct (try_rpc_first (R := compute_disk.Disk)
                (compute_disk.DiskCreate (compute_disk.create_request module))
                (compute_disk.Create disk_service (compute_disk.create_request module))
                (fun e => "unknown error create disk " ++ Py.repr (compute_disk.name module)
                          ++ ". Error was: " ++ Py.str_exn e)
                w1 (tr ++ [compute_disk.DiskList request])%list)
      as (o & w2 & Hfirst).
    match goal with
    | |- context [bind ?m ?k ?s] =>
        destruct (bind_emits_after (fun _ => True) m k s _ _ Hfirst) as (rest & Ht & _)
    end.
    + intros operation. unfold compute_disk._get. emits_any.
    + exists rest. rewrite Ht. simpl. now rewrite <- !app_assoc.
  - intros module instance_service w tr instances w1 request Hl Hn.
    assert (Hf : compute_instance._find module instance_service (w, tr)
                 = (Returns None,
                    (w1, tr ++ [compute_instance.InstanceList request])%list)).
    { rewrite (instance_find_answer module instance_service w tr instances w1 Hl).
      destruct instances as [|i [|i' r]]; simpl in Hn; try lia; reflexivity. }
    split; [exact Hf|]. intros Hs. unfold compute_instance.main.
    rewrite (bind_returns _ _ _ _ _ Hf), Hs.
    destruct (try_rpc_first (R := compute_instance.Instance)
                (compute_instance.InstanceCreate (compute_instance.create_request module))
                (compute_instance.Create instance_service
                   (compute_instance.create_request module))
                (fun e => "unknown error create instance "
                          ++ Py.repr (compute_instance.name module)
                          ++ ". Error was: " ++ Py.str_exn e)
                w1 (tr ++ [compute_instance.InstanceList request])%list)
      as (o & w2 & Hfirst).
    match goal with
    | |- context [bind ?m ?k ?s] =>
        destruct (bind_emits_after (fun _ => True) m k s _ _ Hfirst) as (rest & Ht & _)
    end.
    + intros operation. unfold compute_instance._get. emits_any.
    + exists rest. rewrite Ht. simpl. now rewrite <- !app_assoc.
Qed.

(** Two instances of the same name are listed; target [present]. *)
Lemma duplicates_are_treated_as_absent_witness :
  let listed := [Sample.vm "RUNNING"; Sample.vm "STOPPED"] in
  result_of (compute_instance._find (L := Sample.lib)
               (Sample.instance_params compute_instance.present)
               (Sample.instances listed "RUNNING") (0%nat, []))
  = Returns None
  /\ nth_error
       (trace_of (compute_instance.main (L := Sample.lib)
                    (Sample.instance_params compute_instance.present)
                    (Sample.instances listed "RUNNING")
                    (Sample.operations 0 None) 3 (0%nat, []))) 1
     = Some (compute_instance.InstanceCreate
               (compute_instance.create_request
                  (Sample.instance_params compute_instance.present))).
Proof.
  cbv zeta.
  destruct (proj2 (duplicates_are_treated_as_absent (L := Sample.lib)
                     (Sample.operations 0 None) 3)
                  (Sample.instance_params compute_instance.present)
                  (Sample.instances [Sample.vm "RUNNING"; Sample.vm "STOPPED"] "RUNNING")
                  0%nat [] [Sample.vm "RUNNING"; Sample.vm "STOPPED"] 0%nat
                  eq_refl ltac:(simpl; lia)) as (Hf & Hm).
  split.
  - unfold result_of. now rewrite Hf.
  - destruct (Hm eq_refl) as (rest & ->). reflexivity.
Defined.

(** ** The mutating branches *)

Ltac answered H := erewrite bind_returns by (apply try_rpc_answer; exact H).

Section DiskBranches.
Context {L : Py.Lib} {W : Type}.
Variable module : compute_disk.params.
Variable disk_service : compute_disk.DiskServiceStub W.
Variable operation_service : OperationServiceStub W.
Variables (k fuel : nat) (w w1 w2 w3 w4 : W) (tr : list compute_disk.call).
Variable operation : Operation.
Hypothesis Hwait : succeeds operation_service k fuel operation w2 w3.

Let request := compute_disk.find_request module.
Let run := compute_disk.main module disk_service operation_service fuel (w, tr).

Lemma disk_waited tr' :
  compute_disk._wait module operation_service fuel (op_id operation) (w2, tr')
  = (Returns tt, (w3, tr' ++ compute_disk.polls (S k) (op_id operation))%list).
Proof.
  destruct Hwait as (Hlt & terminal & Hr & He).
  now apply disk_wait_done with (terminal := terminal).
Qed.

Lemma disk_create_branch disks disk_id created :
  compute_disk.state module = compute_disk.present ->
  compute_disk.List disk_service request w = (inr disks, w1) ->
  length disks <> 1%nat ->
  compute_disk.Create disk_service (compute_disk.create_request module) w1
  = (inr operation, w2) ->
  op_metadata operation = Some disk_id ->
  compute_disk.Get disk_service disk_id w3 = (inr created, w4) ->
  run = (ExitJson true ("disk " ++ Py.repr (compute_disk.name module) ++ " created")
                  (Some created) None,
         (w4, tr ++ [compute_disk.DiskList request;
                     compute_disk.DiskCreate (compute_disk.create_request module)]
                 ++ compute_disk.polls (S k) (op_id operation)
                 ++ [compute_disk.DiskGet disk_id])%list).
Proof.
  intros Hs Hl Hn Hc Hm Hg. subst run. unfold compute_disk.main.
  rewrite (bind_returns _ _ _ _ _ (disk_find_answer module disk_service w tr _ w1 Hl)).
  assert (Hnone : match disks with [d] => Some d | _ => None end = None).
  { destruct disks as [|d [|d' r]]; simpl in Hn; auto; lia. }
  rewrite Hnone, Hs. unfold compute_disk._create, compute_disk._get.
  answered Hc. rewrite (bind_returns _ _ _ _ _ (disk_waited _)), Hm.
  answered Hg. unfold exit_json. now rewrite <- !app_assoc.
Qed.

Lemma disk_update_branch disk updated :
  compute_disk.state module = compute_disk.present ->
  compute_disk.List disk_service request w = (inr [disk], w1) ->
  compute_disk.needs_update module disk = true ->
  compute_disk.Update disk_service
    (compute_disk.update_request module (compute_disk.disk_id disk)) w1
  = (inr operation, w2) ->
  compute_disk.Get disk_service (compute_disk.disk_id disk) w3 = (inr updated, w4) ->
  run = (ExitJson true ("disk " ++ Py.repr (compute_disk.name module) ++ " updated")
                  (Some updated)
                  (Some (String.concat "" (compute_disk.diff_lines module disk))),
         (w4, tr ++ [compute_disk.DiskList request;
                     compute_disk.DiskUpdate
                       (compute_disk.update_request module (compute_disk.disk_id disk))]
                 ++ compute_disk.polls (S k) (op_id operation)
                 ++ [compute_disk.DiskGet (compute_disk.disk_id disk)])%list).
Proof.
  intros Hs Hl Hn Hu Hg. subst run. unfold compute_disk.main.
  rewrite (bind_returns _ _ _ _ _ (disk_find_answer module disk_service w tr _ w1 Hl)).
  rewrite Hs, Hn. unfold compute_disk._update, compute_disk._get.
  answered Hu. rewrite (bind_returns _ _ _ _ _ (disk_waited _)).
  cbv zeta. answered Hg. unfold exit_json. now rewrite <- !app_assoc.
Qed.

Lemma disk_delete_branch disk :
  compute_disk.state module = compute_disk.absent ->
  compute_disk.List disk_service request w = (inr [disk], w1) ->
  compute_disk.Delete disk_service (compute_disk.disk_id disk) w1 = (inr operation, w2) ->
  run = (ExitJson true ("disk " ++ Py.repr (compute_disk.name module) ++ " deleted")
                  None None,
         (w3, tr ++ [compute_disk.DiskList request;
                     compute_disk.DiskDelete (compute_disk.disk_id disk)]
                 ++ compute_disk.polls (S k) (op_id operation))%list).
Proof.
  intros Hs Hl Hd. subst run. unfold compute_disk.main.
  rewrite (bind_returns _ _ _ _ _ (disk_find_answer module disk_service w tr _ w1 Hl)).
  rewrite Hs. unfold compute_disk._delete.
  answered Hd. rewrite (bind_returns _ _ _ _ _ (disk_waited _)).
  unfold exit_json. now rewrite <- !app_assoc.
Qed.
End DiskBranches.

Section InstanceBranches.
Context {L : Py.Lib} {W : Type}.
Variable module : compute_instance.params.
Variable instance_service : compute_instance.InstanceServiceStub W.
Variable operation_service : OperationServiceStub W.
Variables (k fuel : nat) (w w1 w2 w3 w4 : W) (tr : list compute_instance.call).
Variable operation : Operation.
Hypothesis Hwait : succeeds operation_service k fuel operation w2 w3.

Let request := compute_instance.find_request module.
Let run := compute_instance.main module instance_service operation_service fuel (w, tr).

Lemma instance_waited tr' :
  compute_instance._wait module operation_service fuel (op_id operation) (w2, tr')
  = (Returns tt, (w3, tr' ++ compute_instance.polls (S k) (op_id operation))%list).
Proof.
  destruct Hwait as (Hlt & terminal & Hr & He).
  now apply instance_wait_done with (terminal := terminal).
Qed.

Lemma instance_create_branch instances instance_id created :
  compute_instance.state module = compute_instance.present ->
  compute_instance.List instance_service request w = (inr instances, w1) ->
  length instances <> 1%nat ->
  compute_instance.Create instance_service (compute_instance.create_request module) w1
  = (inr operation, w2) ->
  op_metadata operation = Some instance_id ->
  compute_instance.Get instance_service instance_id w3 = (inr created, w4) ->
  run = (ExitJson true
                  ("instance " ++ Py.repr (compute_instance.name module)
                   ++ " created and running") (Some created) None,
         (w4, tr ++ [compute_instance.InstanceList request;
                     compute_instance.InstanceCreate
                       (compute_instance.create_request module)]
                 ++ compute_instance.polls (S k) (op_id operation)
                 ++ [compute_instance.InstanceGet instance_id "FULL"])%list).
Proof.
  intros Hs Hl Hn Hc Hm Hg. subst run. unfold compute_instance.main.
  rewrite (bind_returns _ _ _ _ _ (instance_find_answer module instance_service w tr _ w1 Hl)).
  assert (Hnone : match instances with [i] => Some i | _ => None end = None).
  { destruct instances as [|i [|i' r]]; simpl in Hn; auto; lia. }
  rewrite Hnone, Hs. unfold compute_instance._create, compute_instance._get.
  answered Hc. rewrite (bind_returns _ _ _ _ _ (instance_waited _)), Hm.
  answered Hg. unfold exit_json. now rewrite <- !app_assoc.
Qed.

Lemma instance_start_branch instance started :
  compute_instance.state module = compute_instance.present ->
  compute_instance.List instance_service request w = (inr [instance], w1) ->
  compute_instance.instance_status instance = "STOPPED" ->
  compute_instance.Start instance_service (compute_instance.instance_id instance) w1
  = (inr operation, w2) ->
  compute_instance.Get instance_service (compute_instance.instance_id instance) w3
  = (inr started, w4) ->
  run = (ExitJson true
                  ("instance " ++ Py.repr (compute_instance.name module)
                   ++ " exists and running") (Some started) None,
         (w4, tr ++ [compute_instance.InstanceList request;
                     compute_instance.InstanceStart (compute_instance.instance_id instance)]
                 ++ compute_instance.polls (S k) (op_id operation)
                 ++ [compute_instance.InstanceGet
                       (compute_instance.instance_id instance) "FULL"])%list).
Proof.
  intros Hs Hl Hst Ha Hg. subst run. unfold compute_instance.main.
  rewrite (bind_returns _ _ _ _ _ (instance_find_answer module instance_service w tr _ w1 Hl)).
  rewrite Hs, Hst, String.eqb_refl.
  unfold compute_instance._start, compute_instance._get.
  answered Ha. rewrite (bind_returns _ _ _ _ _ (instance_waited _)).
  answered Hg. unfold exit_json. now rewrite <- !app_assoc.
Qed.

Lemma instance_restarted_start_branch instance fetched :
  compute_instance.state module = compute_instance.restarted ->
  compute_instance.List instance_service request w = (inr [instance], w1) ->
  compute_instance.instance_status instance = "STOPPED" ->
  compute_instance.Start instance_service (compute_instance.instance_id instance) w1
  = (inr operation, w2) ->
  compute_instance.Get instance_service (compute_instance.instance_id instance) w3
  = (inr fetched, w4) ->
  run = (ExitJson true
                  ("instance " ++ Py.repr (compute_instance.name module) ++ " restarted")
                  (Some fetched) None,
         (w4, tr ++ [compute_instance.InstanceList request;
                     compute_instance.InstanceStart (compute_instance.instance_id instance)]
                 ++ compute_instance.polls (S k) (op_id operation)
                 ++ [compute_instance.InstanceGet
                       (compute_instance.instance_id instance) "FULL"])%list).
Proof.
  intros Hs Hl Hst Ha Hg. subst run. unfold compute_instance.main.
  rewrite (bind_returns _ _ _ _ _ (instance_find_answer module instance_service w tr _ w1 Hl)).
  rewrite Hs, Hst, String.eqb_refl.
  unfold compute_instance._start, compute_instance._get, compute_instance.item_id.
  rewrite bind_assoc. answered Ha.
  rewrite (bind_returns _ _ _ _ _ (instance_waited _)).
  unfold ret at 1. unfold bind at 1.
  answered Hg. unfold exit_json. now rewrite <- !app_assoc.
Qed.

Lemma instance_restart_branch instance fetched :
  compute_instance.state module = compute_instance.restarted ->
  compute_instance.List instance_service request w = (inr [instance], w1) ->
  compute_instance.instance_status instance <> "STOPPED" ->
  compute_instance.Restart instance_service (compute_instance.instance_id instance) w1
  = (inr operation, w2) ->
  compute_instance.Get instance_service (compute_instance.instance_id instance) w3
  = (inr fetched, w4) ->
  run = (ExitJson true
                  ("instance " ++ Py.repr (compute_instance.name module) ++ " restarted")
                  (Some fetched) None,
         (w4, tr ++ [compute_instance.InstanceList request;
                     compute_instance.InstanceRestart
                       (compute_instance.instance_id instance)]
                 ++ compute_instance.polls (S k) (op_id operation)
                 ++ [compute_instance.InstanceGet
                       (compute_instance.instance_id instance) "FULL"])%list).
Proof.
  intros Hs Hl Hst Ha Hg. subst run. unfold compute_instance.main.
  rewrite (bind_returns _ _ _ _ _ (instance_find_answer module instance_service w tr _ w1 Hl)).
  apply String.eqb_neq in Hst. rewrite Hs, Hst.
  unfold compute_instance._restart, compute_instance._get, compute_instance.item_id.
  rewrite bind_assoc. answered Ha.
  rewrite (bind_returns _ _ _ _ _ (instance_waited _)).
  unfold ret at 1. unfold bind at 1.
  answered Hg. unfold exit_json. now rewrite <- !app_assoc.
Qed.

Lemma instance_stop_branch instance fetched :
  compute_instance.state module = compute_instance.stopped ->
  compute_instance.List instance_service request w = (inr [instance], w1) ->
  compute_instance.instance_status instance <> "STOPPED" ->
  compute_instance.Stop instance_service (compute_instance.instance_id instance) w1
  = (inr operation, w2) ->
  compute_instance.Get instance_service (compute_instance.instance_id instance) w3
  = (inr fetched, w4) ->
  run = (ExitJson true
                  ("instance " ++ Py.repr (compute_instance.name module) ++ " stopped")
                  (Some fetched) None,
         (w4, tr ++ [compute_instance.InstanceList request;
                     compute_instance.InstanceStop (compute_instance.instance_id instance)]
                 ++ compute_instance.polls (S k) (op_id operation)
                 ++ [compute_instance.InstanceGet
                       (compute_instance.instance_id instance) "FULL"])%list).
Proof.
  intros Hs Hl Hst Ha Hg. subst run. unfold compute_instance.main.
  rewrite (bind_returns _ _ _ _ _ (instance_find_answer module instance_service w tr _ w1 Hl)).
  apply String.eqb_neq in Hst. rewrite Hs, Hst.
  unfold compute_instance._stop, compute_instance._get, compute_instance.item_id.
  rewrite bind_assoc. answered Ha.
  rewrite (bind_returns _ _ _ _ _ (instance_waited _)).
  unfold ret at 1. unfold bind at 1.
  answered Hg. unfold exit_json. now rewrite <- !app_assoc.
Qed.

Lemma instance_delete_branch instance :
  compute_instance.state module = compute_instance.absent ->
  compute_instance.List instance_service request w = (inr [instance], w1) ->
  compute_instance.Delete instance_service (compute_instance.instance_id instance) w1
  = (inr operation, w2) ->
  run = (ExitJson true
                  ("instance " ++ Py.repr (compute_instance.name module) ++ " deleted")
                  None None,
         (w3, tr ++ [compute_instance.InstanceList request;
                     compute_instance.InstanceDelete
                       (compute_instance.instance_id instance)]
                 ++ compute_instance.polls (S k) (op_id operation))%list).
Proof.
  intros Hs Hl Hd. subst run. unfold compute_instance.main.
  rewrite (bind_returns _ _ _ _ _ (instance_find_answer module instance_service w tr _ w1 Hl)).
  rewrite Hs. unfold compute_instance._delete.
  answered Hd. rewrite (bind_returns _ _ _ _ _ (instance_waited _)).
  unfold exit_json. now rewrite <- !app_assoc.
Qed.
End InstanceBranches.

Lemma sample_operation_succeeds id resource_id :
  succeeds (Sample.operations 1 None) 1 5 (Sample.started id resource_id) 0%nat 2%nat.
Proof.
  split; [lia|]. eexists. split; [apply sample_operation_reaches|reflexivity].
Qed.

(** C6, as the code has it. Let the operation a mutating call answers with
    complete without error. Then create, update, start, restart and stop
    are followed by the polls of the operation and by one Get (by the id in
    the metadata of the operation for create, by the id of the located
    resource otherwise), and the run exits [changed=true] with what that Get
    answers. Delete is followed by the polls only: no Get is made and the
    report carries no resource. *)
Theorem mutating_branches_fetch_except_delete {L : Py.Lib} {W : Type}
        (operation_service : OperationServiceStub W)
        (k fuel : nat) (operation : Operation) (w2 w3 : W) :
  succeeds operation_service k fuel operation w2 w3 ->
  let disk_polls := compute_disk.polls (S k) (op_id operation) in
  let instance_polls := compute_instance.polls (S k) (op_id operation) in
  (forall (module : compute_disk.params) (disk_service : compute_disk.DiskServiceStub W)
          w tr w1 w4,
      let request := compute_disk.find_request module in
      let run := compute_disk.main module disk_service operation_service fuel (w, tr) in
      let said text := "disk " ++ Py.repr (compute_disk.name module) ++ text in
      (forall disks id created,
          compute_disk.state module = compute_disk.present ->
          compute_disk.List disk_service request w = (inr disks, w1) ->
          length disks <> 1%nat ->
          compute_disk.Create disk_service (compute_disk.create_request module) w1
          = (inr operation, w2) ->
          op_metadata operation = Some id ->
          compute_disk.Get disk_service id w3 = (inr created, w4) ->
          run = (ExitJson true (said " created") (Some created) None,
                 (w4, tr ++ [compute_disk.DiskList request;
                             compute_disk.DiskCreate (compute_disk.create_request module)]
                         ++ disk_polls ++ [compute_disk.DiskGet id])%list))
      /\ (forall disk updated,
             let id := compute_disk.disk_id disk in
             compute_disk.state module = compute_disk.present ->
             compute_disk.List disk_service request w = (inr [disk], w1) ->
             compute_disk.needs_update module disk = true ->
             compute_disk.Update disk_service (compute_disk.update_request module id) w1
             = (inr operation, w2) ->
             compute_disk.Get disk_service id w3 = (inr updated, w4) ->
             run = (ExitJson true (said " updated") (Some updated)
                             (Some (String.concat "" (compute_disk.diff_lines module disk))),
                    (w4, tr ++ [compute_disk.DiskList request;
                                compute_disk.DiskUpdate
                                  (compute_disk.update_request module id)]
                            ++ disk_polls ++ [compute_disk.DiskGet id])%list))
      /\ (forall disk,
             let id := compute_disk.disk_id disk in
             compute_disk.state module = compute_disk.absent ->
             compute_disk.List disk_service request w = (inr [disk], w1) ->
             compute_disk.Delete disk_service id w1 = (inr operation, w2) ->
             run = (ExitJson true (said " deleted") None None,
                    (w3, tr ++ [compute_disk.DiskList request; compute_disk.DiskDelete id]
                            ++ disk_polls)%list)))
  /\
  (forall (module : compute_instance.params)
          (instance_service : compute_instance.InstanceServiceStub W)
          w tr w1 w4,
      let request := compute_instance.find_request module in
      let run :=
        compute_instance.main module instance_service operation_service fuel (w, tr) in
      let said text := "instance " ++ Py.repr (compute_instance.name module) ++ text in
      (forall instances id created,
          compute_instance.state module = compute_instance.present ->
          compute_instance.List instance_service request w = (inr instances, w1) ->
          length instances <> 1%nat ->
          compute_instance.Create instance_service
            (compute_instance.create_request module) w1 = (inr operation, w2) ->
          op_metadata operation = Some id ->
          compute_instance.Get instance_service id w3 = (inr created, w4) ->
          run = (ExitJson true (said " created and running") (Some created) None,
                 (w4, tr ++ [compute_instance.InstanceList request;
                             compute_instance.InstanceCreate
                               (compute_instance.create_request module)]
                         ++ instance_polls
                         ++ [compute_instance.InstanceGet id "FULL"])%list))
      /\ (forall instance fetched,
             let id := compute_instance.instance_id instance in
             compute_instance.List instance_service request w = (inr [instance], w1) ->
             compute_instance.Get instance_service id w3 = (inr fetched, w4) ->
             let after call :=
               (w4, tr ++ [compute_instance.InstanceList request; call]
                       ++ instance_polls
                       ++ [compute_instance.InstanceGet id "FULL"])%list in
             (compute_instance.state module = compute_instance.present ->
              compute_instance.instance_status instance = "STOPPED" ->
              compute_instance.Start instance_service id w1 = (inr operation, w2) ->
              run = (ExitJson true (said " exists and running") (Some fetched) None,
                     after (compute_instance.InstanceStart id)))
             /\ (compute_instance.state module = compute_instance.restarted ->
                 compute_instance.instance_status instance = "STOPPED" ->
                 compute_instance.Start instance_service id w1 = (inr operation, w2) ->
                 run = (ExitJson true (said " restarted") (Some fetched) None,
                        after (compute_instance.InstanceStart id)))
             /\ (compute_instance.state module = compute_instance.restarted ->
                 compute_instance.instance_status instance <> "STOPPED" ->
                 compute_instance.Restart instance_service id w1 = (inr operation, w2) ->
                 run = (ExitJson true (said " restarted") (Some fetched) None,
                        after (compute_instance.InstanceRestart id)))
             /\ (compute_instance.state module = compute_instance.stopped ->
                 compute_instance.instance_status instance <> "STOPPED" ->
                 compute_instance.Stop instance_service id w1 = (inr operation, w2) ->
                 run = (ExitJson true (said " stopped") (Some fetched) None,
                        after (compute_instance.InstanceStop id))))
      /\ (forall instance,
             let id := compute_instance.instance_id instance in
             compute_instance.state module = compute_instance.absent ->
             compute_instance.List instance_service request w = (inr [instance], w1) ->
             compute_instance.Delete instance_service id w1 = (inr operation, w2) ->
             run = (ExitJson true (said " deleted") None None,
                    (w3, tr ++ [compute_instance.InstanceList request;
                                compute_instance.InstanceDelete id]
                            ++ instance_polls)%list))).
Proof.
  intros Hwait disk_polls instance_polls. split.
  - intros module disk_service w tr w1 w4 request run said. repeat split.
    + intros. now apply disk_create_branch with (w1 := w1) (w2 := w2) (w3 := w3)
                                              (disks := disks).
    + intros. now apply disk_update_branch with (w1 := w1) (w2 := w2) (w3 := w3).
    + intros. now apply disk_delete_branch with (w1 := w1) (w2 := w2).
  - intros module instance_service w tr w1 w4 request run said. split; [|split].
    + intros. now apply instance_create_branch with (w1 := w1) (w2 := w2) (w3 := w3)
                                                  (instances := instances).
    + intros instance fetched id Hl Hg after. repeat split; intros.
      * now apply instance_start_branch with (w1 := w1) (w2 := w2) (w3 := w3).
      * now apply instance_restarted_start_branch with (w1 := w1) (w2 := w2) (w3 := w3).
      * now apply instance_restart_branch with (w1 := w1) (w2 := w2) (w3 := w3).
      * now apply instance_stop_branch with (w1 := w1) (w2 := w2) (w3 := w3).
    + intros. now apply instance_delete_branch with (w1 := w1) (w2 := w2).
Qed.

(** The sample disk, too small, is updated; the sample instance, running,
    is restarted. *)
Lemma mutating_branches_fetch_except_delete_witness :
  compute_disk.main (L := Sample.lib) (Sample.disk_params compute_disk.present)
    (Sample.disks [Sample.data1_small]) (Sample.operations 1 None) 5 (0%nat, [])
  = (ExitJson true "disk 'data-1' updated" (Some Sample.data1)
              (Some (String.concat ""
                       (compute_disk.diff_lines (L := Sample.lib)
                          (Sample.disk_params compute_disk.present) Sample.data1_small))),
     (2%nat,
      [compute_disk.DiskList
         (compute_disk.find_request (L := Sample.lib)
            (Sample.disk_params compute_disk.present));
       compute_disk.DiskUpdate
         (compute_disk.update_request (Sample.disk_params compute_disk.present) "epd1");
       compute_disk.Sleep 1; compute_disk.OperationGet "op-update";
       compute_disk.Sleep 1; compute_disk.OperationGet "op-update";
       compute_disk.DiskGet "epd1"]))
  /\ compute_instance.main (L := Sample.lib)
       (Sample.instance_params compute_instance.restarted)
       (Sample.instances [Sample.vm "RUNNING"] "RUNNING") (Sample.operations 1 None) 5
       (0%nat, [])
     = (ExitJson true "instance 'vm-1' restarted" (Some (Sample.vm "RUNNING")) None,
        (2%nat,
         [compute_instance.InstanceList
            (compute_instance.find_request (L := Sample.lib)
               (Sample.instance_params compute_instance.restarted));
          compute_instance.InstanceRestart "fhm1";
          compute_instance.Sleep 1; compute_instance.OperationGet "op-restart";
          compute_instance.Sleep 1; compute_instance.OperationGet "op-restart";
          compute_instance.InstanceGet "fhm1" "FULL"])).
Proof.
  split.
  - pose proof (mutating_branches_fetch_except_delete (L := Sample.lib)
                  (Sample.operations 1 None) 1 5 (Sample.started "op-update" "epd1")
                  0%nat 2%nat (sample_operation_succeeds _ _)) as H.
    cbv zeta in H. destruct H as [H _].
    destruct (H (Sample.disk_params compute_disk.present)
                (Sample.disks [Sample.data1_small]) 0%nat [] 0%nat 2%nat)
      as (_ & Hupdate & _).
    exact (Hupdate Sample.data1_small Sample.data1 eq_refl eq_refl eq_refl eq_refl eq_refl).
  - pose proof (mutating_branches_fetch_except_delete (L := Sample.lib)
                  (Sample.operations 1 None) 1 5 (Sample.started "op-restart" "fhm1")
                  0%nat 2%nat (sample_operation_succeeds _ _)) as H.
    cbv zeta in H. destruct H as [_ H].
    destruct (H (Sample.instance_params compute_instance.restarted)
                (Sample.instances [Sample.vm "RUNNING"] "RUNNING") 0%nat [] 0%nat 2%nat)
      as (_ & Hfetch & _).
    destruct (Hfetch (Sample.vm "RUNNING") (Sample.vm "RUNNING") eq_refl eq_refl)
      as (_ & _ & Hrestart & _).
    apply Hrestart; [reflexivity|discriminate|reflexivity].
Defined.

(** C6, as the claim states it, fails on the delete branch: the sample disk
    is deleted, the operation completes, and the run exits with no Get in
    its trace and no resource in its report. *)
Lemma delete_branch_does_not_fetch :
  let run :=
    compute_disk.main (L := Sample.lib) (Sample.disk_params compute_disk.absent)
      (Sample.disks [Sample.data1]) (Sample.operations 1 None) 5 (0%nat, []) in
  result_of run = ExitJson true "disk 'data-1' deleted" None None
  /\ trace_of run
     = [compute_disk.DiskList
          (compute_disk.find_request (L := Sample.lib)
             (Sample.disk_params compute_disk.absent));
        compute_disk.DiskDelete "epd1";
        compute_disk.Sleep 1; compute_disk.OperationGet "op-delete";
        compute_disk.Sleep 1; compute_disk.OperationGet "op-delete"]
  /\ forall id, ~ In (compute_disk.DiskGet id) (trace_of run).
Proof.
  cbv zeta. split; [reflexivity|]. split; [reflexivity|].
  intros id. simpl. intuition discriminate.
Qed.

(** ** Sorting and comparing label dicts *)

Section TupleOrder.

Lemma compare_refl (a : string) : String.compare a a = Eq.
Proof. now apply String_as_OT.cmp_eq. Qed.

Lemma compare_gt_lt (a b : string) :
  String.compare a b = Gt -> String.compare b a = Lt.
Proof. rewrite String.compare_antisym. now destruct (String.compare b a). Qed.

Lemma compare_lt_trans (a b c : string) :
  String.compare a b = Lt -> String.compare b c = Lt -> String.compare a c = Lt.
Proof.
  intros Hab Hbc. apply String_as_OT.cmp_lt.
  apply String_as_OT.lt_trans with b; now apply String_as_OT.cmp_lt.
Qed.

(** The order of [Py.tuple_ltb] as a three-way comparison. *)
Lemma tuple_ltb_lt (a b : string * string) :
  Py.tuple_ltb a b = true <->
  String.compare (fst a) (fst b) = Lt
  \/ (fst a = fst b /\ String.compare (snd a) (snd b) = Lt).
Proof.
  unfold Py.tuple_ltb, String.ltb.
  destruct (String.compare (fst a) (fst b)) eqn:Hk.
  - apply String.compare_eq_iff in Hk. rewrite Hk.
    destruct (String.compare (snd a) (snd b)); split; intros H; auto;
      try discriminate; destruct H as [H|[_ H]]; try discriminate;
      now rewrite compare_refl in H.
  - split; auto.
  - split; [discriminate|]. intros [H|[H _]]; [discriminate|].
    now rewrite H, compare_refl in Hk.
Qed.

Lemma tuple_ltb_irrefl a : Py.tuple_ltb a a = false.
Proof.
  unfold Py.tuple_ltb, String.ltb. now rewrite !compare_refl.
Qed.

Lemma tuple_ltb_trans a b c :
  Py.tuple_ltb a b = true -> Py.tuple_ltb b c = true -> Py.tuple_ltb a c = true.
Proof.
  rewrite !tuple_ltb_lt. intros [Hab|[Eab Hab]] [Hbc|[Ebc Hbc]].
  - left. eauto using compare_lt_trans.
  - left. now rewrite <- Ebc.
  - left. now rewrite Eab.
  - right. split; [congruence|eauto using compare_lt_trans].
Qed.

Lemma tuple_ltb_asym a b : Py.tuple_ltb a b = true -> Py.tuple_ltb b a = false.
Proof.
  intros Hab. destruct (Py.tuple_ltb b a) eqn:Hba; [|reflexivity].
  pose proof (tuple_ltb_trans _ _ _ Hab Hba) as H.
  now rewrite tuple_ltb_irrefl in H.
Qed.

Lemma tuple_ltb_total a b :
  Py.tuple_ltb a b = false -> Py.tuple_ltb b a = false -> a = b.
Proof.
  destruct a as [k v], b as [k' v']. unfold Py.tuple_ltb, String.ltb. simpl.
  destruct (String.compare k k') eqn:Hk.
  - apply String.compare_eq_iff in Hk. subst k'. rewrite compare_refl.
    destruct (String.compare v v') eqn:Hv; try discriminate.
    + apply String.compare_eq_iff in Hv. now subst.
    + apply compare_gt_lt in Hv. now rewrite Hv.
  - discriminate.
  - apply compare_gt_lt in Hk. now rewrite Hk.
Qed.

Lemma tuple_le_trans a b c : Py.tuple_le a b -> Py.tuple_le b c -> Py.tuple_le a c.
Proof.
  unfold Py.tuple_le. intros Hab Hbc.
  destruct (Py.tuple_ltb c a) eqn:Hca; [|reflexivity].
  destruct (Py.tuple_ltb a b) eqn:Hlt.
  - pose proof (tuple_ltb_trans _ _ _ Hca Hlt) as H. congruence.
  - assert (a = b) by now apply tuple_ltb_total. subst. congruence.
Qed.

Lemma tuple_le_antisym a b : Py.tuple_le a b -> Py.tuple_le b a -> a = b.
Proof. unfold Py.tuple_le. intros. now apply tuple_ltb_total. Qed.

Lemma insert_perm x l : Permutation (Py.insert x l) (x :: l).
Proof.
  induction l as [|y r IH]; simpl; [reflexivity|].
  destruct (Py.tuple_ltb y x); [|reflexivity].
  rewrite IH. apply perm_swap.
Qed.

Lemma sorted_perm l : Permutation (Py.sorted l) l.
Proof.
  induction l as [|x l IH]; simpl; [reflexivity|].
  now rewrite insert_perm, IH.
Qed.

Lemma insert_sorted x l :
  StronglySorted Py.tuple_le l -> StronglySorted Py.tuple_le (Py.insert x l).
Proof.
  induction l as [|y r IH]; simpl; intros Hs.
  - repeat constructor.
  - apply StronglySorted_inv in Hs. destruct Hs as [Hr Hy].
    destruct (Py.tuple_ltb y x) eqn:Hyx.
    + constructor; [auto|].
      rewrite Forall_forall in *. intros z Hz.
      apply (Permutation_in _ (insert_perm x r)) in Hz. destruct Hz as [<-|Hz]; auto.
      now apply tuple_ltb_asym.
    + constructor; [now constructor|]. constructor; [exact Hyx|].
      rewrite Forall_forall in *. intros z Hz.
      apply tuple_le_trans with y; auto.
Qed.

Lemma sorted_sorted l : StronglySorted Py.tuple_le (Py.sorted l).
Proof.
  induction l as [|x l IH]; simpl; [constructor|now apply insert_sorted].
Qed.

(** Two sorted lists with the same elements are the same list. *)
Lemma sorted_unique l1 : forall l2,
  StronglySorted Py.tuple_le l1 -> StronglySorted Py.tuple_le l2 ->
  Permutation l1 l2 -> l1 = l2.
Proof.
  induction l1 as [|a l1 IH]; intros l2 H1 H2 Hp.
  - now apply Permutation_nil in Hp.
  - destruct l2 as [|b l2]; [now apply Permutation_sym, Permutation_nil in Hp|].
    apply StronglySorted_inv in H1, H2. destruct H1 as [H1 Ha], H2 as [H2 Hb].
    rewrite Forall_forall in Ha, Hb.
    assert (a = b).
    { assert (Hin : In a (b :: l2)) by (apply (Permutation_in _ Hp); now left).
      assert (Hin' : In b (a :: l1))
        by (apply (Permutation_in _ (Permutation_sym Hp)); now left).
      destruct Hin as [->|Hin]; [reflexivity|]. destruct Hin' as [->|Hin']; [reflexivity|].
      apply tuple_le_antisym; auto. }
    subst b. f_equal. apply IH; auto. now apply Permutation_cons_inv in Hp.
Qed.

Lemma sorted_permutation l l' : Permutation l l' -> Py.sorted l = Py.sorted l'.
Proof.
  intros Hp. apply sorted_unique; auto using sorted_sorted.
  now rewrite !sorted_perm.
Qed.

Lemma sorted_idempotent l : Py.sorted l = Py.sorted (Py.sorted l).
Proof. apply sorted_permutation. symmetry. apply sorted_perm. Qed.
End TupleOrder.

Section Dicts.

Lemma setitem_fresh k v d :
  ~ In k (map fst d) -> Py.setitem k v d = (d ++ [(k, v)])%list.
Proof.
  induction d as [|[k' v'] r IH]; simpl; intros Hk; [reflexivity|].
  destruct (String.eqb_spec k k') as [->|Hne]; [tauto|].
  rewrite IH; tauto.
Qed.

Lemma dict_from acc : forall l,
  NoDup (map fst (acc ++ l)) ->
  fold_left (fun d kv => Py.setitem (fst kv) (snd kv) d) l acc = (acc ++ l)%list.
Proof.
  intros l. revert acc. induction l as [|[k v] l IH]; intros acc Hn; simpl.
  - now rewrite app_nil_r.
  - rewrite setitem_fresh.
    + rewrite IH; rewrite <- app_assoc; [reflexivity|exact Hn].
    + rewrite map_app in Hn. simpl in Hn. apply NoDup_remove_2 in Hn.
      intros Hin. apply Hn. apply in_or_app. now left.
Qed.

(** A list of pairs with distinct keys is the dict it builds. *)
Lemma dict_distinct l : NoDup (map fst l) -> Py.dict l = l.
Proof. intros Hn. unfold Py.dict. now rewrite dict_from. Qed.

Lemma get_in k v d : Py.get k d = Some v -> In (k, v) d.
Proof.
  induction d as [|[k' v'] r IH]; simpl; [discriminate|].
  destruct (String.eqb_spec k k') as [->|Hne].
  - intros [= ->]. now left.
  - auto.
Qed.

Lemma in_get k v d : NoDup (map fst d) -> In (k, v) d -> Py.get k d = Some v.
Proof.
  induction d as [|[k' v'] r IH]; simpl; intros Hn Hin; [tauto|].
  apply NoDup_cons_iff in Hn. destruct Hn as [Hk Hn].
  destruct Hin as [[= -> ->]|Hin]; [now rewrite String.eqb_refl|].
  destruct (String.eqb_spec k k') as [->|Hne]; [|auto].
  exfalso. apply Hk. now apply (in_map fst) in Hin.
Qed.

Lemma dict_eqb_refl d : NoDup (map fst d) -> Py.dict_eqb d d = true.
Proof.
  intros Hn. unfold Py.dict_eqb. rewrite Nat.eqb_refl. simpl.
  apply forallb_forall. intros [k v] Hin. simpl.
  now rewrite (in_get k v d Hn Hin), String.eqb_refl.
Qed.

Lemma dict_eqb_perm a b :
  NoDup (map fst a) -> Py.dict_eqb a b = true -> Permutation a b.
Proof.
  intros Hn H. unfold Py.dict_eqb in H. apply andb_prop in H. destruct H as [Hlen Hall].
  apply Nat.eqb_eq in Hlen. rewrite forallb_forall in Hall.
  apply NoDup_Permutation_bis; [now apply NoDup_map_inv in Hn|lia|].
  intros [k v] Hin. specialize (Hall _ Hin). simpl in Hall.
  destruct (Py.get k b) as [v'|] eqn:Hg; [|discriminate].
  apply String.eqb_eq in Hall. subst v'. now apply get_in.
Qed.

(** The dict the modules compare and serialise: [dict(sorted(d.items()))]. *)
Lemma canonical_distinct d :
  NoDup (map fst d) -> Py.dict (Py.sorted (Py.items d)) = Py.sorted d.
Proof.
  intros Hn. apply dict_distinct.
  eapply Permutation_NoDup; [|exact Hn].
  apply Permutation_map. symmetry. apply sorted_perm.
Qed.

(** On dicts, [==] of the key-sorted copies is equality of the lists. *)
Lemma canonical_eqb a b :
  NoDup (map fst a) -> NoDup (map fst b) ->
  Py.dict_eqb (Py.dict (Py.sorted (Py.items a))) (Py.dict (Py.sorted (Py.items b))) = true
  <-> Py.dict (Py.sorted (Py.items a)) = Py.dict (Py.sorted (Py.items b)).
Proof.
  intros Ha Hb. rewrite !canonical_distinct by assumption.
  assert (Hsa : NoDup (map fst (Py.sorted a))).
  { eapply Permutation_NoDup; [|exact Ha]. apply Permutation_map. symmetry.
    apply sorted_perm. }
  split.
  - intros H. apply sorted_unique; auto using sorted_sorted.
    now apply dict_eqb_perm.
  - intros <-. now apply dict_eqb_refl.
Qed.
End Dicts.

(** ** Diff stability *)

Section SampleLib.

Lemma lines_eqb_eq a : forall b, Sample.lines_eqb a b = true <-> a = b.
Proof.
  induction a as [|x a IH]; intros [|y b]; simpl; split; try easy.
  - intros H. apply andb_prop in H. destruct H as [Hx Hr].
    apply String.eqb_eq in Hx. apply IH in Hr. now subst.
  - intros [= -> ->]. rewrite String.eqb_refl. now apply IH.
Qed.

Lemma sample_pairs_inj (l : Py.pydict) : forall l',
  flat_map (fun kv => [fst kv; snd kv]) l = flat_map (fun kv => [fst kv; snd kv]) l' ->
  l = l'.
Proof.
  induction l as [|[k v] l IH]; intros [|[k' v'] l']; simpl; try easy.
  intros [= -> -> H]. f_equal. now apply IH.
Qed.

(** The stand-in library keeps the contract. *)
Lemma sample_lib_contract : Py.lib_contract Sample.lib.
Proof.
  constructor.
  - simpl. intros s d l s' d' l' _ _ _ _ [= -> -> H]. repeat split.
    now apply sample_pairs_inj.
  - simpl. intros a. rewrite (proj2 (lines_eqb_eq a a) eq_refl).
    induction a as [|x a IH]; [reflexivity|exact IH].
  - simpl. intros a b Hne.
    destruct (Sample.lines_eqb a b) eqn:He; [now apply lines_eqb_eq in He|].
    destruct a as [|x a]; [|destruct x; reflexivity].
    destruct b as [|y b]; [congruence|destruct y; reflexivity].
Qed.
End SampleLib.

Section DiffStability.
Context {L : Py.Lib}.
Hypothesis contract : Py.lib_contract L.

Lemma no_change_line_iff (a b : list string) :
  existsb Py.change_line (Py.ndiff a b) = false <-> a = b.
Proof.
  split.
  - intros H. destruct (list_eq_dec string_dec a b) as [|Hne]; [assumption|].
    now rewrite (Py.ndiff_differ L contract a b Hne) in H.
  - intros <-. apply (Py.ndiff_equal L contract).
Qed.

Lemma needs_update_false_iff module disk :
  compute_disk.needs_update module disk = false <->
  compute_disk.disk_size disk = Py.str_opt_int (compute_disk.size module)
  /\ compute_disk.disk_description disk = compute_disk.description module
  /\ Py.dict_eqb (Py.dict (Py.sorted (Py.items (compute_disk.disk_labels disk))))
                 (Py.dict (Py.sorted (Py.items (compute_disk.labels module)))) = true.
Proof.
  unfold compute_disk.needs_update.
  rewrite !orb_false_iff, !negb_false_iff, !String.eqb_eq. tauto.
Qed.

Lemma diff_lines_none_iff module disk :
  NoDup (map fst (compute_disk.labels module)) ->
  NoDup (map fst (compute_disk.disk_labels disk)) ->
  existsb Py.change_line (compute_disk.diff_lines module disk) = false <->
  compute_disk.needs_update module disk = false.
Proof.
  intros Hm Hd. unfold compute_disk.diff_lines.
  rewrite no_change_line_iff, needs_update_false_iff, (canonical_eqb _ _ Hd Hm).
  split.
  - assert (Hs : forall d, NoDup (map fst d) -> NoDup (map fst (Py.sorted d))).
    { intros d Hn. eapply Permutation_NoDup; [|exact Hn].
      apply Permutation_map. symmetry. apply sorted_perm. }
    intros H. apply (Py.dumps_lines_inj L contract) in H; [exact H| | | |];
      rewrite canonical_distinct by assumption; auto using sorted_idempotent.
  - intros (-> & -> & ->). reflexivity.
Qed.
End DiffStability.

Section LabelOrder.
Context {L : Py.Lib}.

Lemma canonical_permutation (a b : Py.pydict) :
  Permutation a b ->
  Py.dict (Py.sorted (Py.items a)) = Py.dict (Py.sorted (Py.items b)).
Proof. intros Hp. unfold Py.items. now rewrite (sorted_permutation a b Hp). Qed.

Lemma label_order_is_immaterial module disk module' disk' :
  compute_disk.size module' = compute_disk.size module ->
  compute_disk.description module' = compute_disk.description module ->
  Permutation (compute_disk.labels module) (compute_disk.labels module') ->
  compute_disk.disk_size disk' = compute_disk.disk_size disk ->
  compute_disk.disk_description disk' = compute_disk.disk_description disk ->
  Permutation (compute_disk.disk_labels disk) (compute_disk.disk_labels disk') ->
  compute_disk.needs_update module' disk' = compute_disk.needs_update module disk
  /\ compute_disk.diff_lines module' disk' = compute_disk.diff_lines module disk.
Proof.
  intros Hs Hd Hl Hs' Hd' Hl'.
  unfold compute_disk.needs_update, compute_disk.diff_lines.
  now rewrite Hs, Hd, Hs', Hd', (canonical_permutation _ _ Hl),
    (canonical_permutation _ _ Hl').
Qed.
End LabelOrder.

(** C8. Let the label dicts have distinct keys, as dicts do, and let
    [json.dumps] and [difflib.ndiff] keep their contract. The diff of the
    mutable fields (size and description as strings, labels key-sorted) has
    no change line exactly when the update-needed comparison is false. Both
    are functions of the two field sets, depend on the labels only through
    their key-sorted copy, and so are unchanged when the labels of either
    side are given in another insertion order; labels that differ from the
    desired ones only in order never make an update needed. *)
Theorem diff_stability {L : Py.Lib}
        (module : compute_disk.params) (disk : compute_disk.Disk) :
  Py.lib_contract L ->
  NoDup (map fst (compute_disk.labels module)) ->
  NoDup (map fst (compute_disk.disk_labels disk)) ->
  (existsb Py.change_line (compute_disk.diff_lines module disk) = false
   <-> compute_disk.needs_update module disk = false)
  /\ (forall module' disk',
         compute_disk.size module' = compute_disk.size module ->
         compute_disk.description module' = compute_disk.description module ->
         Permutation (compute_disk.labels module) (compute_disk.labels module') ->
         compute_disk.disk_size disk' = compute_disk.disk_size disk ->
         compute_disk.disk_description disk' = compute_disk.disk_description disk ->
         Permutation (compute_disk.disk_labels disk) (compute_disk.disk_labels disk') ->
         compute_disk.needs_update module' disk' = compute_disk.needs_update module disk
         /\ compute_disk.diff_lines module' disk' = compute_disk.diff_lines module disk)
  /\ (compute_disk.disk_size disk = Py.str_opt_int (compute_disk.size module) ->
      compute_disk.disk_description disk = compute_disk.description module ->
      Permutation (compute_disk.disk_labels disk) (compute_disk.labels module) ->
      compute_disk.needs_update module disk = false
      /\ existsb Py.change_line (compute_disk.diff_lines module disk) = false).
Proof.
  intros contract Hm Hd. split; [now apply diff_lines_none_iff|].
  split; [intros; now apply label_order_is_immaterial|].
  intros Hs Hdesc Hp.
  assert (Hn : compute_disk.needs_update module disk = false).
  { apply needs_update_false_iff. repeat split; auto.
    rewrite (canonical_permutation _ _ Hp). apply dict_eqb_refl.
    rewrite canonical_distinct by assumption.
    eapply Permutation_NoDup; [|exact Hm]. apply Permutation_map. symmetry.
    apply sorted_perm. }
  split; [exact Hn|]. now apply diff_lines_none_iff.
Qed.

Lemma sample_labels_distinct :
  NoDup (map fst (compute_disk.labels (Sample.disk_params compute_disk.present)))
  /\ NoDup (map fst (compute_disk.disk_labels Sample.data1)).
Proof.
  split; simpl; repeat constructor; simpl; intuition discriminate.
Qed.

(** The sample disk carries the desired labels in another order. *)
Lemma diff_stability_witness :
  compute_disk.needs_update (Sample.disk_params compute_disk.present) Sample.data1 = false
  /\ existsb Py.change_line
       (compute_disk.diff_lines (L := Sample.lib)
          (Sample.disk_params compute_disk.present) Sample.data1) = false.
Proof.
  apply (diff_stability (L := Sample.lib) (Sample.disk_params compute_disk.present)
           Sample.data1 sample_lib_contract
           (proj1 sample_labels_distinct) (proj2 sample_labels_distinct));
    [reflexivity|reflexivity|apply perm_swap].
Defined.

(** ** Reading calls and the change flag *)

Section ReportsFacts.
Context {W E R : Type}.
Variable reads : E -> bool.
Variable c : bool.

Lemma reports_outcome {A} (o : outcome R A) :
  (forall c' msg r d, o = ExitJson c' msg r d -> c' = c) ->
  reports reads c (fun s : @session W E => (o, s)).
Proof.
  intros Ho s. exists []. unfold trace_of, result_of. simpl.
  rewrite app_nil_r. auto.
Qed.

Lemma reports_ret {A} (a : A) : reports reads c (@ret W E R A a).
Proof. apply reports_outcome. discriminate. Qed.

Lemma reports_raise {A} e : reports reads c (@raise W E R A e).
Proof. apply reports_outcome. discriminate. Qed.

Lemma reports_fail_json {A} msg : reports reads c (@fail_json W E R A msg).
Proof. apply reports_outcome. discriminate. Qed.

Lemma reports_pending {A} : reports reads c (@pending W E R A).
Proof. apply reports_outcome. discriminate. Qed.

Lemma reports_exit_json {A} msg r d : reports reads c (@exit_json W E R A c msg r d).
Proof. apply reports_outcome. now intros c' msg' r' d' [= <- _ _ _]. Qed.

Lemma reports_rpc {A} ev (stub : W -> (Py.exn + A) * W) :
  reads ev = true -> reports reads c (@rpc W E R A ev stub).
Proof.
  intros Hev s. exists [ev]. unfold trace_of, result_of, rpc.
  destruct (stub (fst s)) as [[e|a] w']; simpl; repeat split; auto; discriminate.
Qed.

Lemma reports_mark ev : reads ev = true -> reports reads c (@mark W E R ev).
Proof.
  intros Hev s. exists [ev]. unfold trace_of, result_of, mark. simpl.
  repeat split; auto; discriminate.
Qed.

Lemma reports_bind {A B} (m : @M W E R A) (k : A -> @M W E R B) :
  reports reads c m -> (forall a, reports reads c (k a)) -> reports reads c (bind m k).
Proof.
  intros Hm Hk s. destruct (Hm s) as (r1 & E1 & F1 & C1).
  unfold trace_of, result_of, bind in *.
  destruct (m s) as [[a|e|c' msg r d|msg|] s1]; simpl in *;
    try (exists r1; repeat split; auto;
         first [discriminate
               |intros c0 m0 r0 d0 [= <- _ _ _]; eapply C1; reflexivity]).
  destruct (Hk a s1) as (r2 & E2 & F2 & C2). unfold trace_of, result_of in *.
  exists (r1 ++ r2)%list. rewrite E2, E1, app_assoc. repeat split; auto.
  apply Forall_app; auto.
Qed.

Lemma reports_try_except {A} (body : @M W E R A) handler :
  reports reads c body -> (forall e, reports reads c (handler e)) ->
  reports reads c (try_except body handler).
Proof.
  intros Hm Hk s. destruct (Hm s) as (r1 & E1 & F1 & C1).
  unfold trace_of, result_of, try_except in *.
  destruct (body s) as [[a|e|c' msg r d|msg|] s1]; simpl in *;
    try (exists r1; repeat split; auto;
         first [discriminate
               |intros c0 m0 r0 d0 [= <- _ _ _]; eapply C1; reflexivity]).
  destruct (Hk e s1) as (r2 & E2 & F2 & C2). unfold trace_of, result_of in *.
  exists (r1 ++ r2)%list. rewrite E2, E1, app_assoc. repeat split; auto.
  apply Forall_app; auto.
Qed.

(** What follows a first step that does not end the run through
    [exit_json]. *)
Lemma bind_reports_after {A B} (m : @M W E R A) (k : A -> @M W E R B) s o s1 :
  m s = (o, s1) ->
  (forall c' msg r d, o <> ExitJson c' msg r d) ->
  (forall a, reports reads c (k a)) ->
  exists rest,
    trace_of (bind m k s) = (snd s1 ++ rest)%list
    /\ Forall (fun ev => reads ev = true) rest
    /\ forall c' msg r d, result_of (bind m k s) = ExitJson c' msg r d -> c' = c.
Proof.
  intros Hm Ho Hk. unfold bind. rewrite Hm.
  destruct o as [a|e|c' msg r d|msg|];
    try (exists []; unfold trace_of, result_of; simpl; rewrite app_nil_r;
         repeat split; auto; discriminate).
  - apply Hk.
  - now destruct (Ho c' msg r d).
Qed.

(** An RPC wrapper makes its call and either returns or fails. *)
Lemma try_rpc_first_kind {A} ev (stub : W -> (Py.exn + A) * W) text w (tr : list E) :
  exists o w',
    try_except (R := R) (rpc ev stub) (fun e => fail_json (text e)) (w, tr)
    = (o, (w', tr ++ [ev])%list)
    /\ forall c' msg r d, o <> ExitJson c' msg r d.
Proof.
  unfold try_except, rpc, fail_json. simpl.
  destruct (stub w) as [[e|a] w']; do 2 eexists; split; try reflexivity; discriminate.
Qed.

Lemma bind_exit_json_left {A B} changed msg r d (k : A -> @M W E R B) s :
  bind (exit_json changed msg r d) k s = (ExitJson changed msg r d, s).
Proof. reflexivity. Qed.
End ReportsFacts.

Section WaitReports.
Context {L : Py.Lib} {W : Type}.
Variable operation_service : OperationServiceStub W.
Variable c : bool.

Lemma disk_wait_reports module fuel id :
  reports compute_disk.reads c (compute_disk._wait module operation_service fuel id).
Proof.
  apply reports_try_except; [|intros; apply reports_fail_json].
  induction fuel as [|fuel IH]; simpl; [apply reports_pending|].
  apply reports_bind; [now apply reports_mark|]. intros _.
  apply reports_bind; [now apply reports_rpc|]. intros operation.
  destruct (op_done operation) as [[|]|]; auto.
  destruct (op_error operation); [apply reports_raise|apply reports_ret].
Qed.

Lemma instance_wait_reports module fuel id :
  reports compute_instance.reads c
          (compute_instance._wait module operation_service fuel id).
Proof.
  apply reports_try_except; [|intros; apply reports_fail_json].
  induction fuel as [|fuel IH]; simpl; [apply reports_pending|].
  apply reports_bind; [now apply reports_mark|]. intros _.
  apply reports_bind; [now apply reports_rpc|]. intros operation.
  destruct (op_done operation) as [[|]|]; auto.
  destruct (op_error operation); [apply reports_raise|apply reports_ret].
Qed.
End WaitReports.

(** Reading code, step by step. *)
Ltac reports_auto :=
  repeat first
    [ apply disk_wait_reports | apply instance_wait_reports
    | apply reports_ret | apply reports_raise | apply reports_exit_json
    | apply reports_fail_json | apply reports_pending
    | apply reports_rpc; reflexivity | apply reports_mark; reflexivity
    | apply reports_bind | apply reports_try_except
    | match goal with
      | |- forall _, _ => intro
      | |- reports _ _ (match ?x with _ => _ end) => destruct x
      end ].

Section DiskShape.
Context {L : Py.Lib} {W : Type}.
Variable module : compute_disk.params.
Variable disk_service : compute_disk.DiskServiceStub W.
Variable operation_service : OperationServiceStub W.
Variable fuel : nat.

Let request := compute_disk.find_request module.
Let reading (ev : compute_disk.call) : Prop := compute_disk.reads ev = true.

(** After the List call a run either only reads and reports no change, or
    makes one permitted mutating call, then only reads, and reports a
    change. *)
Lemma disk_run_shape w tr disks w1 :
  compute_disk.List disk_service request w = (inr disks, w1) ->
  let run := compute_disk.main module disk_service operation_service fuel (w, tr) in
  exists rest,
    trace_of run = (tr ++ compute_disk.DiskList request :: rest)%list
    /\ ((Forall reading rest
         /\ forall c msg r d, result_of run = ExitJson c msg r d -> c = false)
        \/ (exists mutation rest',
              rest = mutation :: rest'
              /\ compute_disk.reads mutation = false
              /\ disk_permitted module (only disks) mutation
              /\ Forall reading rest'
              /\ forall c msg r d, result_of run = ExitJson c msg r d -> c = true)).
Proof.
  intros Hl run. subst run. unfold compute_disk.main.
  rewrite (bind_returns _ _ _ _ _ (disk_find_answer module disk_service w tr _ w1 Hl)).
  change (match disks with [disk] => Some disk | _ => None end) with (only disks).
  destruct (compute_disk.state module) eqn:Hs;
    destruct (only disks) as [disk|] eqn:Hloc;
    [destruct (compute_disk.needs_update module disk) eqn:Hn| | |].
  - (* present, located, differs: update *)
    unfold compute_disk._update.
    match goal with
    | |- context [try_except (rpc ?ev ?stub) (fun e => fail_json (@?text e))] =>
        destruct (try_rpc_first_kind (R := compute_disk.Disk) ev stub text w1
                    (tr ++ [compute_disk.DiskList request])%list)
          as (o & w2 & Hfirst & Hkind)
    end.
    match goal with
    | |- context [bind ?m ?k ?s] =>
        destruct (bind_reports_after compute_disk.reads true m k s _ _ Hfirst Hkind)
          as (rest' & Ht & Hr & Hc)
    end.
    + unfold compute_disk._get. reports_auto.
    + eexists (_ :: rest'). split; [rewrite Ht; simpl; rewrite <- !app_assoc; reflexivity|].
      right. eexists _, rest'. repeat split; eauto.
  - (* present, located, equal: nothing *)
    exists []. split; [reflexivity|]. left. split; [constructor|].
    unfold result_of, exit_json. simpl. now intros c msg r d [= <- _ _ _].
  - (* present, nothing located: create *)
    unfold compute_disk._create.
    match goal with
    | |- context [try_except (rpc ?ev ?stub) (fun e => fail_json (@?text e))] =>
        destruct (try_rpc_first_kind (R := compute_disk.Disk) ev stub text w1
                    (tr ++ [compute_disk.DiskList request])%list)
          as (o & w2 & Hfirst & Hkind)
    end.
    match goal with
    | |- context [bind ?m ?k ?s] =>
        destruct (bind_reports_after compute_disk.reads true m k s _ _ Hfirst Hkind)
          as (rest' & Ht & Hr & Hc)
    end.
    + unfold compute_disk._get. reports_auto.
    + eexists (_ :: rest'). split; [rewrite Ht; simpl; rewrite <- !app_assoc; reflexivity|].
      right. eexists _, rest'. repeat split; eauto.
  - (* absent, located: delete *)
    unfold compute_disk._delete.
    match goal with
    | |- context [try_except (rpc ?ev ?stub) (fun e => fail_json (@?text e))] =>
        destruct (try_rpc_first_kind (R := compute_disk.Disk) ev stub text w1
                    (tr ++ [compute_disk.DiskList request])%list)
          as (o & w2 & Hfirst & Hkind)
    end.
    match goal with
    | |- context [bind ?m ?k ?s] =>
        destruct (bind_reports_after compute_disk.reads true m k s _ _ Hfirst Hkind)
          as (rest' & Ht & Hr & Hc)
    end.
    + reports_auto.
    + eexists (_ :: rest'). split; [rewrite Ht; simpl; rewrite <- !app_assoc; reflexivity|].
      right. eexists _, rest'. repeat split; eauto.
  - (* absent, nothing located: nothing *)
    exists []. split; [reflexivity|]. left. split; [constructor|].
    unfold result_of, exit_json. simpl. now intros c msg r d [= <- _ _ _].
Qed.

(** When the List call raises, the run fails there. *)
Lemma disk_run_unlocated w tr e w1 :
  compute_disk.List disk_service request w = (inl e, w1) ->
  compute_disk.main module disk_service operation_service fuel (w, tr)
  = (FailJson ("unknown error find disk " ++ Py.repr (compute_disk.name module)
               ++ ". Error was: " ++ Py.str_exn e),
     (w1, tr ++ [compute_disk.DiskList request])%list).
Proof.
  intros Hl. unfold request in *.
  unfold compute_disk.main, compute_disk._find, try_except, bind, rpc.
  cbn [fst snd]. now rewrite Hl.
Qed.
End DiskShape.

Ltac first_rpc R s1 :=
  match goal with
  | |- context [try_except (rpc ?ev ?stub) (fun e => fail_json (@?text e))] =>
      let o := fresh "o" in
      let w2 := fresh "w2" in
      let Hfirst := fresh "Hfirst" in
      let Hkind := fresh "Hkind" in
      destruct (try_rpc_first_kind (R := R) ev stub text (fst s1) (snd s1))
        as (o & w2 & Hfirst & Hkind); simpl fst in Hfirst; simpl snd in Hfirst
  end.

Section InstanceShape.
Context {L : Py.Lib} {W : Type}.
Variable module : compute_instance.params.
Variable instance_service : compute_instance.InstanceServiceStub W.
Variable operation_service : OperationServiceStub W.
Variable fuel : nat.

Let request := compute_instance.find_request module.
Let reading (ev : compute_instance.call) : Prop := compute_instance.reads ev = true.

Lemma instance_get_reports c id :
  reports compute_instance.reads c (compute_instance._get instance_service id).
Proof.
  apply reports_try_except; [now apply reports_rpc|intros; apply reports_fail_json].
Qed.

Lemma instance_run_shape w tr instances w1 :
  compute_instance.List instance_service request w = (inr instances, w1) ->
  let run :=
    compute_instance.main module instance_service operation_service fuel (w, tr) in
  exists rest,
    trace_of run = (tr ++ compute_instance.InstanceList request :: rest)%list
    /\ ((Forall reading rest
         /\ forall c msg r d, result_of run = ExitJson c msg r d -> c = false)
        \/ (exists mutation rest',
              rest = mutation :: rest'
              /\ compute_instance.reads mutation = false
              /\ instance_permitted module (only instances) mutation
              /\ Forall reading rest'
              /\ forall c msg r d, result_of run = ExitJson c msg r d -> c = true)).
Proof.
  intros Hl run. subst run. unfold compute_instance.main.
  rewrite (bind_returns _ _ _ _ _ (instance_find_answer module instance_service w tr _ w1 Hl)).
  change (match instances with [i] => Some i | _ => None end) with (only instances).
  set (s1 := (w1, (tr ++ [compute_instance.InstanceList
                            (compute_instance.find_request module)])%list)).
  assert (Hquiet : forall m : @M W compute_instance.call compute_instance.Instance unit,
             reports compute_instance.reads false m ->
             exists rest,
               trace_of (m s1)
               = (tr ++ compute_instance.InstanceList request :: rest)%list
               /\ ((Forall reading rest
                    /\ forall c msg r d, result_of (m s1) = ExitJson c msg r d -> c = false)
                   \/ (exists mutation rest',
                         rest = mutation :: rest'
                         /\ compute_instance.reads mutation = false
                         /\ instance_permitted module (only instances) mutation
                         /\ Forall reading rest'
                         /\ forall c msg r d,
                             result_of (m s1) = ExitJson c msg r d -> c = true))).
  { intros m Hm. destruct (Hm s1) as (rest & Ht & Hr & Hc). exists rest.
    split; [rewrite Ht; simpl; now rewrite <- app_assoc|]. left. now split. }
  assert (Hloud : forall (m : @M W compute_instance.call compute_instance.Instance Operation)
                         (k : Operation
                              -> @M W compute_instance.call compute_instance.Instance unit)
                         ev o w2,
             m s1 = (o, (w2, (snd s1 ++ [ev])%list)) ->
             (forall c' msg r d, o <> ExitJson c' msg r d) ->
             compute_instance.reads ev = false ->
             instance_permitted module (only instances) ev ->
             (forall a, reports compute_instance.reads true (k a)) ->
             exists rest,
               trace_of (bind m k s1)
               = (tr ++ compute_instance.InstanceList request :: rest)%list
               /\ ((Forall reading rest
                    /\ forall c msg r d,
                        result_of (bind m k s1) = ExitJson c msg r d -> c = false)
                   \/ (exists mutation rest',
                         rest = mutation :: rest'
                         /\ compute_instance.reads mutation = false
                         /\ instance_permitted module (only instances) mutation
                         /\ Forall reading rest'
                         /\ forall c msg r d,
                             result_of (bind m k s1) = ExitJson c msg r d -> c = true))).
  { intros m k ev o w2 Hfirst Hkind Hev Hperm Hk.
    destruct (bind_reports_after compute_instance.reads true m k s1 _ _ Hfirst Hkind Hk)
      as (rest' & Ht & Hr & Hc).
    exists (ev :: rest'). split; [rewrite Ht; simpl; now rewrite <- !app_assoc|].
    right. exists ev, rest'. repeat split; auto. }
  destruct (compute_instance.state module) eqn:Hs;
    destruct (only instances) as [i|] eqn:Hloc;
    try destruct (String.eqb_spec (compute_instance.instance_status i) "STOPPED")
      as [Hst|Hst].
  - (* present, STOPPED: start *)
    unfold compute_instance._start. first_rpc compute_instance.Instance s1.
    eapply Hloud; eauto.
    + simpl. eauto 10.
    + intros. unfold compute_instance._get. reports_auto.
  - (* present, not STOPPED *)
    apply Hquiet. apply reports_exit_json.
  - (* present, nothing located: create *)
    unfold compute_instance._create. first_rpc compute_instance.Instance s1.
    eapply Hloud; eauto.
    + simpl. auto.
    + intros. unfold compute_instance._get. reports_auto.
  - (* restarted, STOPPED: start *)
    rewrite bind_assoc.
    unfold compute_instance._start. first_rpc compute_instance.Instance s1.
    eapply Hloud; eauto.
    + simpl. eauto 10.
    + intros. unfold compute_instance._get, compute_instance.item_id. reports_auto.
  - (* restarted, not STOPPED: restart *)
    rewrite bind_assoc.
    unfold compute_instance._restart. first_rpc compute_instance.Instance s1.
    eapply Hloud; eauto.
    + simpl. eauto 10.
    + intros. unfold compute_instance._get, compute_instance.item_id. reports_auto.
  - (* restarted, nothing located *)
    apply Hquiet. intros s. exists []. unfold trace_of, result_of. simpl.
    rewrite app_nil_r. repeat split; auto; discriminate.
  - (* stopped, STOPPED: one more Get *)
    rewrite bind_assoc. apply Hquiet.
    apply reports_bind; [apply instance_get_reports|].
    intros fetched s. exists []. unfold trace_of, result_of. simpl.
    rewrite app_nil_r. repeat split; auto. now intros c msg r d [= <- _ _ _].
  - (* stopped, not STOPPED: stop *)
    rewrite bind_assoc.
    unfold compute_instance._stop. first_rpc compute_instance.Instance s1.
    eapply Hloud; eauto.
    + simpl. eauto 10.
    + intros. unfold compute_instance._get, compute_instance.item_id. reports_auto.
  - (* stopped, nothing located *)
    apply Hquiet. intros s. exists []. unfold trace_of, result_of. simpl.
    rewrite app_nil_r. repeat split; auto; discriminate.
  - (* absent, STOPPED: delete *)
    unfold compute_instance._delete. first_rpc compute_instance.Instance s1.
    eapply Hloud; eauto.
    + simpl. eauto 10.
    + intros. reports_auto.
  - (* absent, not STOPPED: delete *)
    unfold compute_instance._delete. first_rpc compute_instance.Instance s1.
    eapply Hloud; eauto.
    + simpl. eauto 10.
    + intros. reports_auto.
  - (* absent, nothing located *)
    apply Hquiet. apply reports_exit_json.
Qed.

Lemma instance_run_unlocated w tr e w1 :
  compute_instance.List instance_service request w = (inl e, w1) ->
  compute_instance.main module instance_service operation_service fuel (w, tr)
  = (FailJson ("unknown error find instance "
               ++ Py.repr (compute_instance.folder_id module)
               ++ " by filter " ++ Py.repr (compute_instance.find_filter module)
               ++ ". Error was: " ++ Py.str_exn e),
     (w1, tr ++ [compute_instance.InstanceList request])%list).
Proof.
  intros Hl. unfold request in *.
  unfold compute_instance.main, compute_instance._find, try_except, bind, rpc.
  cbn [fst snd]. now rewrite Hl.
Qed.
End InstanceShape.

Lemma disk_reading_mutations l :
  Forall (fun ev => compute_disk.reads ev = true) l -> disk_mutations l = 0%nat.
Proof.
  unfold disk_mutations. induction 1 as [|ev l Hev _ IH]; simpl; [reflexivity|].
  now rewrite Hev.
Qed.

Lemma instance_reading_mutations l :
  Forall (fun ev => compute_instance.reads ev = true) l -> instance_mutations l = 0%nat.
Proof.
  unfold instance_mutations. induction 1 as [|ev l Hev _ IH]; simpl; [reflexivity|].
  now rewrite Hev.
Qed.

(** X1. Whatever the remote side answers and however long the wait may
    last, a disk run makes at most one call that changes something, and
    when it ends through [exit_json] the change flag tells whether it made
    one: [changed=true] after exactly one such call, [changed=false] after
    none. *)
Theorem disk_changed_flag_is_truthful {L : Py.Lib} {W : Type}
        (module : compute_disk.params) (disk_service : compute_disk.DiskServiceStub W)
        (operation_service : OperationServiceStub W) (fuel : nat) w tr :
  let run := compute_disk.main module disk_service operation_service fuel (w, tr) in
  exists issued,
    trace_of run = (tr ++ issued)%list
    /\ (disk_mutations issued <= 1)%nat
    /\ forall changed msg resource diff,
        result_of run = ExitJson changed msg resource diff ->
        disk_mutations issued = if changed then 1%nat else 0%nat.
Proof.
  intros run. subst run.
  destruct (compute_disk.List disk_service (compute_disk.find_request module) w)
    as [[e|disks] w1] eqn:Hl.
  - rewrite (disk_run_unlocated module disk_service operation_service fuel w tr e w1 Hl).
    eexists. split; [reflexivity|].
    split; [unfold disk_mutations, instance_mutations; simpl; lia|]. discriminate.
  - destruct (disk_run_shape module disk_service operation_service fuel w tr disks w1 Hl)
      as (rest & Ht & [[Hr Hc]|(mutation & rest' & -> & Hm & _ & Hr & Hc)]).
    + exists (compute_disk.DiskList (compute_disk.find_request module) :: rest).
      split; [exact Ht|].
      assert (H0 : disk_mutations
                     (compute_disk.DiskList (compute_disk.find_request module) :: rest)
                   = 0%nat) by (apply disk_reading_mutations; now constructor).
      rewrite H0. split; [lia|]. intros changed msg r d He.
      now rewrite (Hc _ _ _ _ He).
    + exists (compute_disk.DiskList (compute_disk.find_request module)
                :: mutation :: rest').
      split; [exact Ht|].
      assert (H1 : disk_mutations
                     (compute_disk.DiskList (compute_disk.find_request module)
                        :: mutation :: rest') = 1%nat).
      { unfold disk_mutations. simpl. rewrite Hm. simpl. f_equal.
        now apply disk_reading_mutations. }
      rewrite H1. split; [lia|]. intros changed msg r d He.
      now rewrite (Hc _ _ _ _ He).
Qed.

(** X2. The same for an instance run: at most one call that changes
    something, and [changed] is true exactly when the run made one. *)
Theorem instance_changed_flag_is_truthful {L : Py.Lib} {W : Type}
        (module : compute_instance.params)
        (instance_service : compute_instance.InstanceServiceStub W)
        (operation_service : OperationServiceStub W) (fuel : nat) w tr :
  let run :=
    compute_instance.main module instance_service operation_service fuel (w, tr) in
  exists issued,
    trace_of run = (tr ++ issued)%list
    /\ (instance_mutations issued <= 1)%nat
    /\ forall changed msg resource diff,
        result_of run = ExitJson changed msg resource diff ->
        instance_mutations issued = if changed then 1%nat else 0%nat.
Proof.
  intros run. subst run.
  destruct (compute_instance.List instance_service
              (compute_instance.find_request module) w) as [[e|instances] w1] eqn:Hl.
  - rewrite (instance_run_unlocated module instance_service operation_service fuel
               w tr e w1 Hl).
    eexists. split; [reflexivity|].
    split; [unfold disk_mutations, instance_mutations; simpl; lia|]. discriminate.
  - destruct (instance_run_shape module instance_service operation_service fuel
                w tr instances w1 Hl)
      as (rest & Ht & [[Hr Hc]|(mutation & rest' & -> & Hm & _ & Hr & Hc)]).
    + exists (compute_instance.InstanceList (compute_instance.find_request module)
                :: rest).
      split; [exact Ht|].
      assert (H0 : instance_mutations
                     (compute_instance.InstanceList
                        (compute_instance.find_request module) :: rest)
                   = 0%nat) by (apply instance_reading_mutations; now constructor).
      rewrite H0. split; [lia|]. intros changed msg r d He.
      now rewrite (Hc _ _ _ _ He).
    + exists (compute_instance.InstanceList (compute_instance.find_request module)
                :: mutation :: rest').
      split; [exact Ht|].
      assert (H1 : instance_mutations
                     (compute_instance.InstanceList
                        (compute_instance.find_request module)
                        :: mutation :: rest') = 1%nat).
      { unfold instance_mutations. simpl. rewrite Hm. simpl. f_equal.
        now apply instance_reading_mutations. }
      rewrite H1. split; [lia|]. intros changed msg r d He.
      now rewrite (Hc _ _ _ _ He).
Qed.

Lemma disk_reading_permitted {L : Py.Lib} module located ev :
  compute_disk.reads ev = true -> disk_permitted module located ev.
Proof. destruct ev; simpl; auto; discriminate. Qed.

Lemma instance_reading_permitted module located ev :
  compute_instance.reads ev = true -> instance_permitted module located ev.
Proof. destruct ev; simpl; auto; discriminate. Qed.

(** X3. Once the list call has answered, every call of a disk run is
    permitted by the target and by what was located: Create is made only
    for [present] with nothing located (also when two or more disks are
    listed), Update only for [present] on the located disk when it
    differs, Delete only for [absent] on the located disk. So a run for
    [absent] never creates or updates, and a run for [present] never
    deletes. *)
Theorem disk_calls_follow_target {L : Py.Lib} {W : Type}
        (module : compute_disk.params) (disk_service : compute_disk.DiskServiceStub W)
        (operation_service : OperationServiceStub W) (fuel : nat) w tr disks w1 :
  compute_disk.List disk_service (compute_disk.find_request module) w
  = (inr disks, w1) ->
  let run := compute_disk.main module disk_service operation_service fuel (w, tr) in
  exists issued,
    trace_of run = (tr ++ issued)%list
    /\ Forall (disk_permitted module (only disks)) issued
    /\ (compute_disk.state module = compute_disk.absent ->
        (forall request, ~ In (compute_disk.DiskCreate request) issued)
        /\ (forall request, ~ In (compute_disk.DiskUpdate request) issued))
    /\ (compute_disk.state module = compute_disk.present ->
        forall id, ~ In (compute_disk.DiskDelete id) issued).
Proof.
  intros Hl run. subst run.
  assert (H : exists issued,
             trace_of (compute_disk.main module disk_service operation_service fuel
                         (w, tr)) = (tr ++ issued)%list
             /\ Forall (disk_permitted module (only disks)) issued).
  { destruct (disk_run_shape module disk_service operation_service fuel w tr disks w1 Hl)
      as (rest & Ht & [[Hr Hc]|(mutation & rest' & -> & Hm & Hp & Hr & Hc)]);
      eexists; (split; [exact Ht|]); repeat constructor; auto;
        eapply Forall_impl; try eassumption; intros;
          now apply disk_reading_permitted. }
  destruct H as (issued & Ht & Hp). exists issued. split; [exact Ht|].
  split; [exact Hp|]. rewrite Forall_forall in Hp. split.
  - intros Hs. split; intros request Hin; apply Hp in Hin; simpl in Hin;
      destruct Hin as [Hin _]; congruence.
  - intros Hs id Hin. apply Hp in Hin. simpl in Hin. destruct Hin as [Hin _].
    congruence.
Qed.

(** X4. Once the list call has answered, every call of an instance run is
    permitted by the target and by what was located: Create only for
    [present] with nothing located; Start only for [present] or
    [restarted] on a located STOPPED instance; Restart only for
    [restarted] and Stop only for [stopped], on a located instance that is
    not STOPPED; Delete only for [absent]. So a run for [stopped] never
    starts, restarts, creates or deletes, and only a run for [absent]
    deletes. *)
Theorem instance_calls_follow_target {L : Py.Lib} {W : Type}
        (module : compute_instance.params)
        (instance_service : compute_instance.InstanceServiceStub W)
        (operation_service : OperationServiceStub W) (fuel : nat) w tr instances w1 :
  compute_instance.List instance_service (compute_instance.find_request module) w
  = (inr instances, w1) ->
  let run :=
    compute_instance.main module instance_service operation_service fuel (w, tr) in
  exists issued,
    trace_of run = (tr ++ issued)%list
    /\ Forall (instance_permitted module (only instances)) issued
    /\ (compute_instance.state module = compute_instance.stopped ->
        forall id request,
          ~ In (compute_instance.InstanceStart id) issued
          /\ ~ In (compute_instance.InstanceRestart id) issued
          /\ ~ In (compute_instance.InstanceCreate request) issued
          /\ ~ In (compute_instance.InstanceDelete id) issued)
    /\ (compute_instance.state module <> compute_instance.absent ->
        forall id, ~ In (compute_instance.InstanceDelete id) issued).
Proof.
  intros Hl run. subst run.
  assert (H : exists issued,
             trace_of (compute_instance.main module instance_service operation_service
                         fuel (w, tr)) = (tr ++ issued)%list
             /\ Forall (instance_permitted module (only instances)) issued).
  { destruct (instance_run_shape module instance_service operation_service fuel
                w tr instances w1 Hl)
      as (rest & Ht & [[Hr Hc]|(mutation & rest' & -> & Hm & Hp & Hr & Hc)]);
      eexists; (split; [exact Ht|]); repeat constructor; auto;
        eapply Forall_impl; try eassumption; intros;
          now apply instance_reading_permitted. }
  destruct H as (issued & Ht & Hp). exists issued. split; [exact Ht|].
  split; [exact Hp|]. rewrite Forall_forall in Hp. split.
  - intros Hs id request. repeat split; intros Hin; apply Hp in Hin; simpl in Hin;
      rewrite Hs in Hin; intuition discriminate.
  - intros Hs id Hin. apply Hp in Hin. simpl in Hin. destruct Hin as [Hin _].
    congruence.
Qed.

(** The running sample disk, too small for the desired size. *)
Lemma disk_calls_follow_target_witness :
  exists issued,
    trace_of (compute_disk.main (L := Sample.lib) (Sample.disk_params compute_disk.present)
                (Sample.disks [Sample.data1_small]) (Sample.operations 1 None) 5
                (0%nat, [])) = issued
    /\ Forall (disk_permitted (L := Sample.lib) (Sample.disk_params compute_disk.present)
                 (Some Sample.data1_small)) issued
    /\ forall id, ~ In (compute_disk.DiskDelete id) issued.
Proof.
  destruct (disk_calls_follow_target (L := Sample.lib)
              (Sample.disk_params compute_disk.present)
              (Sample.disks [Sample.data1_small]) (Sample.operations 1 None) 5
              0%nat [] [Sample.data1_small] 0%nat eq_refl)
    as (issued & Ht & Hp & _ & Hd).
  exists issued. split; [exact Ht|]. split; [exact Hp|]. now apply Hd.
Defined.

(** The sample instance, running, under target [stopped]. *)
Lemma instance_calls_follow_target_witness :
  exists issued,
    trace_of (compute_instance.main (L := Sample.lib)
                (Sample.instance_params compute_instance.stopped)
                (Sample.instances [Sample.vm "RUNNING"] "STOPPED")
                (Sample.operations 1 None) 5 (0%nat, [])) = issued
    /\ Forall (instance_permitted (Sample.instance_params compute_instance.stopped)
                 (Some (Sample.vm "RUNNING"))) issued
    /\ forall id, ~ In (compute_instance.InstanceStart id) issued.
Proof.
  destruct (instance_calls_follow_target (L := Sample.lib)
              (Sample.instance_params compute_instance.stopped)
              (Sample.instances [Sample.vm "RUNNING"] "STOPPED")
              (Sample.operations 1 None) 5
              0%nat [] [Sample.vm "RUNNING"] 0%nat eq_refl)
    as (issued & Ht & Hp & Hs & _).
  exists issued. split; [exact Ht|]. split; [exact Hp|].
  intros id. now apply (Hs eq_refl id (compute_instance.create_request
                                        (Sample.instance_params compute_instance.stopped))).
Defined.

(** ** Failures *)

Section StopFacts.
Context {W E R : Type}.

Lemma bind_fails {A B} (m : @M W E R A) (k : A -> @M W E R B) s msg s' :
  m s = (FailJson msg, s') -> bind m k s = (FailJson msg, s').
Proof. unfold bind. now intros ->. Qed.

(** A step that does not return ends the code that follows it. *)
Lemma bind_stops {A} (m : @M W E R A) (k : A -> @M W E R A) s o s' :
  m s = (o, s') -> (forall a, o <> Returns a) -> bind m k s = (o, s').
Proof.
  unfold bind. intros -> Ho. destruct o as [a| | | |]; try reflexivity.
  now destruct (Ho a).
Qed.

Lemma try_rpc_raised {A} (ev : E) (stub : W -> (Py.exn + A) * W)
      (text : Py.exn -> string) w tr e w' :
  stub w = (inl e, w') ->
  try_except (R := R) (rpc ev stub) (fun e => fail_json (text e)) (w, tr)
  = (FailJson (text e), (w', tr ++ [ev])%list).
Proof. unfold try_except, rpc, fail_json. simpl. now intros ->. Qed.
End StopFacts.

Ltac raised H := erewrite bind_fails by (apply try_rpc_raised; exact H).

(** X5. When the List call of the locator raises, the run fails at once
    with a message that carries the text of the exception, and makes no
    other call. *)
Theorem locate_failure_is_fatal {L : Py.Lib} {W : Type}
        (operation_service : OperationServiceStub W) (fuel : nat) :
  (forall (module : compute_disk.params) (disk_service : compute_disk.DiskServiceStub W)
          w tr e w1,
      compute_disk.List disk_service (compute_disk.find_request module) w = (inl e, w1) ->
      compute_disk.main module disk_service operation_service fuel (w, tr)
      = (FailJson ("unknown error find disk " ++ Py.repr (compute_disk.name module)
                   ++ ". Error was: " ++ Py.str_exn e),
         (w1, tr ++ [compute_disk.DiskList (compute_disk.find_request module)])%list))
  /\
  (forall (module : compute_instance.params)
          (instance_service : compute_instance.InstanceServiceStub W) w tr e w1,
      compute_instance.List instance_service (compute_instance.find_request module) w
      = (inl e, w1) ->
      compute_instance.main module instance_service operation_service fuel (w, tr)
      = (FailJson ("unknown error find instance "
                   ++ Py.repr (compute_instance.folder_id module)
                   ++ " by filter " ++ Py.repr ("name = " ++ Py.repr (compute_instance.name module))
                   ++ ". Error was: " ++ Py.str_exn e),
         (w1, tr ++ [compute_instance.InstanceList
                       (compute_instance.find_request module)])%list)).
Proof.
  split; intros.
  - now apply disk_run_unlocated.
  - now apply instance_run_unlocated.
Qed.

(** The service is unavailable when the locator lists. *)
Lemma locate_failure_is_fatal_witness :
  compute_disk.main (L := Sample.lib) (Sample.disk_params compute_disk.present)
    (Cases.disks_with (inl Cases.unavailable) (inr Sample.data1)
       (inr (Sample.started "op-1" "epd1")))
    (Sample.operations 1 None) 5 (0%nat, [])
  = (FailJson "unknown error find disk 'data-1'. Error was: StatusCode.UNAVAILABLE",
     (0%nat, [compute_disk.DiskList
                (compute_disk.find_request (L := Sample.lib)
                   (Sample.disk_params compute_disk.present))]))
  /\ result_of (compute_instance.main (L := Sample.lib)
                  (Sample.instance_params compute_instance.absent)
                  (Cases.instances_with (inl Cases.unavailable) (inr (Sample.vm "RUNNING"))
                     (inr (Sample.started "op-1" "fhm1")))
                  (Sample.operations 1 None) 5 (0%nat, []))
     = FailJson ("unknown error find instance 'b1g0' by filter 'name = 'vm-1''. "
                 ++ "Error was: StatusCode.UNAVAILABLE").
Proof.
  split.
  - rewrite (proj1 (locate_failure_is_fatal (L := Sample.lib)
                      (Sample.operations 1 None) 5)
                   (Sample.disk_params compute_disk.present)
                   (Cases.disks_with (inl Cases.unavailable) (inr Sample.data1)
                      (inr (Sample.started "op-1" "epd1")))
                   0%nat [] Cases.unavailable 0%nat eq_refl).
    reflexivity.
  - unfold result_of.
    rewrite (proj2 (locate_failure_is_fatal (L := Sample.lib)
                      (Sample.operations 1 None) 5)
                   (Sample.instance_params compute_instance.absent)
                   (Cases.instances_with (inl Cases.unavailable)
                      (inr (Sample.vm "RUNNING")) (inr (Sample.started "op-1" "fhm1")))
                   0%nat [] Cases.unavailable 0%nat eq_refl).
    reflexivity.
Defined.




(** X6. When the mutating call a disk run decides on (Create, Update or
    Delete) raises, the run fails at once with the message of that call,
    which carries the text of the exception: nothing is polled and nothing
    is read back. *)
Theorem disk_call_failure_is_fatal {L : Py.Lib} {W : Type}
        (module : compute_disk.params) (disk_service : compute_disk.DiskServiceStub W)
        (operation_service : OperationServiceStub W)
        fuel w tr listed w1 call stub text e w2 :
  compute_disk.List disk_service (compute_disk.find_request module) w
  = (inr listed, w1) ->
  disk_step module disk_service listed call stub text ->
  stub w1 = (inl e, w2) ->
  compute_disk.main module disk_service operation_service fuel (w, tr)
  = (FailJson (text ++ ". Error was: " ++ Py.str_exn e),
     (w2, tr ++ [compute_disk.DiskList (compute_disk.find_request module); call])%list).
Proof.
  intros Hl Hstep He. unfold compute_disk.main.
  rewrite (bind_returns _ _ _ _ _ (disk_find_answer module disk_service w tr _ w1 Hl)).
  change (match listed with [disk] => Some disk | _ => None end) with (only listed).
  destruct Hstep as [Hs Hloc|disk Hs Hloc Hn|disk Hs Hloc]; rewrite Hs, Hloc; try rewrite Hn;
    unfold compute_disk._create, compute_disk._update, compute_disk._delete;
    raised He; rewrite <- !app_assoc; reflexivity.
Qed.

(** The sample disk is to be deleted and the service is unavailable. *)
Lemma disk_call_failure_is_fatal_witness :
  compute_disk.main (L := Sample.lib) (Sample.disk_params compute_disk.absent)
    (Cases.disks_with (inr [Sample.data1]) (inr Sample.data1) (inl Cases.unavailable))
    (Sample.operations 1 None) 5 (0%nat, [])
  = (FailJson "unknown error delete disk 'data-1'. Error was: StatusCode.UNAVAILABLE",
     (0%nat,
      [compute_disk.DiskList
         (compute_disk.find_request (L := Sample.lib)
            (Sample.disk_params compute_disk.absent));
       compute_disk.DiskDelete "epd1"])).
Proof.
  exact (disk_call_failure_is_fatal (L := Sample.lib)
           (Sample.disk_params compute_disk.absent)
           (Cases.disks_with (inr [Sample.data1]) (inr Sample.data1)
              (inl Cases.unavailable))
           (Sample.operations 1 None) 5 0%nat [] [Sample.data1] 0%nat _ _ _
           Cases.unavailable 0%nat eq_refl
           (disk_step_delete (L := Sample.lib) (Sample.disk_params compute_disk.absent)
              (Cases.disks_with (inr [Sample.data1]) (inr Sample.data1)
                 (inl Cases.unavailable))
              [Sample.data1] Sample.data1 eq_refl eq_refl) eq_refl).
Defined.

(** X7. When the wait on the operation of the mutating call does not
    return (the operation ends with an error, a poll raises, or it is still
    pending), a disk run ends with the very outcome of the wait and in the
    session the wait leaves: the resource is not read back and no second
    mutating call repairs or undoes the first. *)
Theorem disk_wait_failure_ends_run {L : Py.Lib} {W : Type}
        (module : compute_disk.params) (disk_service : compute_disk.DiskServiceStub W)
        (operation_service : OperationServiceStub W)
        fuel w tr listed w1 call stub text operation w2 o s3 :
  compute_disk.List disk_service (compute_disk.find_request module) w
  = (inr listed, w1) ->
  disk_step module disk_service listed call stub text ->
  stub w1 = (inr operation, w2) ->
  compute_disk._wait module operation_service fuel (op_id operation)
    (w2, (tr ++ [compute_disk.DiskList (compute_disk.find_request module); call])%list)
  = (o, s3) ->
  (forall u, o <> Returns u) ->
  compute_disk.main module disk_service operation_service fuel (w, tr) = (o, s3).
Proof.
  intros Hl Hstep Ha Hw Ho. unfold compute_disk.main.
  rewrite (bind_returns _ _ _ _ _ (disk_find_answer module disk_service w tr _ w1 Hl)).
  change (match listed with [disk] => Some disk | _ => None end) with (only listed).
  destruct Hstep as [Hs Hloc|disk Hs Hloc Hn|disk Hs Hloc]; rewrite Hs, Hloc; try rewrite Hn;
    unfold compute_disk._create, compute_disk._update, compute_disk._delete;
    answered Ha; rewrite <- !app_assoc; apply bind_stops; assumption.
Qed.

(** The sample disk is created and the operation fails with code 3. *)
Lemma disk_wait_failure_ends_run_witness :
  compute_disk.main (L := Sample.lib) (Sample.disk_params compute_disk.present)
    (Sample.disks [])
    (Sample.operations 1 (Some {| code := 3; message := "quota exceeded" |})) 5
    (0%nat, [])
  = (FailJson ("unknown error operation disk 'data-1'. Error was: "
               ++ "unknown operation error code '3'. Error was: quota exceeded"),
     (2%nat,
      [compute_disk.DiskList
         (compute_disk.find_request (L := Sample.lib)
            (Sample.disk_params compute_disk.present));
       compute_disk.DiskCreate
         (compute_disk.create_request (Sample.disk_params compute_disk.present));
       compute_disk.Sleep 1; compute_disk.OperationGet "op-create";
       compute_disk.Sleep 1; compute_disk.OperationGet "op-create"])).
Proof.
  apply (disk_wait_failure_ends_run (L := Sample.lib)
           (Sample.disk_params compute_disk.present) (Sample.disks [])
           (Sample.operations 1 (Some {| code := 3; message := "quota exceeded" |}))
           5 0%nat [] [] 0%nat _ _ _ (Sample.started "op-create" "epd1") 0%nat
           _ _ eq_refl
           (disk_step_create (L := Sample.lib) (Sample.disk_params compute_disk.present)
              (Sample.disks []) [] eq_refl eq_refl) eq_refl eq_refl).
  discriminate.
Defined.

Lemma instance_located {L : Py.Lib} {W : Type} (module : compute_instance.params)
      (instance_service : compute_instance.InstanceServiceStub W)
      w tr listed w1 :
  compute_instance.List instance_service (compute_instance.find_request module) w
  = (inr listed, w1) ->
  compute_instance._find module instance_service (w, tr)
  = (Returns (only listed),
     (w1, tr ++ [compute_instance.InstanceList (compute_instance.find_request module)])%list).
Proof. apply instance_find_answer. Qed.

Ltac instance_branch Hl tr Hs Hloc :=
  unfold compute_instance.main;
  rewrite (bind_returns _ _ _ _ _ (instance_located _ _ _ tr _ _ Hl));
  rewrite Hs, Hloc;
  unfold compute_instance._create, compute_instance._start, compute_instance._restart,
    compute_instance._stop, compute_instance._delete.

(** X8. When the mutating call an instance run decides on (Create, Start,
    Restart, Stop or Delete) raises, the run fails at once with the message
    of that call, which carries the text of the exception: nothing is
    polled and nothing is read back. *)
Theorem instance_call_failure_is_fatal {L : Py.Lib} {W : Type}
        (module : compute_instance.params)
        (instance_service : compute_instance.InstanceServiceStub W)
        (operation_service : OperationServiceStub W)
        fuel w tr listed w1 call stub text e w2 :
  compute_instance.List instance_service (compute_instance.find_request module) w
  = (inr listed, w1) ->
  instance_step module instance_service listed call stub text ->
  stub w1 = (inl e, w2) ->
  compute_instance.main module instance_service operation_service fuel (w, tr)
  = (FailJson (text ++ ". Error was: " ++ Py.str_exn e),
     (w2, tr ++ [compute_instance.InstanceList (compute_instance.find_request module);
                 call])%list).
Proof.
  intros Hl Hstep He.
  destruct Hstep as [Hs Hloc|i [Hs|Hs] Hloc Hst|i Hs Hloc Hst|i Hs Hloc Hst|i Hs Hloc].
  - instance_branch Hl tr Hs Hloc. raised He. now rewrite <- !app_assoc.
  - instance_branch Hl tr Hs Hloc. rewrite Hst, String.eqb_refl.
    raised He. now rewrite <- !app_assoc.
  - instance_branch Hl tr Hs Hloc. rewrite Hst, String.eqb_refl, bind_assoc.
    raised He. now rewrite <- !app_assoc.
  - instance_branch Hl tr Hs Hloc. apply String.eqb_neq in Hst. rewrite Hst, bind_assoc.
    raised He. now rewrite <- !app_assoc.
  - instance_branch Hl tr Hs Hloc. apply String.eqb_neq in Hst. rewrite Hst, bind_assoc.
    raised He. now rewrite <- !app_assoc.
  - instance_branch Hl tr Hs Hloc. raised He. now rewrite <- !app_assoc.
Qed.

(** The sample instance is to be stopped and the service is unavailable. *)
Lemma instance_call_failure_is_fatal_witness :
  compute_instance.main (L := Sample.lib)
    (Sample.instance_params compute_instance.stopped)
    (Cases.instances_with (inr [Sample.vm "RUNNING"]) (inr (Sample.vm "RUNNING"))
       (inl Cases.unavailable))
    (Sample.operations 1 None) 5 (0%nat, [])
  = (FailJson ("unknown error stopping instance by id 'fhm1'. "
               ++ "Error was: StatusCode.UNAVAILABLE"),
     (0%nat,
      [compute_instance.InstanceList
         (compute_instance.find_request (L := Sample.lib)
            (Sample.instance_params compute_instance.stopped));
       compute_instance.InstanceStop "fhm1"])).
Proof.
  apply (instance_call_failure_is_fatal (L := Sample.lib)
           (Sample.instance_params compute_instance.stopped)
           (Cases.instances_with (inr [Sample.vm "RUNNING"]) (inr (Sample.vm "RUNNING"))
              (inl Cases.unavailable))
           (Sample.operations 1 None) 5 0%nat [] [Sample.vm "RUNNING"] 0%nat _ _ _
           Cases.unavailable 0%nat eq_refl
           (instance_step_stop (L := Sample.lib)
              (Sample.instance_params compute_instance.stopped)
              (Cases.instances_with (inr [Sample.vm "RUNNING"])
                 (inr (Sample.vm "RUNNING")) (inl Cases.unavailable))
              [Sample.vm "RUNNING"] (Sample.vm "RUNNING") eq_refl eq_refl
              ltac:(discriminate)) eq_refl).
Defined.

(** X9. When the wait on the operation of the mutating call does not
    return (the operation ends with an error, a poll raises, or it is still
    pending), an instance run ends with the very outcome of the wait and in
    the session the wait leaves: the instance is not read back and no
    second mutating call follows. *)
Theorem instance_wait_failure_ends_run {L : Py.Lib} {W : Type}
        (module : compute_instance.params)
        (instance_service : compute_instance.InstanceServiceStub W)
        (operation_service : OperationServiceStub W)
        fuel w tr listed w1 call stub text operation w2 o s3 :
  compute_instance.List instance_service (compute_instance.find_request module) w
  = (inr listed, w1) ->
  instance_step module instance_service listed call stub text ->
  stub w1 = (inr operation, w2) ->
  compute_instance._wait module operation_service fuel (op_id operation)
    (w2, (tr ++ [compute_instance.InstanceList (compute_instance.find_request module);
                 call])%list)
  = (o, s3) ->
  (forall u, o <> Returns u) ->
  compute_instance.main module instance_service operation_service fuel (w, tr) = (o, s3).
Proof.
  intros Hl Hstep Ha Hw Ho.
  destruct Hstep as [Hs Hloc|i [Hs|Hs] Hloc Hst|i Hs Hloc Hst|i Hs Hloc Hst|i Hs Hloc].
  - instance_branch Hl tr Hs Hloc.
    answered Ha. rewrite <- !app_assoc. now apply bind_stops.
  - instance_branch Hl tr Hs Hloc. rewrite Hst, String.eqb_refl.
    answered Ha. rewrite <- !app_assoc. now apply bind_stops.
  - instance_branch Hl tr Hs Hloc. rewrite Hst, String.eqb_refl, bind_assoc.
    answered Ha. rewrite <- !app_assoc. now apply bind_stops.
  - instance_branch Hl tr Hs Hloc. apply String.eqb_neq in Hst. rewrite Hst, bind_assoc.
    answered Ha. rewrite <- !app_assoc. now apply bind_stops.
  - instance_branch Hl tr Hs Hloc. apply String.eqb_neq in Hst. rewrite Hst, bind_assoc.
    answered Ha. rewrite <- !app_assoc. now apply bind_stops.
  - instance_branch Hl tr Hs Hloc.
    answered Ha. rewrite <- !app_assoc. now apply bind_stops.
Qed.

(** The sample instance is restarted and a poll of the operation raises. *)
Lemma instance_wait_failure_ends_run_witness :
  compute_instance.main (L := Sample.lib)
    (Sample.instance_params compute_instance.restarted)
    (Sample.instances [Sample.vm "RUNNING"] "RUNNING")
    (Cases.operations_raising 1 Cases.unavailable) 5 (0%nat, [])
  = (FailJson ("unknown error operation disk 'vm-1'. "
               ++ "Error was: StatusCode.UNAVAILABLE"),
     (2%nat,
      [compute_instance.InstanceList
         (compute_instance.find_request (L := Sample.lib)
            (Sample.instance_params compute_instance.restarted));
       compute_instance.InstanceRestart "fhm1";
       compute_instance.Sleep 1; compute_instance.OperationGet "op-restart";
       compute_instance.Sleep 1; compute_instance.OperationGet "op-restart"])).
Proof.
  apply (instance_wait_failure_ends_run (L := Sample.lib)
           (Sample.instance_params compute_instance.restarted)
           (Sample.instances [Sample.vm "RUNNING"] "RUNNING")
           (Cases.operations_raising 1 Cases.unavailable)
           5 0%nat [] [Sample.vm "RUNNING"] 0%nat _ _ _
           (Sample.started "op-restart" "fhm1") 0%nat _ _ eq_refl
           (instance_step_restart (L := Sample.lib)
              (Sample.instance_params compute_instance.restarted)
              (Sample.instances [Sample.vm "RUNNING"] "RUNNING")
              [Sample.vm "RUNNING"] (Sample.vm "RUNNING") eq_refl eq_refl
              ltac:(discriminate)) eq_refl eq_refl).
  discriminate.
Defined.

(** ** Edge cases of create and of the wait *)

(** X10. When the operation a Create call answers with carries no
    metadata, the run still creates and waits; once the operation has
    completed it ends with an uncaught [KeyError] for the key [metadata]:
    nothing is read back and neither [exit_json] nor [fail_json] is
    reached. *)
Theorem create_without_metadata_raises {L : Py.Lib} {W : Type}
        (operation_service : OperationServiceStub W)
        (k fuel : nat) (operation : Operation) (w2 w3 : W) :
  succeeds operation_service k fuel operation w2 w3 ->
  op_metadata operation = None ->
  (forall (module : compute_disk.params) (disk_service : compute_disk.DiskServiceStub W)
          w tr listed w1,
      compute_disk.state module = compute_disk.present ->
      compute_disk.List disk_service (compute_disk.find_request module) w
      = (inr listed, w1) ->
      only listed = None ->
      compute_disk.Create disk_service (compute_disk.create_request module) w1
      = (inr operation, w2) ->
      compute_disk.main module disk_service operation_service fuel (w, tr)
      = (Raises (Py.KeyError "metadata"),
         (w3, tr ++ [compute_disk.DiskList (compute_disk.find_request module);
                     compute_disk.DiskCreate (compute_disk.create_request module)]
                 ++ compute_disk.polls (S k) (op_id operation))%list))
  /\
  (forall (module : compute_instance.params)
          (instance_service : compute_instance.InstanceServiceStub W)
          w tr listed w1,
      compute_instance.state module = compute_instance.present ->
      compute_instance.List instance_service (compute_instance.find_request module) w
      = (inr listed, w1) ->
      only listed = None ->
      compute_instance.Create instance_service (compute_instance.create_request module) w1
      = (inr operation, w2) ->
      compute_instance.main module instance_service operation_service fuel (w, tr)
      = (Raises (Py.KeyError "metadata"),
         (w3, tr ++ [compute_instance.InstanceList (compute_instance.find_request module);
                     compute_instance.InstanceCreate
                       (compute_instance.create_request module)]
                 ++ compute_instance.polls (S k) (op_id operation))%list)).
Proof.
  intros Hwait Hm. split.
  - intros module disk_service w tr listed w1 Hs Hl Hloc Hc. unfold compute_disk.main.
    rewrite (bind_returns _ _ _ _ _ (disk_find_answer module disk_service w tr _ w1 Hl)).
    change (match listed with [disk] => Some disk | _ => None end) with (only listed).
    rewrite Hs, Hloc. unfold compute_disk._create. answered Hc.
    rewrite (bind_returns _ _ _ _ _
               (disk_waited module operation_service k fuel w2 w3 operation Hwait _)).
    rewrite Hm. unfold raise. now rewrite <- !app_assoc.
  - intros module instance_service w tr listed w1 Hs Hl Hloc Hc.
    unfold compute_instance.main.
    rewrite (bind_returns _ _ _ _ _ (instance_located _ _ _ tr _ _ Hl)).
    rewrite Hs, Hloc. unfold compute_instance._create. answered Hc.
    rewrite (bind_returns _ _ _ _ _
               (instance_waited module operation_service k fuel w2 w3 operation Hwait _)).
    rewrite Hm. unfold raise. now rewrite <- !app_assoc.
Qed.

Lemma bare_operation_succeeds id :
  succeeds (Sample.operations 1 None) 1 5 (Cases.bare id) 0%nat 2%nat.
Proof.
  split; [lia|]. eexists. split; [apply sample_operation_reaches|reflexivity].
Qed.

(** A disk is created and the operation handle has no metadata. *)
Lemma create_without_metadata_raises_witness :
  compute_disk.main (L := Sample.lib) (Sample.disk_params compute_disk.present)
    (Cases.disks_with (inr []) (inr Sample.data1) (inr (Cases.bare "op-create")))
    (Sample.operations 1 None) 5 (0%nat, [])
  = (Raises (Py.KeyError "metadata"),
     (2%nat,
      [compute_disk.DiskList
         (compute_disk.find_request (L := Sample.lib)
            (Sample.disk_params compute_disk.present));
       compute_disk.DiskCreate
         (compute_disk.create_request (Sample.disk_params compute_disk.present));
       compute_disk.Sleep 1; compute_disk.OperationGet "op-create";
       compute_disk.Sleep 1; compute_disk.OperationGet "op-create"])).
Proof.
  exact (proj1 (create_without_metadata_raises (L := Sample.lib)
                  (Sample.operations 1 None) 1 5 (Cases.bare "op-create") 0%nat 2%nat
                  (bare_operation_succeeds _) eq_refl)
               (Sample.disk_params compute_disk.present)
               (Cases.disks_with (inr []) (inr Sample.data1)
                  (inr (Cases.bare "op-create")))
               0%nat [] [] 0%nat eq_refl eq_refl eq_refl eq_refl).
Defined.

Lemma polls_snoc {call : Type} (turn : list call) (n : nat) (tr : list call) :
  ((tr ++ concat (repeat turn n)) ++ turn = tr ++ concat (repeat turn (S n)))%list.
Proof.
  rewrite <- app_assoc. f_equal. induction n as [|n IH]; simpl.
  - now rewrite app_nil_r.
  - rewrite <- app_assoc. f_equal. exact IH.
Qed.

Section KeepsPolling.
Context {L : Py.Lib} {W : Type}.
Variable operation_service : OperationServiceStub W.

Lemma disk_wait_loop_polled k : forall fuel id w tr w',
  polled operation_service k id w = Some w' -> (k <= fuel)%nat ->
  compute_disk.wait_loop operation_service fuel id (w, tr)
  = compute_disk.wait_loop operation_service (fuel - k) id
      (w', (tr ++ compute_disk.polls k id)%list).
Proof.
  induction k as [|k IH]; intros fuel id w tr w' Hp Hle; simpl in Hp.
  - injection Hp as <-. unfold compute_disk.polls. simpl.
    now rewrite app_nil_r, Nat.sub_0_r.
  - destruct fuel as [|fuel]; [lia|]. rewrite disk_wait_loop_step.
    destruct (operation_Get operation_service id w) as [[e|o] w2]; [discriminate|].
    unfold compute_disk.polls in *.
    destruct (op_done o) as [[|]|]; try discriminate;
      (rewrite (IH fuel id w2 _ w' Hp); [|lia]); now rewrite polls_S_app.
Qed.

Lemma instance_wait_loop_polled k : forall fuel id w tr w',
  polled operation_service k id w = Some w' -> (k <= fuel)%nat ->
  compute_instance.wait_loop operation_service fuel id (w, tr)
  = compute_instance.wait_loop operation_service (fuel - k) id
      (w', (tr ++ compute_instance.polls k id)%list).
Proof.
  induction k as [|k IH]; intros fuel id w tr w' Hp Hle; simpl in Hp.
  - injection Hp as <-. unfold compute_instance.polls. simpl.
    now rewrite app_nil_r, Nat.sub_0_r.
  - destruct fuel as [|fuel]; [lia|]. rewrite instance_wait_loop_step.
    destruct (operation_Get operation_service id w) as [[e|o] w2]; [discriminate|].
    unfold compute_instance.polls in *.
    destruct (op_done o) as [[|]|]; try discriminate;
      (rewrite (IH fuel id w2 _ w' Hp); [|lia]); now rewrite polls_S_app.
Qed.
End KeepsPolling.

(** X11. The wait has no deadline and no backoff: as long as the records
    polled are not done, each turn sleeps one second and polls again. After
    [k] such polls the loop has made exactly [k] sleeps and [k] polls and
    is still going, and with more turns allowed the trace starts with
    those. An error payload in a record that is not done is not looked
    at. *)
Theorem wait_has_no_deadline {L : Py.Lib} {W : Type}
        (operation_service : OperationServiceStub W) k id w w' :
  polled operation_service k id w = Some w' ->
  (forall module tr,
      compute_disk._wait module operation_service k id (w, tr)
      = (Pending, (w', tr ++ compute_disk.polls k id)%list)
      /\ forall fuel, (k <= fuel)%nat ->
           exists rest,
             trace_of (compute_disk._wait module operation_service fuel id (w, tr))
             = (tr ++ compute_disk.polls k id ++ rest)%list)
  /\ (forall module tr,
         compute_instance._wait module operation_service k id (w, tr)
         = (Pending, (w', tr ++ compute_instance.polls k id)%list)
         /\ forall fuel, (k <= fuel)%nat ->
              exists rest,
                trace_of (compute_instance._wait module operation_service fuel id (w, tr))
                = (tr ++ compute_instance.polls k id ++ rest)%list).
Proof.
  intros Hp. split; intros module tr; split.
  - unfold compute_disk._wait, try_except.
    rewrite (disk_wait_loop_polled operation_service k k id w tr w' Hp (le_n k)).
    now rewrite Nat.sub_diag.
  - intros fuel Hle.
    destruct (disk_wait_emits operation_service (fun _ => True) module (fuel - k) id
                (fun _ _ => I) (w', (tr ++ compute_disk.polls k id)%list))
      as (rest & Ht & _).
    exists rest. unfold compute_disk._wait, try_except in *.
    rewrite (disk_wait_loop_polled operation_service k fuel id w tr w' Hp Hle).
    rewrite Ht. simpl. now rewrite <- app_assoc.
  - unfold compute_instance._wait, try_except.
    rewrite (instance_wait_loop_polled operation_service k k id w tr w' Hp (le_n k)).
    now rewrite Nat.sub_diag.
  - intros fuel Hle.
    destruct (instance_wait_emits operation_service (fun _ => True) module (fuel - k) id
                (fun _ _ => I) (w', (tr ++ compute_instance.polls k id)%list))
      as (rest & Ht & _).
    exists rest. unfold compute_instance._wait, try_except in *.
    rewrite (instance_wait_loop_polled operation_service k fuel id w tr w' Hp Hle).
    rewrite Ht. simpl. now rewrite <- app_assoc.
Qed.

(** Three polls of an operation that is never done. *)
Lemma wait_has_no_deadline_witness :
  compute_disk._wait (L := Sample.lib) (Sample.disk_params compute_disk.present)
    Cases.operations_stuck 3 "op-1" (0%nat, [])
  = (Pending,
     (3%nat, [compute_disk.Sleep 1; compute_disk.OperationGet "op-1";
              compute_disk.Sleep 1; compute_disk.OperationGet "op-1";
              compute_disk.Sleep 1; compute_disk.OperationGet "op-1"])).
Proof.
  exact (proj1 (proj1 (wait_has_no_deadline (L := Sample.lib) Cases.operations_stuck
                         3 "op-1" 0%nat 3%nat eq_refl)
                      (Sample.disk_params compute_disk.present) [])).
Defined.

(** X12. When a poll raises after [k] polls of an operation not yet done,
    the wait ends the run through [fail_json] with the text of the
    exception, after exactly [k + 1] sleeps and polls: a failing status
    request is not tried again. *)
Theorem wait_poll_failure_is_fatal {L : Py.Lib} {W : Type}
        (operation_service : OperationServiceStub W) k fuel id w w1 e w' :
  polled operation_service k id w = Some w1 ->
  operation_Get operation_service id w1 = (inl e, w') ->
  (k < fuel)%nat ->
  (forall module tr,
      compute_disk._wait module operation_service fuel id (w, tr)
      = (FailJson ("unknown error operation disk " ++ Py.repr (compute_disk.name module)
                   ++ ". Error was: " ++ Py.str_exn e),
         (w', tr ++ compute_disk.polls (S k) id)%list))
  /\ (forall module tr,
         compute_instance._wait module operation_service fuel id (w, tr)
         = (FailJson ("unknown error operation disk "
                      ++ Py.repr (compute_instance.name module)
                      ++ ". Error was: " ++ Py.str_exn e),
            (w', tr ++ compute_instance.polls (S k) id)%list)).
Proof.
  intros Hp He Hlt. split; intros module tr.
  - unfold compute_disk._wait, try_except.
    rewrite (disk_wait_loop_polled operation_service k fuel id w tr w1 Hp) by lia.
    replace (fuel - k)%nat with (S (fuel - S k)) by lia.
    rewrite disk_wait_loop_step, He. unfold fail_json, compute_disk.polls.
    now rewrite polls_snoc.
  - unfold compute_instance._wait, try_except.
    rewrite (instance_wait_loop_polled operation_service k fuel id w tr w1 Hp) by lia.
    replace (fuel - k)%nat with (S (fuel - S k)) by lia.
    rewrite instance_wait_loop_step, He. unfold fail_json, compute_instance.polls.
    now rewrite polls_snoc.
Qed.

(** The second poll raises. *)
Lemma wait_poll_failure_is_fatal_witness :
  compute_instance._wait (L := Sample.lib)
    (Sample.instance_params compute_instance.stopped)
    (Cases.operations_raising 1 Cases.unavailable) 5 "op-1" (0%nat, [])
  = (FailJson "unknown error operation disk 'vm-1'. Error was: StatusCode.UNAVAILABLE",
     (2%nat, [compute_instance.Sleep 1; compute_instance.OperationGet "op-1";
              compute_instance.Sleep 1; compute_instance.OperationGet "op-1"])).
Proof.
  exact (proj2 (wait_poll_failure_is_fatal (L := Sample.lib)
                  (Cases.operations_raising 1 Cases.unavailable)
                  1 5 "op-1" 0%nat 1%nat Cases.unavailable 2%nat eq_refl eq_refl
                  ltac:(lia))
               (Sample.instance_params compute_instance.stopped) []).
Defined.

(** ** The target [absent] *)

Lemma only_none {A : Type} (listed : list A) : length listed <> 1%nat -> only listed = None.
Proof. destruct listed as [|x [|y r]]; simpl; intros H; auto; lia. Qed.

(** X13. With target [absent], when the list answer does not have exactly
    one entry, the run exits with [changed=false] and no resource after the
    single List call. This is so when nothing is listed, and also when two
    or more resources of that name are listed: none of them is deleted. *)
Theorem absent_without_match_is_noop {L : Py.Lib} {W : Type}
        (operation_service : OperationServiceStub W) (fuel : nat) :
  (forall (module : compute_disk.params) (disk_service : compute_disk.DiskServiceStub W)
          w tr listed w1,
      compute_disk.state module = compute_disk.absent ->
      compute_disk.List disk_service (compute_disk.find_request module) w
      = (inr listed, w1) ->
      length listed <> 1%nat ->
      compute_disk.main module disk_service operation_service fuel (w, tr)
      = (ExitJson false ("disk " ++ Py.repr (compute_disk.name module) ++ " not exists")
                  None None,
         (w1, tr ++ [compute_disk.DiskList (compute_disk.find_request module)])%list))
  /\
  (forall (module : compute_instance.params)
          (instance_service : compute_instance.InstanceServiceStub W)
          w tr listed w1,
      compute_instance.state module = compute_instance.absent ->
      compute_instance.List instance_service (compute_instance.find_request module) w
      = (inr listed, w1) ->
      length listed <> 1%nat ->
      compute_instance.main module instance_service operation_service fuel (w, tr)
      = (ExitJson false
                  ("not found instance with name "
                   ++ Py.repr (compute_instance.name module)) None None,
         (w1, tr ++ [compute_instance.InstanceList
                       (compute_instance.find_request module)])%list)).
Proof.
  split.
  - intros module disk_service w tr listed w1 Hs Hl Hn. unfold compute_disk.main.
    rewrite (bind_returns _ _ _ _ _ (disk_find_answer module disk_service w tr _ w1 Hl)).
    change (match listed with [disk] => Some disk | _ => None end) with (only listed).
    now rewrite Hs, (only_none listed Hn).
  - intros module instance_service w tr listed w1 Hs Hl Hn.
    unfold compute_instance.main.
    rewrite (bind_returns _ _ _ _ _ (instance_located _ _ _ tr _ _ Hl)).
    now rewrite Hs, (only_none listed Hn).
Qed.

(** Two instances named alike are listed; target [absent]. *)
Lemma absent_without_match_is_noop_witness :
  compute_instance.main (L := Sample.lib)
    (Sample.instance_params compute_instance.absent)
    (Sample.instances [Sample.vm "RUNNING"; Sample.vm "STOPPED"] "RUNNING")
    (Sample.operations 1 None) 5 (0%nat, [])
  = (ExitJson false "not found instance with name 'vm-1'" None None,
     (0%nat,
      [compute_instance.InstanceList
         (compute_instance.find_request (L := Sample.lib)
            (Sample.instance_params compute_instance.absent))])).
Proof.
  apply (proj2 (absent_without_match_is_noop (L := Sample.lib)
                  (Sample.operations 1 None) 5)
               (Sample.instance_params compute_instance.absent)
               (Sample.instances [Sample.vm "RUNNING"; Sample.vm "STOPPED"] "RUNNING")
               0%nat [] [Sample.vm "RUNNING"; Sample.vm "STOPPED"] 0%nat
               eq_refl eq_refl).
  simpl. lia.
Defined.

(** ** The lookup of images *)

Lemma length_zero_iff (s : string) : Nat.eqb (String.length s) 0 = true <-> s = "".
Proof. destruct s; simpl; split; intros H; auto; discriminate. Qed.

Section ImagesLookup.
Context {L : Py.Lib} {S : lookup.Str} {W Message : Type}.
Variable service : compute_images.ImageServiceStub W Message.
Variable message_to_dict : Message -> Py.exn + compute_images.Image.
Variable folder_id : string.

Let each := compute_images.each service message_to_dict folder_id.
Let turn (term : string) : list compute_images.call :=
  [compute_images.Vvvv ("lookup latest image by family " ++ Py.repr term);
   compute_images.ImageGetLatestByFamily folder_id term].

(** One turn of the loop, case by case. *)
Lemma images_each_step term rest results w tr :
  each (term :: rest) results (w, tr)
  = if Nat.eqb (String.length (lookup.strip term)) 0
    then (lookup.Raises
            (lookup.AnsibleError "Image family is required and can't be empty"),
          (w, tr))
    else match compute_images.GetLatestByFamily service folder_id term w with
         | (inl e, w') =>
             (lookup.Raises
                (lookup.AnsibleError
                   ("unknown error getting image latest by family "
                    ++ Py.repr term ++ " in folder " ++ Py.repr folder_id
                    ++ ". Error was: " ++ Py.str_exn e)),
              (w', tr ++ turn term)%list)
         | (inr image, w') =>
             match message_to_dict image with
             | inl e =>
                 (lookup.Raises
                    (lookup.AnsibleError
                       ("unknown error formatting image dict: " ++ Py.str_exn e)),
                  (w', tr ++ turn term)%list)
             | inr dict => each rest (results ++ [dict])%list (w', tr ++ turn term)%list
             end
         end.
Proof.
  subst each turn. simpl.
  unfold lookup.bind, lookup.try_except, lookup.rpc, lookup.mark, lookup.raise,
    lookup.ret, lookup.lift.
  destruct (Nat.eqb (String.length (lookup.strip term)) 0); [reflexivity|]. simpl.
  destruct (compute_images.GetLatestByFamily service folder_id term w) as [[e|image] w'];
    simpl; rewrite <- app_assoc; simpl; [reflexivity|].
  destruct (message_to_dict image) as [e|dict]; reflexivity.
Qed.
End ImagesLookup.

Section ImagesFacts.
Context {L : Py.Lib} {S : lookup.Str} {W Message : Type}.
Variable service : compute_images.ImageServiceStub W Message.
Variable message_to_dict : Message -> Py.exn + compute_images.Image.
Variable folder_id : string.

Let each := compute_images.each service message_to_dict folder_id.
Let served := compute_images.served service message_to_dict folder_id.
Let calls := compute_images.calls (L := L) folder_id.

Lemma images_calls_app a b : calls (a ++ b) = (calls a ++ calls b)%list.
Proof. subst calls. unfold compute_images.calls. now rewrite flat_map_app. Qed.

Lemma images_each_served terms : forall results w tr images w',
  Forall (fun term => lookup.strip term <> "") terms ->
  served terms w = Some (images, w') ->
  each terms results (w, tr)
  = (lookup.Returns (results ++ images)%list, (w', tr ++ calls terms)%list)
  /\ length images = length terms.
Proof.
  induction terms as [|term rest IH]; intros results w tr images w' Hb Hs.
  - injection Hs as <- <-. subst each calls. simpl. now rewrite !app_nil_r.
  - subst each served calls. rewrite images_each_step.
    inversion Hb as [|? ? Hterm Hrest]; subst.
    destruct (Nat.eqb (String.length (lookup.strip term)) 0) eqn:Hz;
      [now apply length_zero_iff in Hz|].
    simpl in Hs.
    destruct (compute_images.GetLatestByFamily service folder_id term w)
      as [[e|image] w1]; [discriminate|].
    destruct (message_to_dict image) as [e|dict]; [discriminate|].
    destruct (compute_images.served service message_to_dict folder_id rest w1)
      as [[dicts w2]|] eqn:Hr; [|discriminate].
    injection Hs as <- <-.
    destruct (IH (results ++ [dict])%list w1
                 (tr ++ [compute_images.Vvvv ("lookup latest image by family "
                                               ++ Py.repr term);
                         compute_images.ImageGetLatestByFamily folder_id term])%list
                 dicts w2 Hrest Hr) as [He Hlen].
    split; [|simpl; now rewrite Hlen].
    rewrite He. simpl. now rewrite <- !app_assoc.
Qed.

(** [each] over two lists of terms, one after the other. *)
Lemma images_each_app a : forall b results s,
  each (a ++ b) results s = lookup.bind (each a results) (each b) s.
Proof.
  induction a as [|term a IH]; intros b results [w tr]; [reflexivity|].
  subst each. simpl app. unfold lookup.bind at 1.
  rewrite !images_each_step.
  destruct (Nat.eqb (String.length (lookup.strip term)) 0); [reflexivity|].
  destruct (compute_images.GetLatestByFamily service folder_id term w)
    as [[e|image] w1]; [reflexivity|].
  destruct (message_to_dict image) as [e|dict]; [reflexivity|].
  rewrite IH. reflexivity.
Qed.

(** The results so far are carried along untouched. *)
Lemma images_each_results terms : forall results s,
  each terms results s
  = match each terms [] s with
    | (lookup.Returns found, s') => (lookup.Returns (results ++ found)%list, s')
    | (lookup.Raises e, s') => (lookup.Raises e, s')
    end.
Proof.
  induction terms as [|term rest IH]; intros results [w tr].
  - subst each. simpl. unfold lookup.ret. now rewrite app_nil_r.
  - subst each. rewrite !images_each_step.
    destruct (Nat.eqb (String.length (lookup.strip term)) 0); [reflexivity|].
    destruct (compute_images.GetLatestByFamily service folder_id term w)
      as [[e|image] w1]; [reflexivity|].
    destruct (message_to_dict image) as [e|dict]; [reflexivity|].
    rewrite (IH (results ++ [dict])%list), (IH ([] ++ [dict])%list).
    destruct (compute_images.each service message_to_dict folder_id rest [] _)
      as [[found|e] s']; [|reflexivity].
    simpl. now rewrite <- app_assoc.
Qed.
End ImagesFacts.

(** X14. When no term is blank and every call and every rendering
    succeeds, the lookup of images returns one image per term, in the order
    of the terms, after one debug line and one call per term, each call in
    the folder configured. *)
Theorem images_lookup_in_order {L : Py.Lib} {S : lookup.Str} {W Message : Type}
        (service : compute_images.ImageServiceStub W Message)
        (message_to_dict : Message -> Py.exn + compute_images.Image)
        (folder_id : string) terms w tr images w' :
  Forall (fun term => lookup.strip term <> "") terms ->
  compute_images.served service message_to_dict folder_id terms w = Some (images, w') ->
  compute_images.run service message_to_dict folder_id terms (w, tr)
  = (lookup.Returns images, (w', tr ++ compute_images.calls folder_id terms)%list)
  /\ length images = length terms.
Proof.
  intros Hb Hs. unfold compute_images.run.
  exact (images_each_served service message_to_dict folder_id terms [] w tr images w'
           Hb Hs).
Qed.

(** Two families are looked up. *)
Lemma images_lookup_in_order_witness :
  compute_images.run (L := Sample.lib) (S := LookupCases.spaces)
    LookupCases.images LookupCases.rendered "standard-images"
    ["ubuntu-2204-lts"; "debian-11"] (0%nat, [])
  = (lookup.Returns [LookupCases.ubuntu; LookupCases.debian],
     (2%nat,
      [compute_images.Vvvv "lookup latest image by family 'ubuntu-2204-lts'";
       compute_images.ImageGetLatestByFamily "standard-images" "ubuntu-2204-lts";
       compute_images.Vvvv "lookup latest image by family 'debian-11'";
       compute_images.ImageGetLatestByFamily "standard-images" "debian-11"])).
Proof.
  apply (images_lookup_in_order (L := Sample.lib) (S := LookupCases.spaces)
           LookupCases.images LookupCases.rendered "standard-images"
           ["ubuntu-2204-lts"; "debian-11"] 0%nat []
           [LookupCases.ubuntu; LookupCases.debian] 2%nat).
  - repeat constructor; discriminate.
  - reflexivity.
Defined.

(** X15. The lookup of images stops at the first term that goes wrong, and
    what was found before is lost. A blank term raises [AnsibleError]
    before any debug line or call is made for it; a call that raises, or an
    answer that cannot be rendered, raises [AnsibleError] with the text of
    the exception right after that call. No term after the bad one is
    looked at. *)
Theorem images_lookup_stops_at_first_bad_term
        {L : Py.Lib} {S : lookup.Str} {W Message : Type}
        (service : compute_images.ImageServiceStub W Message)
        (message_to_dict : Message -> Py.exn + compute_images.Image)
        (folder_id : string) good bad rest w tr images w1 :
  Forall (fun term => lookup.strip term <> "") good ->
  compute_images.served service message_to_dict folder_id good w = Some (images, w1) ->
  let run :=
    compute_images.run service message_to_dict folder_id (good ++ bad :: rest) (w, tr) in
  let before := (tr ++ compute_images.calls folder_id good)%list in
  let after := (tr ++ compute_images.calls folder_id (good ++ [bad]))%list in
  (lookup.strip bad = "" ->
   run = (lookup.Raises
            (lookup.AnsibleError "Image family is required and can't be empty"),
          (w1, before)))
  /\ (lookup.strip bad <> "" ->
      forall e w2,
        compute_images.GetLatestByFamily service folder_id bad w1 = (inl e, w2) ->
        run = (lookup.Raises
                 (lookup.AnsibleError
                    ("unknown error getting image latest by family "
                     ++ Py.repr bad ++ " in folder " ++ Py.repr folder_id
                     ++ ". Error was: " ++ Py.str_exn e)),
               (w2, after)))
  /\ (lookup.strip bad <> "" ->
      forall image e w2,
        compute_images.GetLatestByFamily service folder_id bad w1 = (inr image, w2) ->
        message_to_dict image = inl e ->
        run = (lookup.Raises
                 (lookup.AnsibleError
                    ("unknown error formatting image dict: " ++ Py.str_exn e)),
               (w2, after))).
Proof.
  intros Hb Hs run before after. subst run before after. unfold compute_images.run.
  rewrite images_each_app. unfold lookup.bind.
  destruct (images_each_served service message_to_dict folder_id good [] w tr images w1
              Hb Hs) as [-> _].
  rewrite images_each_step, (images_calls_app folder_id good [bad]).
  repeat split.
  - intros Hz. now rewrite (proj2 (length_zero_iff _) Hz).
  - intros Hz e w2 He.
    destruct (Nat.eqb (String.length (lookup.strip bad)) 0) eqn:Hn;
      [now apply length_zero_iff in Hn|].
    rewrite He. simpl. now rewrite <- app_assoc.
  - intros Hz image e w2 Ha He.
    destruct (Nat.eqb (String.length (lookup.strip bad)) 0) eqn:Hn;
      [now apply length_zero_iff in Hn|].
    rewrite Ha, He. simpl. now rewrite <- app_assoc.
Qed.

(** A family of spaces only comes second; an unknown family comes second. *)
Lemma images_lookup_stops_at_first_bad_term_witness :
  compute_images.run (L := Sample.lib) (S := LookupCases.spaces)
    LookupCases.images LookupCases.rendered "standard-images"
    ["debian-11"; "  "; "ubuntu-2204-lts"] (0%nat, [])
  = (lookup.Raises (lookup.AnsibleError "Image family is required and can't be empty"),
     (1%nat,
      [compute_images.Vvvv "lookup latest image by family 'debian-11'";
       compute_images.ImageGetLatestByFamily "standard-images" "debian-11"]))
  /\ compute_images.run (L := Sample.lib) (S := LookupCases.spaces)
       LookupCases.images LookupCases.rendered "standard-images"
       ["debian-11"; "centos-7"; "ubuntu-2204-lts"] (0%nat, [])
     = (lookup.Raises
          (lookup.AnsibleError
             ("unknown error getting image latest by family 'centos-7' in folder "
              ++ "'standard-images'. Error was: StatusCode.NOT_FOUND")),
        (2%nat,
         [compute_images.Vvvv "lookup latest image by family 'debian-11'";
          compute_images.ImageGetLatestByFamily "standard-images" "debian-11";
          compute_images.Vvvv "lookup latest image by family 'centos-7'";
          compute_images.ImageGetLatestByFamily "standard-images" "centos-7"])).
Proof.
  split.
  - apply (proj1 (images_lookup_stops_at_first_bad_term
                    (L := Sample.lib) (S := LookupCases.spaces)
                    LookupCases.images LookupCases.rendered "standard-images"
                    ["debian-11"] "  " ["ubuntu-2204-lts"] 0%nat []
                    [LookupCases.debian] 1%nat
                    ltac:(repeat constructor; discriminate) eq_refl)).
    reflexivity.
  - exact (proj1 (proj2 (images_lookup_stops_at_first_bad_term
                           (L := Sample.lib) (S := LookupCases.spaces)
                           LookupCases.images LookupCases.rendered "standard-images"
                           ["debian-11"] "centos-7" ["ubuntu-2204-lts"] 0%nat []
                           [LookupCases.debian] 1%nat
                           ltac:(repeat constructor; discriminate) eq_refl))
                 ltac:(discriminate) (Py.RpcError "StatusCode.NOT_FOUND") 2%nat eq_refl).
Defined.

Section ImagesInvariant.
Context {L : Py.Lib} {S : lookup.Str} {W Message : Type}.
Variable service : compute_images.ImageServiceStub W Message.
Variable message_to_dict : Message -> Py.exn + compute_images.Image.
Variable folder_id : string.

End ImagesInvariant.


(** X17. The lookup of images over two lists of terms, one after the
    other, is the lookup over the first list followed, when that one
    returns, by the lookup over the second from the session it leaves: the
    results are the two lists of results joined, and an error of either
    part is the error of the whole. *)
Theorem images_lookup_composes {L : Py.Lib} {S : lookup.Str} {W Message : Type}
        (service : compute_images.ImageServiceStub W Message)
        (message_to_dict : Message -> Py.exn + compute_images.Image)
        (folder_id : string) first second s :
  compute_images.run service message_to_dict folder_id (first ++ second) s
  = match compute_images.run service message_to_dict folder_id first s with
    | (lookup.Returns found, s1) =>
        match compute_images.run service message_to_dict folder_id second s1 with
        | (lookup.Returns more, s2) => (lookup.Returns (found ++ more)%list, s2)
        | (lookup.Raises e, s2) => (lookup.Raises e, s2)
        end
    | (lookup.Raises e, s1) => (lookup.Raises e, s1)
    end.
Proof.
  unfold compute_images.run. rewrite images_each_app. unfold lookup.bind.
  destruct (compute_images.each service message_to_dict folder_id first [] s)
    as [[found|e] s1]; [|reflexivity].
  apply images_each_results.
Qed.

(** ** The lookup of subnets *)

Section SubnetsFacts.
Context {L : Py.Lib} {W Response : Type}.
Variable service : vpc_subnets.SubnetServiceStub W Response.
Variable subnets_of : Response -> Py.exn + list vpc_subnets.Subnet.

Let each := vpc_subnets.each service subnets_of.
Let turn (term : string) : list vpc_subnets.call :=
  [vpc_subnets.Vvvv ("lookup subnet in folder id " ++ Py.repr term);
   vpc_subnets.SubnetList term].

(** One turn of the loop, case by case. *)
Lemma subnets_each_step term rest results w tr :
  each (term :: rest) results (w, tr)
  = if String.eqb term ""
    then (lookup.Raises (lookup.AnsibleError "Folder ID is required and can't be empty"),
          (w, tr))
    else match vpc_subnets.List service term w with
         | (inl e, w') =>
             (lookup.Raises
                (lookup.AnsibleError
                   ("unknown error listing subnets in folder " ++ Py.repr term
                    ++ ". Error was: " ++ Py.str_exn e)),
              (w', tr ++ turn term)%list)
         | (inr response, w') =>
             match subnets_of response with
             | inl e =>
                 (lookup.Raises
                    (lookup.AnsibleError
                       ("unknown error formatting subnet dict: " ++ Py.str_exn e)),
                  (w', tr ++ turn term)%list)
             | inr subnets => each rest (results ++ subnets)%list (w', tr ++ turn term)%list
             end
         end.
Proof.
  subst each turn. simpl.
  unfold lookup.bind, lookup.try_except, lookup.rpc, lookup.mark, lookup.raise,
    lookup.ret, lookup.lift.
  destruct (String.eqb term ""); [reflexivity|]. simpl.
  destruct (vpc_subnets.List service term w) as [[e|response] w'];
    simpl; rewrite <- app_assoc; simpl; [reflexivity|].
  destruct (subnets_of response) as [e|subnets]; reflexivity.
Qed.
End SubnetsFacts.

Section SubnetsLoop.
Context {L : Py.Lib} {W Response : Type}.
Variable service : vpc_subnets.SubnetServiceStub W Response.
Variable subnets_of : Response -> Py.exn + list vpc_subnets.Subnet.

Let each := vpc_subnets.each service subnets_of.

Lemma subnets_calls_app a b :
  vpc_subnets.calls (L := L) (a ++ b)
  = (vpc_subnets.calls a ++ vpc_subnets.calls b)%list.
Proof. unfold vpc_subnets.calls. now rewrite flat_map_app. Qed.

Lemma subnets_each_served terms : forall results w tr lists w',
  Forall (fun term => term <> "") terms ->
  vpc_subnets.served service subnets_of terms w = Some (lists, w') ->
  each terms results (w, tr)
  = (lookup.Returns (results ++ concat lists)%list,
     (w', tr ++ vpc_subnets.calls terms)%list)
  /\ length lists = length terms.
Proof.
  induction terms as [|term rest IH]; intros results w tr lists w' Hb Hs.
  - injection Hs as <- <-. subst each. simpl. now rewrite !app_nil_r.
  - subst each. rewrite subnets_each_step.
    inversion Hb as [|? ? Hterm Hrest]; subst.
    apply String.eqb_neq in Hterm. rewrite Hterm.
    simpl in Hs.
    destruct (vpc_subnets.List service term w) as [[e|response] w1]; [discriminate|].
    destruct (subnets_of response) as [e|subnets]; [discriminate|].
    destruct (vpc_subnets.served service subnets_of rest w1)
      as [[more w2]|] eqn:Hr; [|discriminate].
    injection Hs as <- <-.
    destruct (IH (results ++ subnets)%list w1
                 (tr ++ [vpc_subnets.Vvvv ("lookup subnet in folder id "
                                           ++ Py.repr term);
                         vpc_subnets.SubnetList term])%list
                 more w2 Hrest Hr) as [He Hlen].
    split; [|simpl; now rewrite Hlen].
    rewrite He. simpl. now rewrite <- !app_assoc.
Qed.

Lemma subnets_each_app a : forall b results s,
  each (a ++ b) results s = lookup.bind (each a results) (each b) s.
Proof.
  induction a as [|term a IH]; intros b results [w tr]; [reflexivity|].
  subst each. simpl app. unfold lookup.bind at 1.
  rewrite !subnets_each_step.
  destruct (String.eqb term ""); [reflexivity|].
  destruct (vpc_subnets.List service term w) as [[e|response] w1]; [reflexivity|].
  destruct (subnets_of response) as [e|subnets]; [reflexivity|].
  rewrite IH. reflexivity.
Qed.

End SubnetsLoop.

(** X18. When no term is the empty string and every call and every
    rendering succeeds, the lookup of subnets returns the subnets of the
    folders given, joined in the order of the folders, after one debug line
    and one List call per folder: one page per folder, no second request. *)
Theorem subnets_lookup_concatenates {L : Py.Lib} {W Response : Type}
        (service : vpc_subnets.SubnetServiceStub W Response)
        (subnets_of : Response -> Py.exn + list vpc_subnets.Subnet)
        terms w tr lists w' :
  Forall (fun term => term <> "") terms ->
  vpc_subnets.served service subnets_of terms w = Some (lists, w') ->
  vpc_subnets.run service subnets_of terms (w, tr)
  = (lookup.Returns (concat lists), (w', tr ++ vpc_subnets.calls terms)%list)
  /\ length lists = length terms.
Proof.
  intros Hb Hs. unfold vpc_subnets.run.
  exact (subnets_each_served service subnets_of terms [] w tr lists w' Hb Hs).
Qed.

(** An empty folder and the sample folder. *)
Lemma subnets_lookup_concatenates_witness :
  vpc_subnets.run (L := Sample.lib) LookupCases.subnets LookupCases.listed
    ["b1g9"; "b1g0"] (0%nat, [])
  = (lookup.Returns [LookupCases.default_a; LookupCases.default_b],
     (2%nat,
      [vpc_subnets.Vvvv "lookup subnet in folder id 'b1g9'"; vpc_subnets.SubnetList "b1g9";
       vpc_subnets.Vvvv "lookup subnet in folder id 'b1g0'";
       vpc_subnets.SubnetList "b1g0"])).
Proof.
  apply (subnets_lookup_concatenates (L := Sample.lib) LookupCases.subnets
           LookupCases.listed ["b1g9"; "b1g0"] 0%nat []
           [[]; [LookupCases.default_a; LookupCases.default_b]] 2%nat).
  - repeat constructor; discriminate.
  - reflexivity.
Defined.



(** X20. The lookup of subnets stops at the first term that goes wrong, and
    what was listed before is lost. The empty string raises [AnsibleError]
    before any debug line or call is made for it; a List call that raises,
    or an answer that cannot be rendered, raises [AnsibleError] with the
    text of the exception right after that call. No term after the bad one
    is looked at. *)
Theorem subnets_lookup_stops_at_first_bad_term {L : Py.Lib} {W Response : Type}
        (service : vpc_subnets.SubnetServiceStub W Response)
        (subnets_of : Response -> Py.exn + list vpc_subnets.Subnet)
        good bad rest w tr lists w1 :
  Forall (fun term => term <> "") good ->
  vpc_subnets.served service subnets_of good w = Some (lists, w1) ->
  let run := vpc_subnets.run service subnets_of (good ++ bad :: rest) (w, tr) in
  let before := (tr ++ vpc_subnets.calls good)%list in
  let after := (tr ++ vpc_subnets.calls (good ++ [bad]))%list in
  (bad = "" ->
   run = (lookup.Raises (lookup.AnsibleError "Folder ID is required and can't be empty"),
          (w1, before)))
  /\ (bad <> "" ->
      forall e w2,
        vpc_subnets.List service bad w1 = (inl e, w2) ->
        run = (lookup.Raises
                 (lookup.AnsibleError
                    ("unknown error listing subnets in folder " ++ Py.repr bad
                     ++ ". Error was: " ++ Py.str_exn e)),
               (w2, after)))
  /\ (bad <> "" ->
      forall response e w2,
        vpc_subnets.List service bad w1 = (inr response, w2) ->
        subnets_of response = inl e ->
        run = (lookup.Raises
                 (lookup.AnsibleError
                    ("unknown error formatting subnet dict: " ++ Py.str_exn e)),
               (w2, after))).
Proof.
  intros Hb Hs run before after. subst run before after. unfold vpc_subnets.run.
  rewrite subnets_each_app. unfold lookup.bind.
  destruct (subnets_each_served service subnets_of good [] w tr lists w1 Hb Hs)
    as [-> _].
  rewrite subnets_each_step, (subnets_calls_app good [bad]).
  repeat split.
  - now intros ->.
  - intros Hz e w2 He. apply String.eqb_neq in Hz. rewrite Hz, He. simpl.
    now rewrite <- app_assoc.
  - intros Hz response e w2 Ha He. apply String.eqb_neq in Hz. rewrite Hz, Ha, He.
    simpl. now rewrite <- app_assoc.
Qed.

(** The empty string comes second. *)
Lemma subnets_lookup_stops_at_first_bad_term_witness :
  vpc_subnets.run (L := Sample.lib) LookupCases.subnets LookupCases.listed
    ["b1g0"; ""; "b1g9"] (0%nat, [])
  = (lookup.Raises (lookup.AnsibleError "Folder ID is required and can't be empty"),
     (1%nat,
      [vpc_subnets.Vvvv "lookup subnet in folder id 'b1g0'";
       vpc_subnets.SubnetList "b1g0"])).
Proof.
  apply (proj1 (subnets_lookup_stops_at_first_bad_term (L := Sample.lib)
                  LookupCases.subnets LookupCases.listed
                  ["b1g0"] "" ["b1g9"] 0%nat []
                  [[LookupCases.default_a; LookupCases.default_b]] 1%nat
                  ltac:(repeat constructor; discriminate) eq_refl)).
  reflexivity.
Defined.

(** ** A failing read after the change *)

(** X21. When the operation of a Create or an Update of a disk has
    completed and the Get that reads the disk back raises, the run ends
    through [fail_json] with the text of the exception: the change has been
    made remotely, yet the run reports a failure and no [changed] flag. *)
Theorem disk_read_back_failure_is_fatal {L : Py.Lib} {W : Type}
        (module : compute_disk.params) (disk_service : compute_disk.DiskServiceStub W)
        (operation_service : OperationServiceStub W)
        k fuel w tr listed w1 call stub text operation w2 w3 id e w4 :
  compute_disk.List disk_service (compute_disk.find_request module) w
  = (inr listed, w1) ->
  disk_step module disk_service listed call stub text ->
  stub w1 = (inr operation, w2) ->
  succeeds operation_service k fuel operation w2 w3 ->
  (call = compute_disk.DiskCreate (compute_disk.create_request module)
   /\ op_metadata operation = Some id)
  \/ (exists disk,
         only listed = Some disk /\ id = compute_disk.disk_id disk
         /\ call = compute_disk.DiskUpdate (compute_disk.update_request module id)) ->
  compute_disk.Get disk_service id w3 = (inl e, w4) ->
  compute_disk.main module disk_service operation_service fuel (w, tr)
  = (FailJson ("unknown error get disk " ++ Py.repr (compute_disk.name module)
               ++ ". Error was: " ++ Py.str_exn e),
     (w4, tr ++ [compute_disk.DiskList (compute_disk.find_request module); call]
             ++ compute_disk.polls (S k) (op_id operation)
             ++ [compute_disk.DiskGet id])%list).
Proof.
  intros Hl Hstep Ha Hwait Hid Hg. unfold compute_disk.main.
  rewrite (bind_returns _ _ _ _ _ (disk_find_answer module disk_service w tr _ w1 Hl)).
  change (match listed with [disk] => Some disk | _ => None end) with (only listed).
  destruct Hstep as [Hs Hloc|disk Hs Hloc Hn|disk Hs Hloc];
    destruct Hid as [[Hcall Hm]|(disk' & Hloc' & -> & Hcall)];
    try discriminate; try congruence.
  - rewrite Hs, Hloc. unfold compute_disk._create, compute_disk._get. answered Ha.
    rewrite (bind_returns _ _ _ _ _
               (disk_waited module operation_service k fuel w2 w3 operation Hwait _)).
    rewrite Hm. raised Hg. now rewrite <- !app_assoc.
  - assert (disk' = disk) by congruence. subst disk'.
    rewrite Hs, Hloc, Hn. unfold compute_disk._update, compute_disk._get. answered Ha.
    rewrite (bind_returns _ _ _ _ _
               (disk_waited module operation_service k fuel w2 w3 operation Hwait _)).
    cbv zeta. raised Hg. now rewrite <- !app_assoc.
Qed.

(** The sample disk is updated and cannot be read back. *)
Lemma disk_read_back_failure_is_fatal_witness :
  compute_disk.main (L := Sample.lib) (Sample.disk_params compute_disk.present)
    (Cases.disks_with (inr [Sample.data1_small]) (inl Cases.unavailable)
       (inr (Sample.started "op-update" "epd1")))
    (Sample.operations 1 None) 5 (0%nat, [])
  = (FailJson "unknown error get disk 'data-1'. Error was: StatusCode.UNAVAILABLE",
     (2%nat,
      [compute_disk.DiskList
         (compute_disk.find_request (L := Sample.lib)
            (Sample.disk_params compute_disk.present));
       compute_disk.DiskUpdate
         (compute_disk.update_request (Sample.disk_params compute_disk.present) "epd1");
       compute_disk.Sleep 1; compute_disk.OperationGet "op-update";
       compute_disk.Sleep 1; compute_disk.OperationGet "op-update";
       compute_disk.DiskGet "epd1"])).
Proof.
  apply (disk_read_back_failure_is_fatal (L := Sample.lib)
           (Sample.disk_params compute_disk.present)
           (Cases.disks_with (inr [Sample.data1_small]) (inl Cases.unavailable)
              (inr (Sample.started "op-update" "epd1")))
           (Sample.operations 1 None) 1 5 0%nat [] [Sample.data1_small] 0%nat _ _ _
           (Sample.started "op-update" "epd1") 0%nat 2%nat "epd1" Cases.unavailable 2%nat
           eq_refl
           (disk_step_update (L := Sample.lib) (Sample.disk_params compute_disk.present)
              (Cases.disks_with (inr [Sample.data1_small]) (inl Cases.unavailable)
                 (inr (Sample.started "op-update" "epd1")))
              [Sample.data1_small] Sample.data1_small eq_refl eq_refl eq_refl)
           eq_refl (sample_operation_succeeds _ _)).
  - right. exists Sample.data1_small. repeat split.
  - reflexivity.
Defined.

(** X22. When the operation of a Create, Start, Restart or Stop of an
    instance has completed and the Get that reads the instance back raises,
    the run ends through [fail_json] with the text of the exception: the
    change has been made remotely, yet the run reports a failure and no
    [changed] flag. *)
Theorem instance_read_back_failure_is_fatal {L : Py.Lib} {W : Type}
        (module : compute_instance.params)
        (instance_service : compute_instance.InstanceServiceStub W)
        (operation_service : OperationServiceStub W)
        k fuel w tr listed w1 call stub text operation w2 w3 id e w4 :
  compute_instance.List instance_service (compute_instance.find_request module) w
  = (inr listed, w1) ->
  instance_step module instance_service listed call stub text ->
  stub w1 = (inr operation, w2) ->
  succeeds operation_service k fuel operation w2 w3 ->
  (call = compute_instance.InstanceCreate (compute_instance.create_request module)
   /\ op_metadata operation = Some id)
  \/ (exists i,
         only listed = Some i /\ id = compute_instance.instance_id i
         /\ call <> compute_instance.InstanceDelete id) ->
  compute_instance.Get instance_service id w3 = (inl e, w4) ->
  compute_instance.main module instance_service operation_service fuel (w, tr)
  = (FailJson ("unknown error getting instance by id " ++ Py.repr id
               ++ ". Error was: " ++ Py.str_exn e),
     (w4, tr ++ [compute_instance.InstanceList (compute_instance.find_request module);
                 call]
             ++ compute_instance.polls (S k) (op_id operation)
             ++ [compute_instance.InstanceGet id "FULL"])%list).
Proof.
  intros Hl Hstep Ha Hwait Hid Hg.
  pose proof (instance_waited module operation_service k fuel w2 w3 operation Hwait)
    as Hw.
  destruct Hstep as [Hs Hloc|i [Hs|Hs] Hloc Hst|i Hs Hloc Hst|i Hs Hloc Hst|i Hs Hloc];
    destruct Hid as [[Hcall Hm]|(i' & Hloc' & -> & Hcall)];
    try discriminate; try congruence;
    try (assert (i' = i) by congruence; subst i').
  - instance_branch Hl tr Hs Hloc. unfold compute_instance._get. answered Ha.
    rewrite (bind_returns _ _ _ _ _ (Hw _)), Hm. raised Hg. now rewrite <- !app_assoc.
  - instance_branch Hl tr Hs Hloc. rewrite Hst, String.eqb_refl.
    unfold compute_instance._get. answered Ha.
    rewrite (bind_returns _ _ _ _ _ (Hw _)). raised Hg. now rewrite <- !app_assoc.
  - instance_branch Hl tr Hs Hloc. rewrite Hst, String.eqb_refl, bind_assoc.
    unfold compute_instance._get, compute_instance.item_id. answered Ha.
    rewrite (bind_returns _ _ _ _ _ (Hw _)). unfold ret at 1. unfold bind at 1.
    raised Hg. now rewrite <- !app_assoc.
  - instance_branch Hl tr Hs Hloc. apply String.eqb_neq in Hst. rewrite Hst, bind_assoc.
    unfold compute_instance._get, compute_instance.item_id. answered Ha.
    rewrite (bind_returns _ _ _ _ _ (Hw _)). unfold ret at 1. unfold bind at 1.
    raised Hg. now rewrite <- !app_assoc.
  - instance_branch Hl tr Hs Hloc. apply String.eqb_neq in Hst. rewrite Hst, bind_assoc.
    unfold compute_instance._get, compute_instance.item_id. answered Ha.
    rewrite (bind_returns _ _ _ _ _ (Hw _)). unfold ret at 1. unfold bind at 1.
    raised Hg. now rewrite <- !app_assoc.
Qed.

(** The stopped sample instance is started and cannot be read back. *)
Lemma instance_read_back_failure_is_fatal_witness :
  compute_instance.main (L := Sample.lib)
    (Sample.instance_params compute_instance.present)
    (Cases.instances_with (inr [Sample.vm "STOPPED"]) (inl Cases.unavailable)
       (inr (Sample.started "op-start" "fhm1")))
    (Sample.operations 1 None) 5 (0%nat, [])
  = (FailJson ("unknown error getting instance by id 'fhm1'. "
               ++ "Error was: StatusCode.UNAVAILABLE"),
     (2%nat,
      [compute_instance.InstanceList
         (compute_instance.find_request (L := Sample.lib)
            (Sample.instance_params compute_instance.present));
       compute_instance.InstanceStart "fhm1";
       compute_instance.Sleep 1; compute_instance.OperationGet "op-start";
       compute_instance.Sleep 1; compute_instance.OperationGet "op-start";
       compute_instance.InstanceGet "fhm1" "FULL"])).
Proof.
  apply (instance_read_back_failure_is_fatal (L := Sample.lib)
           (Sample.instance_params compute_instance.present)
           (Cases.instances_with (inr [Sample.vm "STOPPED"]) (inl Cases.unavailable)
              (inr (Sample.started "op-start" "fhm1")))
           (Sample.operations 1 None) 1 5 0%nat [] [Sample.vm "STOPPED"] 0%nat _ _ _
           (Sample.started "op-start" "fhm1") 0%nat 2%nat "fhm1" Cases.unavailable 2%nat
           eq_refl
           (instance_step_start (L := Sample.lib)
              (Sample.instance_params compute_instance.present)
              (Cases.instances_with (inr [Sample.vm "STOPPED"]) (inl Cases.unavailable)
                 (inr (Sample.started "op-start" "fhm1")))
              [Sample.vm "STOPPED"] (Sample.vm "STOPPED") (or_introl eq_refl)
              eq_refl eq_refl)
           eq_refl (sample_operation_succeeds _ _)).
  - right. exists (Sample.vm "STOPPED"). repeat split. discriminate.
  - reflexivity.
Defined.
